(** * FullAMIUpdate: reconciliation of ServiceNow exports against Jira and Confluence

    A shallow embedding of the reconciliation code of the repository
    (IssuesProcessing.py, jira_utils.py, sync_cdl_combined.py,
    business_domain.py, Business_service.py, rate_limit_config.py) and the
    properties of its specification that the code decides.

    Conventions.
    - A Python [str] is a Rocq [string]; its characters are the code points
      below 256.
    - A Python dict whose iteration order matters is an association list in
      iteration order.
    - Remote calls are answered by a script: the list (or function) of the
      replies the platform gives to the successive requests of one run. *)

From Stdlib Require Import String Ascii List Bool Arith NArith ZArith QArith Lia.
From Stdlib Require Import Sorted Permutation OrderedTypeEx.
Import ListNotations.

Open Scope nat_scope.
Open Scope string_scope.

(** ** Python string primitives *)

Module Py.

(** [str.isspace] on one character: U+0009..U+000D, U+001C..U+0020,
    U+0085 and U+00A0 are the whitespace code points below 256. *)
Definition isspace (c : ascii) : bool :=
  let n := N_of_ascii c in
  (((9 <=? n) && (n <=? 13)) || ((28 <=? n) && (n <=? 32))
   || (n =? 133) || (n =? 160))%N.

(** [str.lower] on one character: A..Z and the Latin-1 capitals
    U+00C0..U+00DE (U+00D7 is the multiplication sign) move up by 32. *)
Definition lower_char (c : ascii) : ascii :=
  let n := N_of_ascii c in
  if (((65 <=? n) && (n <=? 90))
      || ((192 <=? n) && (n <=? 222) && negb (n =? 215)))%N
  then ascii_of_N (n + 32) else c.

Fixpoint lower (s : string) : string :=
  match s with
  | EmptyString => EmptyString
  | String c r => String (lower_char c) (lower r)
  end.

Fixpoint lstrip (s : string) : string :=
  match s with
  | EmptyString => EmptyString
  | String c r => if isspace c then lstrip r else s
  end.

Fixpoint rstrip (s : string) : string :=
  match s with
  | EmptyString => EmptyString
  | String c r =>
      match rstrip r with
      | EmptyString => if isspace c then EmptyString else String c EmptyString
      | r' => String c r'
      end
  end.

(** [s.strip()] *)
Definition strip (s : string) : string := rstrip (lstrip s).

(** [s.startswith(p)] *)
Fixpoint startswith (s p : string) {struct p} : bool :=
  match p, s with
  | EmptyString, _ => true
  | String _ _, EmptyString => false
  | String a p', String b s' => Ascii.eqb a b && startswith s' p'
  end.

(** [s[:n]] *)
Fixpoint take (n : nat) (s : string) : string :=
  match n, s with
  | S n', String c r => String c (take n' r)
  | _, _ => EmptyString
  end.

(** [s[n:]] *)
Fixpoint drop (n : nat) (s : string) : string :=
  match n, s with
  | S n', String _ r => drop n' r
  | _, _ => s
  end.

(** [sub in s] *)
Fixpoint contains (s sub : string) : bool :=
  startswith s sub
  || match s with
     | EmptyString => false
     | String _ r => contains r sub
     end.

(** [s.split(sep)[0]] for a non-empty separator: the part of [s] before
    the first occurrence of [sep], all of [s] when there is none. *)
Fixpoint split_head (s sep : string) : string :=
  match s with
  | EmptyString => EmptyString
  | String c r => if startswith s sep then EmptyString
                  else String c (split_head r sep)
  end.

(** Truthiness of a string, and of an optional string ([None] and [""]
    are falsy). *)
Definition truthy (s : string) : bool := negb (s =? "").

Definition truthy_opt (o : option string) : bool :=
  match o with
  | Some s => truthy s
  | None => false
  end.

End Py.

(** ** JSON values read with [dict.get] *)

(** What [record.get(key)] can see for a key of an export record: the key is
    absent, it holds JSON null, or it holds a string. *)
Inductive jfield : Type :=
| Missing
| Null
| Str (s : string).

(** [record.get(key)]: an absent key reads as [None]. *)
Definition get (f : jfield) : option string :=
  match f with
  | Str s => Some s
  | Missing | Null => None
  end.

(** [record.get(key, default)]: only an absent key takes the default. *)
Definition get_default (f : jfield) (default : string) : option string :=
  match f with
  | Missing => Some default
  | Null => None
  | Str s => Some s
  end.

(** An f-string field [{v}]: [None] prints as the text None. *)
Definition fmt (v : option string) : string :=
  match v with
  | Some s => s
  | None => "None"
  end.

(** [a == b] against a string literal. *)
Definition opt_is (v : option string) (lit : string) : bool :=
  match v with
  | Some s => s =? lit
  | None => false
  end.

(** ** IssuesProcessing.py: the summary of a tracked service *)

Module Summary.

(** The loop of [_compare_fields] that removes every leading ["Retired-"]
    and ["Retired - "]. One round shortens the string by eight characters
    at least, so [fuel] rounds are enough as soon as [fuel] is the length
    of the string (see [strip_retired_prefixes_stable]). *)
Fixpoint strip_retired_prefixes (fuel : nat) (base_summary : string) : string :=
  match fuel with
  | O => base_summary
  | S fuel' =>
      if Py.startswith base_summary "Retired-"
         || Py.startswith base_summary "Retired - "
      then
        if Py.startswith base_summary "Retired - "
        then strip_retired_prefixes fuel'
               (Py.strip (Py.drop (String.length "Retired - ") base_summary))
        else if Py.startswith base_summary "Retired-"
        then strip_retired_prefixes fuel'
               (Py.strip (Py.drop (String.length "Retired-") base_summary))
        else strip_retired_prefixes fuel' base_summary
      else base_summary
  end.

Definition base_summary (current_summary : string) : string :=
  strip_retired_prefixes (String.length current_summary) current_summary.

(** The value [_compare_fields] stores under [updates["summary"]], if any. *)
Definition summary_update (operational_status : option string)
    (current_summary : string) : option string :=
  let base := base_summary current_summary in
  if opt_is operational_status "6" then
    let expected_summary := Py.take 255 ("Retired-" ++ base) in
    if current_summary =? expected_summary then None
    else Some expected_summary
  else
    if current_summary =? base then None
    else Some (Py.take 255 base).

(** The summary of the issue once the update is applied. *)
Definition summary_after (operational_status : option string)
    (current_summary : string) : string :=
  match summary_update operational_status current_summary with
  | Some s => s
  | None => current_summary
  end.

(** The retirement-label derivation: the summary a Retired service ends
    up with. *)
Definition derive (current_summary : string) : string :=
  summary_after (Some "6") current_summary.

(** The summary [create_business_service_issue] writes. *)
Definition create_summary (name sys_id : jfield) : string :=
  let name := get_default name "Unknown" in
  let sys_id := get_default sys_id "Unknown" in
  Py.take 255 (fmt name ++ " | " ++ fmt sys_id).

End Summary.


(** ** Python dicts kept in insertion order *)

Section Dict.
Context {K V : Type}.
Variable eqb : K -> K -> bool.

(** [d.get(k)] *)
Fixpoint dict_get (k : K) (d : list (K * V)) : option V :=
  match d with
  | [] => None
  | (k', v) :: r => if eqb k k' then Some v else dict_get k r
  end.

(** [d[k] = v]: an existing key keeps its place and takes the new value,
    a new key goes to the end. *)
Fixpoint dict_set (k : K) (v : V) (d : list (K * V)) : list (K * V) :=
  match d with
  | [] => [(k, v)]
  | (k', v') :: r =>
      if eqb k k' then (k', v) :: r else (k', v') :: dict_set k v r
  end.

End Dict.

(** Truthiness of a dict or of a list: non-empty. *)
Definition nonempty {A : Type} (l : list A) : bool :=
  match l with
  | [] => false
  | _ :: _ => true
  end.

(** [sorted(l, key=...)] as a stable insertion sort: [leb x y] tells that
    the key of [x] is at most the key of [y]; an element goes before the
    first element of the sorted rest that is not below it, so that equal
    keys keep their order. *)
Fixpoint insert_by {A : Type} (leb : A -> A -> bool) (x : A) (l : list A) : list A :=
  match l with
  | [] => [x]
  | y :: r => if leb x y then x :: y :: r else y :: insert_by leb x r
  end.

Definition sorted_by {A : Type} (leb : A -> A -> bool) (l : list A) : list A :=
  fold_right (insert_by leb) [] l.

(** [sorted(d.items())] for a dict with string keys. *)
Definition sorted_items {V : Type} (d : list (string * V)) : list (string * V) :=
  sorted_by (fun a b => String.leb (fst a) (fst b)) d.

(** [x in s] for a set or list of strings; [None] is never a member. *)
Definition str_in (x : string) (s : list string) : bool :=
  existsb (String.eqb x) s.

Definition opt_in (x : option string) (s : list string) : bool :=
  match x with
  | Some x => str_in x s
  | None => false
  end.

(** ** Business_service.py *)

(** [map_operational_status]: the label of a status code, [None] for
    [None] and for a code outside the table. *)
Definition status_mapping : list (string * string) :=
  [ ("1", "Operational (1)");
    ("2", "Non-Operational (2)");
    ("3", "Repair in Progress (3)");
    ("4", "DR Standby (4)");
    ("5", "Ready (5)");
    ("6", "Retired (6)");
    ("20", "Planned (20)") ].

Definition map_operational_status (status_code : option string) : option string :=
  match status_code with
  | None => None
  | Some code => dict_get String.eqb code status_mapping
  end.

(** ** IssuesProcessing.py: records, issues and the field comparison *)

Module Issues.

(** One record of the ServiceNow export, with the keys the code reads. *)
Record sn_record : Type := {
  name : jfield;
  sys_id : jfield;
  u_business_domain : jfield;
  u_short_service_id : jfield;
  operational_status : jfield;
  used_for : jfield;
  service_classification : jfield
}.

(** The entries of [CUSTOM_FIELDS] that [_compare_fields] compares. The
    configuration gives each one a Jira field id of its own. *)
Inductive custom_field : Type :=
| business_domain_id
| business_service_name
| business_service_short_name
| business_service_status
| business_service_usage
| business_service_classification.

(** What Jira returns for a custom field: nothing, a text, or an option
    object with a [value] and a [name]. *)
Inductive jira_value : Type :=
| JNone
| JText (s : string)
| JDict (value name : option string).

Record issue_fields : Type := {
  custom : custom_field -> jira_value;
  business_service_id : option string;
  summary : string;
  labels : list string
}.

Record issue : Type := {
  key : string;
  fields : issue_fields
}.

(** The keys of the [fields] part of an update. *)
Inductive update_key : Type :=
| KCustom (f : custom_field)
| KSummary
| KAssignee
| KReporter.

(** The values of the [fields] part of an update: [None], a text,
    [{"value": s}] or [{"accountId": s}]. *)
Inductive update_value : Type :=
| VNone
| VText (s : string)
| VSelect (s : string)
| VAccount (s : string).

Definition custom_field_eqb (a b : custom_field) : bool :=
  match a, b with
  | business_domain_id, business_domain_id
  | business_service_name, business_service_name
  | business_service_short_name, business_service_short_name
  | business_service_status, business_service_status
  | business_service_usage, business_service_usage
  | business_service_classification, business_service_classification => true
  | _, _ => false
  end.

Definition update_key_eqb (a b : update_key) : bool :=
  match a, b with
  | KCustom f, KCustom g => custom_field_eqb f g
  | KSummary, KSummary | KAssignee, KAssignee | KReporter, KReporter => true
  | _, _ => false
  end.

Definition updates : Type := list (update_key * update_value).

Definition set_update : update_key -> update_value -> updates -> updates :=
  dict_set update_key_eqb.

Definition get_update : update_key -> updates -> option update_value :=
  dict_get update_key_eqb.

Inductive field_type : Type := text | select.

Record mapping : Type := {
  field_id : custom_field;
  json_key : sn_record -> jfield;
  type : field_type;
  mapper : bool
}.

Definition field_mappings : list mapping :=
  [ {| field_id := business_domain_id; json_key := u_business_domain;
       type := text; mapper := false |};
    {| field_id := business_service_name; json_key := name;
       type := text; mapper := false |};
    {| field_id := business_service_short_name; json_key := u_short_service_id;
       type := text; mapper := false |};
    {| field_id := business_service_status; json_key := operational_status;
       type := select; mapper := true |};
    {| field_id := business_service_usage; json_key := used_for;
       type := select; mapper := false |};
    {| field_id := business_service_classification;
       json_key := service_classification;
       type := select; mapper := false |} ].

(** [_normalize_value] *)
Definition _normalize_value (value : option string) : option string :=
  match value with
  | None => None
  | Some v => let value_str := Py.strip v in
              if Py.truthy value_str then Some value_str else None
  end.

(** The Jira side of one comparison: an option object is read as
    [value or name]. *)
Definition current_value_of (v : jira_value) : option string :=
  match v with
  | JNone => None
  | JText s => Some s
  | JDict value name => if Py.truthy_opt value then value else name
  end.

(** The export side of one comparison; the status code goes through
    [map_operational_status]. *)
Definition new_value_of (m : mapping) (record : sn_record) : option string :=
  let new_value := get (json_key m record) in
  if mapper m then
    match new_value with
    | Some _ => map_operational_status new_value
    | None => new_value
    end
  else new_value.

Definition option_string_eqb (a b : option string) : bool :=
  match a, b with
  | Some x, Some y => x =? y
  | None, None => true
  | _, _ => false
  end.

(** One round of the loop of [_compare_fields] over [field_mappings]. *)
Definition compare_one (fields : issue_fields) (record : sn_record)
    (upd : updates) (m : mapping) : updates :=
  let current_value := _normalize_value (current_value_of (custom fields (field_id m))) in
  let new_value := _normalize_value (new_value_of m record) in
  if negb (option_string_eqb current_value new_value) then
    match new_value with
    | Some v =>
        if Py.truthy v then
          match type m with
          | select => set_update (KCustom (field_id m)) (VSelect v) upd
          | text => set_update (KCustom (field_id m)) (VText v) upd
          end
        else upd
    | None => upd
    end
  else upd.

(** [_compare_fields] *)
Definition _compare_fields (existing_issue : issue) (record : sn_record) : updates :=
  let fields := fields existing_issue in
  let upd := fold_left (compare_one fields record) field_mappings [] in
  match Summary.summary_update (get (operational_status record)) (summary fields) with
  | Some s => set_update KSummary (VText s) upd
  | None => upd
  end.

Definition VERIFICATION_LABEL : string := "business-service-verified".

(** The request body [_update_business_service_optimized] builds. *)
Record payload : Type := {
  labels_add : list string;
  comment_add : list string;
  payload_fields : option updates
}.

(** The body of [_update_business_service_optimized] up to the request:
    [now] is the date of the run, [rep_id] what
    [get_mandatory_reporter_id] returns. *)
Definition update_payload (now : string) (rep_id : option string)
    (record : sn_record) (existing_issue : issue) : payload :=
  let fields_to_update := _compare_fields existing_issue record in
  let fields_to_update := set_update KAssignee VNone fields_to_update in
  let fields_to_update :=
    match rep_id with
    | Some id => if Py.truthy id
                 then set_update KReporter (VAccount id) fields_to_update
                 else fields_to_update
    | None => fields_to_update
    end in
  {| labels_add := [VERIFICATION_LABEL];
     comment_add := if nonempty fields_to_update
                    then ["Business service info updated on " ++ now]
                    else [];
     payload_fields := if nonempty fields_to_update
                       then Some fields_to_update else None |}.

(** The fields the comparison finds different: a compared custom field
    whose normalized values differ, or a summary to rewrite. *)
Definition field_differs (fields : issue_fields) (record : sn_record)
    (m : mapping) : bool :=
  negb (option_string_eqb
          (_normalize_value (current_value_of (custom fields (field_id m))))
          (_normalize_value (new_value_of m record))).

Definition summary_differs (fields : issue_fields) (record : sn_record) : bool :=
  match Summary.summary_update (get (operational_status record)) (summary fields) with
  | Some _ => true
  | None => false
  end.

Definition some_field_differs (existing_issue : issue) (record : sn_record) : bool :=
  existsb (field_differs (fields existing_issue) record) field_mappings
  || summary_differs (fields existing_issue) record.

(** The summary an update proposes, read from [updates["summary"]]. *)
Definition proposed_summary (u : updates) : option string :=
  match get_update KSummary u with
  | Some (VText s) => Some s
  | _ => None
  end.

(** [len(s) <= n] for a summary, when there is one. *)
Definition within (n : nat) (o : option string) : Prop :=
  match o with
  | Some s => String.length s <= n
  | None => True
  end.

End Issues.

(** ** Remote calls *)

(** The answer of the platform to one request: a transport-level fault (the
    request raises, or [raise_for_status] does), or a decoded body. *)
Inductive reply (A : Type) : Type :=
| Fault
| Body (a : A).
Arguments Fault {A}.
Arguments Body {A} a.

(** How a call ends against a finite script of replies: it returns, an
    exception leaves it, or it is still waiting for a reply the script does
    not hold. *)
Inductive ending (A : Type) : Type :=
| Returned (a : A)
| Raised
| Waiting.
Arguments Returned {A} a.
Arguments Raised {A}.
Arguments Waiting {A}.

(** A run: the number of requests sent, and how the call ended. *)
Definition run (A : Type) : Type := nat * ending A.

(** ** The paginated fetches *)

Module Fetch.

(** A page of [POST /rest/api/3/search/jql]. *)
Record search_page (R : Type) : Type := {
  issues : list R;
  nextPageToken : option string
}.
Arguments issues {R} _.
Arguments nextPageToken {R} _.

(** A page of [GET .../context/{id}/option]; [isLast] may be absent. *)
Record option_page (R : Type) : Type := {
  values : list R;
  isLast : option bool
}.
Arguments values {R} _.
Arguments isLast {R} _.

Section Loops.
Context {R : Type}.

(** The [while True] loop shared by [fetch_jira_issues_paginated] and
    [load_all_business_services_with_fields]; [sent] counts the requests
    made so far. *)
Fixpoint search_loop (script : list (reply (search_page R)))
    (all_issues : list R) (sent : nat) : run (list R) :=
  match script with
  | [] => (sent, Waiting)
  | Fault :: _ => (S sent, Raised)
  | Body result :: rest =>
      let all_issues := (all_issues ++ issues result)%list in
      let next_page_token := nextPageToken result in
      if negb (Py.truthy_opt next_page_token) then (S sent, Returned all_issues)
      else if (List.length (issues result) =? 0)%nat then (S sent, Returned all_issues)
      else search_loop rest all_issues (S sent)
  end.

(** jira_utils.py, [fetch_jira_issues_paginated]: both handlers return
    the empty list. *)
Definition fetch_jira_issues_paginated
    (script : list (reply (search_page R))) : run (list R) :=
  match search_loop script [] 0 with
  | (sent, Returned all_issues) => (sent, Returned all_issues)
  | (sent, Raised) => (sent, Returned [])
  | (sent, Waiting) => (sent, Waiting)
  end.

(** sync_cdl_combined.py, the loop of [fetch_all_options]. *)
Fixpoint options_loop (script : list (reply (option_page R)))
    (all_options : list R) (sent : nat) : run (list R) :=
  match script with
  | [] => (sent, Waiting)
  | Fault :: _ => (S sent, Raised)
  | Body data_opt :: rest =>
      let all_options := (all_options ++ values data_opt)%list in
      if match isLast data_opt with Some b => b | None => true end
      then (S sent, Returned all_options)
      else options_loop rest all_options (S sent)
  end.

(** [fetch_all_options] has no handler: a fault leaves it. *)
Definition fetch_all_options
    (script : list (reply (option_page R))) : run (list R) :=
  options_loop script [] 0.

End Loops.

(** The name under which [load_all_business_services_with_fields] indexes
    an issue: the summary up to [" | "], without one ["Retired-"] and one
    ["Retired - "]. *)
Definition clean_name (summary : string) : string :=
  fold_left
    (fun clean_name prefix =>
       if Py.startswith clean_name prefix
       then Py.strip (Py.drop (String.length prefix) clean_name)
       else clean_name)
    ["Retired-"; "Retired - "]
    (Py.split_head summary " | ").

Definition index : Type := list (string * Issues.issue).

(** The indexing loop of [load_all_business_services_with_fields]. *)
Definition index_issue (acc : index * index) (issue : Issues.issue) : index * index :=
  let '(indexed_issues, name_indexed_issues) := acc in
  let fields := Issues.fields issue in
  let indexed_issues :=
    match Issues.business_service_id fields with
    | Some sys_id => if Py.truthy sys_id
                     then dict_set String.eqb sys_id issue indexed_issues
                     else indexed_issues
    | None => indexed_issues
    end in
  let clean := clean_name (Issues.summary fields) in
  let name_indexed_issues :=
    if Py.truthy clean
    then dict_set String.eqb (Py.lower clean) issue name_indexed_issues
    else name_indexed_issues in
  (indexed_issues, name_indexed_issues).

(** IssuesProcessing.py, [load_all_business_services_with_fields]: the
    handler returns two empty indexes. *)
Definition load_all_business_services_with_fields
    (script : list (reply (search_page Issues.issue))) : run (index * index) :=
  match search_loop script [] 0 with
  | (sent, Returned all_issues) =>
      (sent, Returned (fold_left index_issue all_issues ([], [])))
  | (sent, Raised) => (sent, Returned ([], []))
  | (sent, Waiting) => (sent, Waiting)
  end.

(** The records of a list of pages, in order. *)
Definition gathered {R : Type} (pages : list (search_page R)) : list R :=
  concat (map issues pages).

(** A page after which the token-based loop goes on. *)
Definition continues {R : Type} (p : search_page R) : bool :=
  Py.truthy_opt (nextPageToken p) && negb (List.length (issues p) =? 0)%nat.

(** A page after which the loop of [fetch_all_options] goes on. *)
Definition more_options {R : Type} (p : option_page R) : bool :=
  negb (match isLast p with Some b => b | None => true end).

End Fetch.

(** ** rate_limit_config.py *)

Definition RATE_LIMIT_DELAY : Q := 1 # 2.
Definition MAX_RETRIES : nat := 3.
Definition RETRY_BASE_DELAY : Z := 10.

(** ** jira_utils.py: [update_issue] *)

Module Update.

(** What [requests.put] does on one attempt: it raises (no response), or
    it returns a response with a status code. *)
Inductive put_reply : Type :=
| NoResponse
| Response (status_code : Z).

(** What one call of [update_issue] does, in order. *)
Inductive event : Type :=
| Put (attempt : nat)
| Sleep (seconds : Q).

(** [Response.ok]: [raise_for_status] raises [HTTPError] exactly for the
    status codes from 400 up to 599. *)
Definition ok (status_code : Z) : bool :=
  negb ((400 <=? status_code)%Z && (status_code <? 600)%Z).

(** [bool(response)]: the requests library defines [Response.__bool__] as
    [Response.ok], so the response carried by an [HTTPError] is falsy. *)
Definition response_bool (status_code : Z) : bool := ok status_code.

Inductive step : Type :=
| Next
| Return (result : option Z).

Section Attempt.
(** The truth value of [er.response] in the [HTTPError] handler. *)
Variable er_response : Z -> bool.

(** The [except requests.exceptions.HTTPError] handler. *)
Definition http_error_handler (attempt : nat) (status_code : Z) : step :=
  if er_response status_code && negb (status_code =? 429)%Z then Return None
  else if (attempt =? MAX_RETRIES - 1)%nat then Return None
  else Next.

(** One round of the [for attempt in range(MAX_RETRIES)] loop. *)
Definition attempt_body (attempt : nat) (r : put_reply) : list event * step :=
  match r with
  | NoResponse => ([Put attempt], Return None)
  | Response status_code =>
      (* [response.raise_for_status()] and what follows it *)
      let after_check :=
        if ok status_code then
          ([Put attempt; Sleep RATE_LIMIT_DELAY], Return (Some status_code))
        else ([Put attempt], http_error_handler attempt status_code) in
      if (status_code =? 429)%Z then
        if (attempt <? MAX_RETRIES - 1)%nat then
          let retry_delay := (RETRY_BASE_DELAY * 2 ^ Z.of_nat attempt)%Z in
          ([Put attempt; Sleep (inject_Z retry_delay)], Next)
        else after_check
      else after_check
  end.

Fixpoint attempts (server : nat -> put_reply) (range : list nat)
  : list event * option Z :=
  match range with
  | [] => ([], None)
  | attempt :: rest =>
      match attempt_body attempt (server attempt) with
      | (ev, Return result) => (ev, result)
      | (ev, Next) =>
          let '(ev', result) := attempts server rest in
          ((ev ++ ev')%list, result)
      end
  end.

Definition update_issue_with (server : nat -> put_reply) : list event * option Z :=
  attempts server (seq 0 MAX_RETRIES).
End Attempt.

(** [update_issue]: [server k] answers the request of attempt [k]. *)
Definition update_issue : (nat -> put_reply) -> list event * option Z :=
  update_issue_with response_bool.

End Update.

(** ** IssuesProcessing.py: [_update_business_service_optimized] *)

(** The request sent, if any, and the result: in a dry run nothing is sent
    and the result is [True]; otherwise the payload goes to [update_issue]
    and the result tells whether it returned a status code. *)
Definition _update_business_service_optimized (DRY_RUN : bool)
    (now : string) (rep_id : option string)
    (record : Issues.sn_record) (existing_issue : Issues.issue)
    (server : nat -> Update.put_reply) : option Issues.payload * bool :=
  let payload := Issues.update_payload now rep_id record existing_issue in
  if DRY_RUN then (None, true)
  else (Some payload,
        match snd (Update.update_issue server) with
        | Some _ => true
        | None => false
        end).

(** ** business_domain.py: domains missing from the Confluence table *)

Module Domains.

Record domain_record : Type := {
  sys_id : jfield;
  name : jfield;
  operational_status : jfield
}.

(** An element of the export list: a JSON object, or anything else. *)
Inductive entry : Type :=
| NotADict
| Domain (d : domain_record).

Record domain_info : Type := {
  info_sys_id : option string;
  info_name : option string
}.

(** One call of [update_confluence_table_with_new_domain]: one row added
    to the table (the function appends a row; it does not look for an
    existing one). [rule_id] is [None] in every call of this file. *)
Record table_add : Type := {
  added : domain_info;
  is_planned : bool
}.

Record state : Type := {
  calls : list table_add;
  planned_added : nat;
  retired_added : nat
}.

Section Pass.
(** [AUTO_UPDATE_CONFLUENCE], read from the project configuration. *)
Variable AUTO_UPDATE_CONFLUENCE : bool.
(** The result of the k-th table update of the run. *)
Variable table_update_ok : nat -> bool.

Definition call_table (info : domain_info) (st : state) : bool * state :=
  (table_update_ok (List.length (calls st)),
   {| calls := (calls st ++ [{| added := info; is_planned := true |}])%list;
      planned_added := planned_added st;
      retired_added := retired_added st |}).

Definition bump_planned (st : state) : state :=
  {| calls := calls st; planned_added := S (planned_added st);
     retired_added := retired_added st |}.

Definition bump_retired (st : state) : state :=
  {| calls := calls st; planned_added := planned_added st;
     retired_added := S (retired_added st) |}.

Definition _add_planned_domain (info : domain_info) (st : state) : state :=
  if negb AUTO_UPDATE_CONFLUENCE then st
  else let '(ok, st) := call_table info st in
       if ok then bump_planned st else st.

Definition _add_retired_domain (info : domain_info) (st : state) : state :=
  if negb AUTO_UPDATE_CONFLUENCE then st
  else let '(ok, st) := call_table info st in
       if ok then bump_retired st else st.

Definition _add_active_domain (info : domain_info) (st : state) : state :=
  if negb AUTO_UPDATE_CONFLUENCE then st
  else let '(ok, st) := call_table info st in
       if ok then bump_planned st else st.

(** One round of the loop of [_add_missing_domains_to_confluence]:
    [automation_table] holds the keys of the table, [processed_ids] the
    ids handled before. *)
Definition add_missing_one (automation_table processed_ids : list string)
    (st : state) (e : entry) : state :=
  match e with
  | NotADict => st
  | Domain domain =>
      let domain_sys_id := get (sys_id domain) in
      if opt_in domain_sys_id automation_table
         || opt_in domain_sys_id processed_ids then st
      else
        let status := get (operational_status domain) in
        let domain_name := get (name domain) in
        if negb (Py.truthy_opt domain_name) then st
        else
          let info := {| info_sys_id := domain_sys_id;
                         info_name := get_default (name domain) "" |} in
          if opt_is status "20" then _add_planned_domain info st
          else if opt_is status "6" then _add_retired_domain info st
          else if match status with
                  | Some s => str_in s ["1"; ""]
                  | None => true
                  end
          then _add_active_domain info (_add_active_domain info st)
          else st
  end.

Definition initial : state :=
  {| calls := []; planned_added := 0; retired_added := 0 |}.

Definition _add_missing_domains_to_confluence (all_domains : list entry)
    (automation_table processed_ids : list string) : state :=
  fold_left (add_missing_one automation_table processed_ids) all_domains initial.
End Pass.

(** The Active status of a domain record. *)
Definition is_active (d : domain_record) : bool :=
  match get (operational_status d) with
  | Some s => str_in s ["1"; ""]
  | None => true
  end.

(** The table additions of a run made for one domain id. *)
Definition adds_for (id : string) (st : state) : nat :=
  List.length (filter (fun c => opt_is (info_sys_id (added c)) id) (calls st)).

End Domains.

(** ** sync_cdl_combined.py: the cascading option tree *)

Module Cascade.

(** [normalize_name] *)
Definition normalize_name (name_norm : string) : string :=
  Py.lower (Py.strip name_norm).

(** A child of the target tree, [{"name": ..., "disabled": ...}]. *)
Record target_child : Type := {
  t_name : string;
  t_disabled : bool
}.

(** [cascade_structure]: parent name to children, in iteration order. *)
Definition cascade_structure : Type := list (string * list target_child).

(** A child of the current tree, [{"name", "disabled", "id"}]. *)
Record jira_child : Type := {
  c_name : string;
  c_disabled : bool;
  c_id : string
}.

(** A parent of the current tree, [{"id", "children"}]. *)
Record jira_parent : Type := {
  p_id : string;
  children : list jira_child
}.

(** [current_structure]: parent value to parent, in iteration order. *)
Definition current_structure : Type := list (string * jira_parent).

(** *** The target tree *)

(** The keys the module reads in a domain record and in a service record
    of the export. *)
Record business_domain : Type := {
  d_sys_id : jfield;
  d_name : jfield
}.

Record service : Type := {
  s_name : string;
  s_business_domain : jfield;
  s_operational_status : jfield
}.

(** [{d["sys_id"]: d["name"] for d in business_domains
      if d.get("sys_id") and d.get("name")}] *)
Definition domain_map (business_domains : list business_domain)
  : list (string * string) :=
  fold_left
    (fun m d =>
       match get (d_sys_id d), get (d_name d) with
       | Some id, Some name =>
           if Py.truthy id && Py.truthy name
           then dict_set String.eqb id name m else m
       | _, _ => m
       end)
    business_domains [].

(** One round of the loop over the services: a Planned service goes to the
    set of names to delete, any other one under its parent. *)
Definition add_service (domains : list (string * string))
    (acc : cascade_structure * list string) (service : service)
  : cascade_structure * list string :=
  let '(cascade_structure, planned_services) := acc in
  let parent_name :=
    match get (s_business_domain service) with
    | Some k => dict_get String.eqb k domains
    | None => None
    end in
  if Py.truthy_opt parent_name then
    let parent_name := fmt parent_name in
    let status := fmt (get (s_operational_status service)) in
    let name := s_name service in
    if status =? "20" then
      (cascade_structure,
       if str_in (normalize_name name) planned_services then planned_services
       else (planned_services ++ [normalize_name name])%list)
    else
      let siblings :=
        match dict_get String.eqb parent_name cascade_structure with
        | Some l => l
        | None => []
        end in
      (dict_set String.eqb parent_name
         (siblings ++ [{| t_name := name; t_disabled := status =? "6" |}])%list
         cascade_structure,
       planned_services)
  else acc.

(** The target tree, parents and children sorted, and the planned set. *)
Definition build_target (business_domains : list business_domain)
    (services : list service) : cascade_structure * list string :=
  let '(cascade_structure, planned_services) :=
    fold_left (add_service (domain_map business_domains)) services ([], []) in
  (map (fun kv =>
          (fst kv,
           sorted_by (fun x y => String.leb (Py.lower (t_name x)) (Py.lower (t_name y)))
             (snd kv)))
     (sorted_items cascade_structure),
   planned_services).

(** *** The current tree *)

(** An option as [fetch_all_options] returns it: a parent has no
    [optionId], a child holds the id of its parent there. *)
Record jira_option : Type := {
  o_id : string;
  o_value : string;
  o_optionId : option string;
  o_disabled : option bool
}.

(** [{opt["id"]: opt["value"] for opt in current_options
      if "optionId" not in opt}] *)
Definition parent_map (current_options : list jira_option) : list (string * string) :=
  fold_left
    (fun m opt =>
       match o_optionId opt with
       | None => dict_set String.eqb (o_id opt) (o_value opt) m
       | Some _ => m
       end)
    current_options [].

(** One round of the loop that files the options; [None] once
    [current_structure[parent_val]] has raised [KeyError] (a child read
    before its parent). *)
Definition add_option (parents : list (string * string))
    (acc : option current_structure) (opt : jira_option) : option current_structure :=
  match acc with
  | None => None
  | Some current_structure =>
      let val := o_value opt in
      match o_optionId opt with
      | None =>
          Some (dict_set String.eqb val {| p_id := o_id opt; children := [] |}
                  current_structure)
      | Some optionId =>
          let parent_val := dict_get String.eqb optionId parents in
          if Py.truthy_opt parent_val then
            match dict_get String.eqb (fmt parent_val) current_structure with
            | Some data =>
                Some (dict_set String.eqb (fmt parent_val)
                        {| p_id := p_id data;
                           children :=
                             (children data
                              ++ [{| c_name := val;
                                     c_disabled := match o_disabled opt with
                                                   | Some b => b
                                                   | None => false
                                                   end;
                                     c_id := o_id opt |}])%list |}
                        current_structure)
            | None => None
            end
          else Some current_structure
      end
  end.

(** The current tree, parents and children sorted. *)
Definition build_current (current_options : list jira_option)
  : option current_structure :=
  match fold_left (add_option (parent_map current_options)) current_options (Some []) with
  | None => None
  | Some current_structure =>
      Some (map (fun kv =>
                   (fst kv,
                    {| p_id := p_id (snd kv);
                       children :=
                         sorted_by (fun x y => String.leb (Py.lower (c_name x))
                                                 (Py.lower (c_name y)))
                           (children (snd kv)) |}))
              (sorted_items current_structure))
  end.

(** *** The diff *)

(** The status column of the report. *)
Inductive status : Type :=
| To_add
| To_move
| To_disable
| To_reactivate
| OK
| DELETED_Status_20
| Parent_missing.

(** The requests of the pass on [.../context/{id}/option]. *)
Inductive api : Type :=
| DELETE (option_id : string)
| POST (value : string) (disabled : bool) (optionId : string)
| PUT_disabled (option_id : string) (disabled : bool)
| PUT_move (customFieldOptionIds : list string).

(** What the pass emits: a row given to [log_full], or a request. *)
Inductive event : Type :=
| Row (parent child : string) (st : status)
| Call (c : api).

Definition DISABLE_OBSOLETE : bool := true.
Definition REACTIVATE_ACTIVE : bool := true.

(** The events emitted so far, and [false] once an exception has left the
    module. *)
Definition M : Type := list event * bool.

Definition ret (ev : list event) : M := (ev, true).
Definition raise (ev : list event) : M := (ev, false).

Definition andthen (a b : M) : M :=
  if snd a then ((fst a ++ fst b)%list, snd b) else a.

Fixpoint for_each {A : Type} (body : A -> M) (l : list A) : M :=
  match l with
  | [] => ret []
  | x :: r => andthen (body x) (for_each body r)
  end.

Section Pass.
(** [MODE == "apply"] *)
Variable apply : bool.
Variable target : cascade_structure.
Variable planned_services : list string.
Variable current : current_structure.

Definition when (b : bool) (c : api) : list event :=
  if b then [Call c] else [].

(** The preliminary step: the planned services found in Jira. *)
Definition planned_deletes : list event :=
  flat_map
    (fun '(parent_name, data) =>
       flat_map
         (fun child =>
            if str_in (normalize_name (c_name child)) planned_services
            then Row parent_name (c_name child) DELETED_Status_20
                 :: when apply (DELETE (c_id child))
            else [])
         (children data))
    current.

(** [next((p for p in current_structure.keys() if ...), None)] *)
Definition find_parent_key (parent_name_norm : string) : option string :=
  match find (fun kv => normalize_name (fst kv) =? parent_name_norm) current with
  | Some (p, _) => Some p
  | None => None
  end.

Definition same_child (child_norm : string) (c : jira_child) : bool :=
  normalize_name (c_name c) =? child_norm.

(** The search of a target child in the whole current tree: the inner
    loop stops at the first match of a parent, the outer one as soon
    as [found_in] is truthy. *)
Fixpoint search (cs : current_structure) (child_norm : string)
    (found_in child_id : option string) : option string * option string :=
  match cs with
  | [] => (found_in, child_id)
  | (cur_parent, data) :: rest =>
      let '(found_in, child_id) :=
        match find (same_child child_norm) (children data) with
        | Some cur_child => (Some cur_parent, Some (c_id cur_child))
        | None => (found_in, child_id)
        end in
      if Py.truthy_opt found_in then (found_in, child_id)
      else search rest child_norm found_in child_id
  end.

(** The body of the loop over the children of a target parent. *)
Definition diff_child (parent_name parent_name_norm : string)
    (jira_parent : jira_parent) (child : target_child) : M :=
  let child_norm := normalize_name (t_name child) in
  let '(found_in, child_id) := search current child_norm None None in
  let create := POST (t_name child) (t_disabled child) (p_id jira_parent) in
  if negb (Py.truthy_opt found_in) then
    ret (Row parent_name (t_name child) To_add :: when apply create)
  else if negb (normalize_name (fmt found_in) =? parent_name_norm) then
    ret (Row parent_name (t_name child) To_move
         :: when apply (PUT_disabled (fmt child_id) true)
         ++ when apply create)%list
  else
    match find (same_child child_norm) (children jira_parent) with
    | None => raise []
    | Some jira_child =>
        if c_disabled jira_child && negb (t_disabled child) then
          ret (Row parent_name (t_name child) To_reactivate
               :: when (apply && REACTIVATE_ACTIVE)
                    (PUT_disabled (c_id jira_child) false))
        else ret [Row parent_name (t_name child) OK]
    end.

(** The body of the loop over the target parents. *)
Definition diff_parent (entry : string * list target_child) : M :=
  let '(parent_name, children) := entry in
  let parent_name_norm := normalize_name parent_name in
  let jira_parent_key := find_parent_key parent_name_norm in
  if negb (Py.truthy_opt jira_parent_key) then
    ret [Row parent_name "" Parent_missing]
  else
    match dict_get String.eqb (fmt jira_parent_key) current with
    | Some jira_parent =>
        for_each (diff_child parent_name parent_name_norm jira_parent) children
    | None => raise []
    end.

(** [[normalize_name(c["name"]) for c in
    cascade_structure.get(parent_name, [])]] *)
Definition target_children_of (parent_name : string) : list string :=
  map (fun c => normalize_name (t_name c))
    (match dict_get String.eqb parent_name target with
     | Some l => l
     | None => []
     end).

(** The loop that disables the obsolete children. *)
Definition obsolete_sweep : list event :=
  flat_map
    (fun '(parent_name, data) =>
       let target_children := target_children_of parent_name in
       flat_map
         (fun child =>
            let known := str_in (normalize_name (c_name child)) target_children in
            if negb known && negb (c_disabled child) then
              Row parent_name (c_name child) To_disable
              :: when (apply && DISABLE_OBSOLETE) (PUT_disabled (c_id child) true)
            else if known then [Row parent_name (c_name child) OK]
            else [])
         (children data))
    current.

(** The reordering requests. *)
Definition reorder : list event :=
  if apply then
    flat_map
      (fun '(_, data) =>
         let sorted_ids := map c_id (children data) in
         if nonempty sorted_ids then [Call (PUT_move sorted_ids)] else [])
      current
  else [].

(** The module from the preliminary step to the reordering. *)
Definition sync : M :=
  andthen (ret planned_deletes)
    (andthen (for_each diff_parent target)
       (andthen (ret obsolete_sweep) (ret reorder))).
End Pass.

(** The operations of a pass: the rows that ask for a change. *)
Definition is_operation (e : event) : bool :=
  match e with
  | Row _ _ (To_add | To_move | To_disable | To_reactivate | DELETED_Status_20) => true
  | _ => false
  end.

Definition operations (ev : list event) : list event := filter is_operation ev.

Definition requests (ev : list event) : list api :=
  flat_map (fun e => match e with Call c => [c] | Row _ _ _ => [] end) ev.

(** The module from the export and the options Jira returns to its
    report and requests. *)
Definition run_module (apply : bool) (business_domains : list business_domain)
    (services : list service) (current_options : list jira_option) : M :=
  let '(target, planned_services) := build_target business_domains services in
  match build_current current_options with
  | Some current => sync apply target planned_services current
  | None => raise []
  end.

(** *** The platform *)

(** The effect of the requests on the options Jira holds: [DELETE] removes
    the option, [PUT {"disabled": b}] sets its flag, [POST] adds a child
    option with a new id under [optionId]. The move request changes the
    order in which Jira shows the children; the module sorts them again
    when it reads them. *)
Definition platform_call (new_id : string) (c : api)
    (options : list jira_option) : list jira_option :=
  match c with
  | DELETE id => filter (fun o => negb (o_id o =? id)) options
  | PUT_disabled id b =>
      map (fun o => if o_id o =? id
                    then {| o_id := o_id o; o_value := o_value o;
                            o_optionId := o_optionId o; o_disabled := Some b |}
                    else o) options
  | POST value disabled optionId =>
      (options ++ [{| o_id := new_id; o_value := value;
                      o_optionId := Some optionId; o_disabled := Some disabled |}])%list
  | PUT_move _ => options
  end.

(** The options after the requests of a pass; [new_id k] is the id Jira
    gives to an option created by the k-th request. *)
Fixpoint platform_apply (new_id : nat -> string) (k : nat) (calls : list api)
    (options : list jira_option) : list jira_option :=
  match calls with
  | [] => options
  | c :: rest => platform_apply new_id (S k) rest (platform_call (new_id k) c options)
  end.

End Cascade.

(** ** Concrete inputs *)

Module Inputs.
Import Issues.

(** An export record and the issue that tracks it, field for field. *)
Definition payroll_record : sn_record :=
  {| name := Str "Payroll";
     sys_id := Str "A1";
     u_business_domain := Str "D1";
     u_short_service_id := Str "PAY";
     operational_status := Str "1";
     used_for := Str "Production";
     service_classification := Str "Business Service" |}.

Definition payroll_issue : issue :=
  {| key := "AMI-1";
     fields :=
       {| custom := fun f =>
            match f with
            | business_domain_id => JText "D1"
            | business_service_name => JText "Payroll"
            | business_service_short_name => JText "PAY"
            | business_service_status => JDict (Some "Operational (1)") None
            | business_service_usage => JDict (Some "Production") None
            | business_service_classification => JDict (Some "Business Service") None
            end;
          business_service_id := Some "A1";
          summary := "Payroll | A1";
          labels := [VERIFICATION_LABEL] |} |}.

(** A first page that announces a second one. *)
Definition first_page : Fetch.search_page string :=
  {| Fetch.issues := ["AMI-1"; "AMI-2"]; Fetch.nextPageToken := Some "t1" |}.

Definition first_issue_page : Fetch.search_page issue :=
  {| Fetch.issues := [payroll_issue]; Fetch.nextPageToken := Some "t1" |}.

Definition first_option_page : Fetch.option_page string :=
  {| Fetch.values := ["Finance"]; Fetch.isLast := Some false |}.

(** An empty page that announces one more, and the last page. *)
Definition empty_option_page : Fetch.option_page string :=
  {| Fetch.values := []; Fetch.isLast := Some false |}.

Definition last_option_page : Fetch.option_page string :=
  {| Fetch.values := ["HR"]; Fetch.isLast := Some true |}.

Definition empty_page_with_token : Fetch.search_page string :=
  {| Fetch.issues := []; Fetch.nextPageToken := Some "t2" |}.

(** A server that fails once with HTTP 500 and then accepts the update. *)
Definition error_then_success (attempt : nat) : Update.put_reply :=
  match attempt with
  | O => Update.Response 500
  | S _ => Update.Response 200
  end.

(** An Active domain that neither the table nor the processed ids hold. *)
Definition finance_domain : Domains.domain_record :=
  {| Domains.sys_id := Str "d1";
     Domains.name := Str "Finance";
     Domains.operational_status := Str "1" |}.

Import Cascade.

Definition billing : target_child := {| t_name := "Billing"; t_disabled := false |}.

Definition billing_99 : jira_child :=
  {| c_name := "Billing"; c_disabled := false; c_id := "99" |}.

Definition option_finance : jira_option :=
  {| o_id := "10"; o_value := "Finance"; o_optionId := None; o_disabled := None |}.

Definition option_hr : jira_option :=
  {| o_id := "11"; o_value := "HR"; o_optionId := None; o_disabled := None |}.

Definition option_billing_under_finance : jira_option :=
  {| o_id := "99"; o_value := "Billing"; o_optionId := Some "10";
     o_disabled := Some false |}.

Definition domain_finance : business_domain :=
  {| d_sys_id := Str "d1"; d_name := Str "Finance" |}.

Definition domain_hr : business_domain :=
  {| d_sys_id := Str "d2"; d_name := Str "HR" |}.

(** Billing belongs under HR in the export and is filed under Finance in
    Jira. *)
Definition billing_of_hr : service :=
  {| s_name := "Billing"; s_business_domain := Str "d2";
     s_operational_status := Str "1" |}.

Definition options_misfiled : list jira_option :=
  [option_finance; option_hr; option_billing_under_finance].

Definition target_hr : cascade_structure := [("HR", [billing])].

Definition current_misfiled : current_structure :=
  [("Finance", {| p_id := "10"; children := [billing_99] |});
   ("HR", {| p_id := "11"; children := [] |})].

(** The options after the requests of a first pass in apply mode, the new
    option taking the id 100. *)
Definition options_after_first_pass : list jira_option :=
  platform_apply (fun _ => "100") 0
    (requests (fst (run_module true [domain_finance; domain_hr] [billing_of_hr]
                      options_misfiled)))
    options_misfiled.

Definition current_after_first_pass : current_structure :=
  [("Finance",
    {| p_id := "10";
       children := [{| c_name := "Billing"; c_disabled := true; c_id := "99" |}] |});
   ("HR",
    {| p_id := "11";
       children := [{| c_name := "Billing"; c_disabled := false; c_id := "100" |}] |})].

(** Billing is Planned in the export and enabled under Finance in Jira. *)
Definition billing_planned : service :=
  {| s_name := "Billing"; s_business_domain := Str "d1";
     s_operational_status := Str "20" |}.

Definition options_finance : list jira_option :=
  [option_finance; option_billing_under_finance].

Definition current_finance : current_structure :=
  [("Finance", {| p_id := "10"; children := [billing_99] |})].

(** Billing is a service of Finance; the parent is written finance in
    Jira. *)
Definition billing_of_finance : service :=
  {| s_name := "Billing"; s_business_domain := Str "d1";
     s_operational_status := Str "1" |}.

Definition options_lowercase : list jira_option :=
  [{| o_id := "10"; o_value := "finance"; o_optionId := None; o_disabled := None |};
   option_billing_under_finance].

Definition target_finance : cascade_structure := [("Finance", [billing])].

Definition current_lowercase : current_structure :=
  [("finance", {| p_id := "10"; children := [billing_99] |})].

End Inputs.

(** ** Checks on the events of a pass *)

Module Checks.
Import Cascade.

(** All the requests among the events satisfy [P]. *)
Definition all_requests (P : api -> bool) (ev : list event) : bool :=
  forallb P (requests ev).

(** [id] is the id of a child of the current tree whose normalized name
    is in the planned set. *)
Definition is_planned_child (planned_services : list string)
    (current : current_structure) (id : string) : bool :=
  existsb
    (fun kv =>
       existsb
         (fun child =>
            (c_id child =? id)
            && str_in (normalize_name (c_name child)) planned_services)
         (children (snd kv)))
    current.

Definition is_delete (c : api) : bool :=
  match c with
  | DELETE _ => true
  | _ => false
  end.

(** A [DELETE] names a planned child; any other request passes. *)
Definition delete_is_planned (planned_services : list string)
    (current : current_structure) (c : api) : bool :=
  match c with
  | DELETE id => is_planned_child planned_services current id
  | _ => true
  end.

End Checks.

(** ** Reading the export *)

Module Reading.
Import Cascade.

(** The parent name the module resolves for a service:
    [domain_map.get(service.get("u_business_domain"))]. *)
Definition parent_of (domains : list (string * string)) (s : service) : option string :=
  match get (s_business_domain s) with
  | Some k => dict_get String.eqb k domains
  | None => None
  end.

(** [str(service.get("operational_status"))] *)
Definition status_of (s : service) : string := fmt (get (s_operational_status s)).

(** The orders of the two sorts. *)
Definition by_key {V : Type} (a b : string * V) : Prop :=
  String.leb (fst a) (fst b) = true.

Definition by_lower_name (x y : target_child) : Prop :=
  String.leb (Py.lower (t_name x)) (Py.lower (t_name y)) = true.

Section Provenance.
Variable domains : list (string * string).
Variable services : list service.

(** A child of the tree comes from a service that is not Planned. *)
Definition child_from_service (p : string) (child : target_child) : Prop :=
  exists s, In s services
            /\ s_name s = t_name child
            /\ status_of s <> "20"
            /\ t_disabled child = (status_of s =? "6")
            /\ parent_of domains s = Some p.

(** A planned name comes from a Planned service. *)
Definition planned_from_service (n : string) : Prop :=
  exists s, In s services
            /\ normalize_name (s_name s) = n
            /\ status_of s = "20"
            /\ Py.truthy_opt (parent_of domains s) = true.

(** What the loop over the services keeps true of the tree and of the
    planned set. *)
Definition tree_ok (acc : cascade_structure * list string) : Prop :=
  (forall p kids child, In (p, kids) (fst acc) -> In child kids -> child_from_service p child)
  /\ (forall n, In n (snd acc) -> planned_from_service n)
  /\ NoDup (snd acc)
  /\ NoDup (map fst (fst acc)).
End Provenance.

End Reading.

(** ** Measures of a call of [update_issue] *)

Module Traces.

(** The number of requests in a trace. *)
Definition puts (trace : list Update.event) : nat :=
  List.length
    (filter (fun e => match e with Update.Put _ => true | Update.Sleep _ => false end) trace).

(** The time spent in [time.sleep], in seconds. *)
Definition slept (trace : list Update.event) : Q :=
  fold_right
    (fun e total => match e with Update.Sleep s => (s + total)%Q | Update.Put _ => total end)
    0%Q trace.

End Traces.

(** ** business_domain.py: the issues without a domain name *)

Module DomainSearch.

(** A page of [GET /rest/api/3/search/jql] read by offset; [total] is
    [result.get("total", 0)]. *)
Record offset_page (R : Type) : Type := {
  page_issues : list R;
  total : nat
}.
Arguments page_issues {R} _.
Arguments total {R} _.

Definition max_results : nat := 100.

Section Loop.
Context {R : Type}.

(** The loop of [search_issues_missing_business_domain]; [offsets] holds
    the [startAt] of the requests sent so far, in order. *)
Fixpoint offset_loop (script : list (reply (offset_page R)))
    (all_issues : list R) (start_at : nat) (offsets : list nat)
  : list nat * ending (list R) :=
  match script with
  | [] => (offsets, Waiting)
  | Fault :: _ => ((offsets ++ [start_at])%list, Raised)
  | Body result :: rest =>
      let issues := page_issues result in
      let all_issues := (all_issues ++ issues)%list in
      if (total result <=? start_at + max_results)%nat || (List.length issues =? 0)%nat
      then ((offsets ++ [start_at])%list, Returned all_issues)
      else offset_loop rest all_issues (start_at + max_results)
             (offsets ++ [start_at])%list
  end.

(** [search_issues_missing_business_domain]: both handlers return the
    empty list. *)
Definition search_issues_missing_business_domain
    (script : list (reply (offset_page R))) : list nat * ending (list R) :=
  match offset_loop script [] 0 [] with
  | (offsets, Returned all_issues) => (offsets, Returned all_issues)
  | (offsets, Raised) => (offsets, Returned [])
  | (offsets, Waiting) => (offsets, Waiting)
  end.
End Loop.

(** The page reports [t] issues in all (a fault reports nothing). *)
Definition reports {R : Type} (t : nat) (r : reply (offset_page R)) : bool :=
  match r with
  | Body p => (total p =? t)%nat
  | Fault => true
  end.

(** An issue of that search: its key and its Business domain id field. *)
Record domain_issue : Type := {
  di_key : string;
  di_domain_id : jfield
}.

(** [s.add(x)] on a set kept as a list without repetition. *)
Definition set_add (x : string) (s : list string) : list string :=
  if str_in x s then s else (s ++ [x])%list.

(** [get_unique_business_domain_ids] *)
Definition get_unique_business_domain_ids (issues : list domain_issue) : list string :=
  fold_left
    (fun domain_ids issue =>
       match get (di_domain_id issue) with
       | Some domain_id => if Py.truthy domain_id
                           then set_add domain_id domain_ids else domain_ids
       | None => domain_ids
       end)
    issues [].

End DomainSearch.

(** ** business_domain.py: filling the Business Domain field *)

Module Fill.

(** [fill_business_domain_field_direct]: [script] answers the search,
    [put_ok k] tells whether [make_jira_request] returns a result for the
    k-th update. The result holds the keys of the issues for which a PUT
    was sent and the two counts; [None] while the search waits. *)
Definition fill_one (DRY_RUN : bool) (put_ok : nat -> bool)
    (acc : list string * (nat * nat)) (issue_key : string)
  : list string * (nat * nat) :=
  let '(sent, (success_count, error_count)) := acc in
  if DRY_RUN then (sent, (S success_count, error_count))
  else if put_ok (List.length sent)
       then ((sent ++ [issue_key])%list, (S success_count, error_count))
       else ((sent ++ [issue_key])%list, (success_count, S error_count)).

Definition fill_business_domain_field_direct (DRY_RUN : bool)
    (script : list (reply (Fetch.search_page string))) (put_ok : nat -> bool)
  : option (list string * (nat * nat)) :=
  match snd (Fetch.fetch_jira_issues_paginated script) with
  | Returned issues =>
      if (List.length issues =? 0)%nat then Some ([], (0, 0))
      else Some (fold_left (fill_one DRY_RUN put_ok) issues ([], (0, 0)))
  | Raised | Waiting => None
  end.

End Fill.

(** ** business_domain.py: reading a pass over the export *)

Module DomainChecks.

(** A row the pass may add: it has a name, and its id (if any) is in
    neither of the two collections the pass consults. *)
Definition row_ok (automation_table processed_ids : list string)
    (c : Domains.table_add) : bool :=
  negb (opt_in (Domains.info_sys_id (Domains.added c)) automation_table)
  && negb (opt_in (Domains.info_sys_id (Domains.added c)) processed_ids)
  && Py.truthy_opt (Domains.info_name (Domains.added c))
  && Domains.is_planned c.

(** How many of the first [n] table updates of a run succeeded. *)
Definition succeeded (table_update_ok : nat -> bool) (n : nat) : nat :=
  List.length (filter table_update_ok (seq 0 n)).

End DomainChecks.

(** ** IssuesProcessing.py: [create_business_service_issue] *)

Module Creation.
Import Issues.

(** The [fields] part of the creation request. [project] and [issuetype]
    are constants; [cf_updates] holds the assignee, the reporter and the
    compared custom fields; [cf_service_id] is absent, or holds the value
    stored under the Business service id ([None] for a JSON null). *)
Record create_fields : Type := {
  cf_summary : string;
  cf_labels : list string;
  cf_description : option string;
  cf_service_id : option (option string);
  cf_updates : updates
}.

(** [if record.get(k): fields[f] = make(record.get(k))] *)
Definition set_if_truthy (k : update_key) (make : string -> update_value)
    (value : option string) (u : updates) : updates :=
  match value with
  | Some v => if Py.truthy v then set_update k (make v) u else u
  | None => u
  end.

(** The fields [create_business_service_issue] builds; [rep_id] is what
    [get_mandatory_reporter_id] returns, [short_description] what
    [record.get("short_description")] sees. *)
Definition created_fields (rep_id : option string) (short_description : jfield)
    (record : sn_record) : create_fields :=
  let name := get_default (Issues.name record) "Unknown" in
  let sys_id := get_default (Issues.sys_id record) "Unknown" in
  let summary := Summary.create_summary (Issues.name record) (Issues.sys_id record) in
  let fields := set_update KAssignee VNone [] in
  let fields := set_if_truthy KReporter VAccount rep_id fields in
  let description :=
    if Py.truthy_opt (get short_description) then get short_description else None in
  let fields :=
    set_if_truthy (KCustom business_domain_id) VText
      (get (u_business_domain record)) fields in
  let service_id :=
    if option_string_eqb sys_id (Some "Unknown") then None else Some sys_id in
  let fields :=
    if option_string_eqb name (Some "Unknown") then fields
    else set_update (KCustom business_service_name)
           (match name with Some n => VText n | None => VNone end) fields in
  let fields :=
    set_if_truthy (KCustom business_service_short_name) VText
      (get (u_short_service_id record)) fields in
  let fields :=
    if Py.truthy_opt (get (operational_status record)) then
      set_if_truthy (KCustom business_service_status) VSelect
        (map_operational_status (get (operational_status record))) fields
    else fields in
  let fields :=
    set_if_truthy (KCustom business_service_usage) VSelect
      (get (used_for record)) fields in
  let fields :=
    set_if_truthy (KCustom business_service_classification) VSelect
      (get (service_classification record)) fields in
  {| cf_summary := summary;
     cf_labels := [VERIFICATION_LABEL];
     cf_description := description;
     cf_service_id := service_id;
     cf_updates := fields |}.

(** What [make_jira_request] returns for the creation: a falsy result
    ([None] after an error, [{}] for an empty body), or a JSON object read
    with [result.get("key")]. *)
Inductive post_result : Type :=
| Falsy
| Object (key : option string).

Inductive event : Type :=
| Post (f : create_fields)
| Comment (issue_key : option string) (text : string).

(** [create_business_service_issue]: the requests sent and the key
    returned. [_add_comment_to_issue] catches its own errors, and its
    result is not read. *)
Definition create_business_service_issue (DRY_RUN : bool) (now : string)
    (rep_id : option string) (short_description : jfield) (record : sn_record)
    (result : post_result) : list event * option string :=
  let fields := created_fields rep_id short_description record in
  if DRY_RUN then ([], Some "DRY-RUN-KEY")
  else match result with
       | Falsy => ([Post fields], None)
       | Object issue_key =>
           ([Post fields;
             Comment issue_key ("Business service info created on " ++ now)],
            issue_key)
       end.

(** The issue as Jira returns it once the creation request is stored: a
    text field reads back as its text, an option field set with
    [{"value": v}] as an option object of value [v], a field left out or
    set to null as nothing. *)
Definition stored_value (v : option update_value) : jira_value :=
  match v with
  | Some (VText s) => JText s
  | Some (VSelect s) => JDict (Some s) None
  | Some (VAccount _) | Some VNone | None => JNone
  end.

Definition stored (issue_key : string) (f : create_fields) : issue :=
  {| key := issue_key;
     fields :=
       {| custom := fun c => stored_value (get_update (KCustom c) (cf_updates f));
          business_service_id :=
            match cf_service_id f with Some id => id | None => None end;
          summary := cf_summary f;
          labels := cf_labels f |} |}.

End Creation.

(** ** IssuesProcessing.py: [sync_business_services_from_json_optimized] *)

Module Sync.
Import Issues.

Record stats : Type := {
  created : nat;
  updated : nat;
  excluded : nat;
  unchanged : nat;
  labels_removed : nat;
  errors : nat
}.

(** The calls the loop makes: [_update_business_service_optimized],
    [_create_business_service] and [_remove_label_only]. *)
Inductive action : Type :=
| Update (issue_key : string) (record : sn_record) (existing_issue : issue)
| Create (record : sn_record)
| RemoveLabel (issue_key : string).

(** common_functions.py, [should_exclude_item] *)
Definition should_exclude_item (item : sn_record) : bool :=
  opt_is (get_default (name item) "") "All".

(** [json_sys_ids] *)
Definition json_sys_ids (records : list sn_record) : list string :=
  fold_left
    (fun ids record =>
       match get (sys_id record) with
       | Some id => if Py.truthy id then DomainSearch.set_add id ids else ids
       | None => ids
       end)
    records [].

(** [issues_to_clean] *)
Definition issues_to_clean (issues_cache : Fetch.index) (records : list sn_record)
  : list string :=
  let ids := json_sys_ids records in
  map (fun entry => key (snd entry))
    (filter
       (fun entry => negb (str_in (fst entry) ids)
                     && str_in VERIFICATION_LABEL (labels (fields (snd entry))))
       issues_cache).

Definition bump_created (s : stats) : stats :=
  {| created := S (created s); updated := updated s; excluded := excluded s;
     unchanged := unchanged s; labels_removed := labels_removed s;
     errors := errors s |}.

Definition bump_updated (s : stats) : stats :=
  {| created := created s; updated := S (updated s); excluded := excluded s;
     unchanged := unchanged s; labels_removed := labels_removed s;
     errors := errors s |}.

Definition bump_excluded (s : stats) : stats :=
  {| created := created s; updated := updated s; excluded := S (excluded s);
     unchanged := unchanged s; labels_removed := labels_removed s;
     errors := errors s |}.

Definition bump_labels_removed (s : stats) : stats :=
  {| created := created s; updated := updated s; excluded := excluded s;
     unchanged := unchanged s; labels_removed := S (labels_removed s);
     errors := errors s |}.

Definition bump_errors (s : stats) : stats :=
  {| created := created s; updated := updated s; excluded := excluded s;
     unchanged := unchanged s; labels_removed := labels_removed s;
     errors := S (errors s) |}.

Definition no_stats : stats :=
  {| created := 0; updated := 0; excluded := 0; unchanged := 0;
     labels_removed := 0; errors := 0 |}.

(** The state of a run: the calls made so far, in order, and the counters. *)
Definition state : Type := list action * stats.

Section Run.
(** Whether the k-th call of the run succeeds: the update returns [True],
    the creation returns a key, the label removal returns [True]. *)
Variable succeeds : nat -> bool.
Variables issues_cache name_cache : Fetch.index.

Definition call (a : action) (on_success : stats -> stats) (st : state) : state :=
  let '(trace, s) := st in
  ((trace ++ [a])%list,
   if succeeds (List.length trace) then on_success s else bump_errors s).

(** The cache lookup of one record: by sys_id, then by lowered name.
    [name.lower()] raises when the name is a JSON null: [None]. *)
Definition lookup (record : sn_record) (sys_id : string) : option (option issue) :=
  match dict_get String.eqb sys_id issues_cache with
  | Some existing_issue => Some (Some existing_issue)
  | None =>
      match get_default (name record) "Unknown" with
      | Some name => Some (dict_get String.eqb (Py.lower name) name_cache)
      | None => None
      end
  end.

(** One round of the loop over the records; [None] when it raises. *)
Definition process_record (st : state) (record : sn_record) : option state :=
  if should_exclude_item record then Some (fst st, bump_excluded (snd st))
  else
    match get (sys_id record) with
    | Some sys_id =>
        if Py.truthy sys_id then
          match lookup record sys_id with
          | Some (Some existing_issue) =>
              Some (call (Update (key existing_issue) record existing_issue)
                      bump_updated st)
          | Some None => Some (call (Create record) bump_created st)
          | None => None
          end
        else Some (fst st, bump_errors (snd st))
    | None => Some (fst st, bump_errors (snd st))
    end.

(** The loop over the records: the state reached, and whether a round
    raised (the rounds after it are not run). *)
Fixpoint process_records (records : list sn_record) (st : state) : state * bool :=
  match records with
  | [] => (st, false)
  | record :: rest =>
      match process_record st record with
      | Some st => process_records rest st
      | None => (st, true)
      end
  end.

Definition clean (st : state) (issue_key : string) : state :=
  call (RemoveLabel issue_key) bump_labels_removed st.

(** The function after the cache is loaded: [data] is the list of records
    read from the file, [None] when the file is missing or unreadable.
    The result is the calls made, the counters when the report is
    reached, and the number returned. *)
Definition sync_with_cache (data : option (list sn_record))
  : list action * option stats * nat :=
  if negb (nonempty issues_cache) then ([], None, 1)
  else
    match data with
    | None => ([], None, 1)
    | Some records =>
        let to_clean := issues_to_clean issues_cache records in
        match process_records records ([], no_stats) with
        | (st, true) => (fst st, None, 0 + 1)
        | (st, false) =>
            let st := fold_left clean to_clean st in
            (fst st, Some (snd st), errors (snd st))
        end
    end.
End Run.

(** [sync_business_services_from_json_optimized]: [script] answers the
    load of the cache; [None] while the load waits for a reply. *)
Definition sync_business_services_from_json_optimized
    (script : list (reply (Fetch.search_page issue)))
    (data : option (list sn_record)) (succeeds : nat -> bool)
  : option (list action * option stats * nat) :=
  match snd (Fetch.load_all_business_services_with_fields script) with
  | Returned (issues_cache, name_cache) =>
      Some (sync_with_cache succeeds issues_cache name_cache data)
  | Raised | Waiting => None
  end.

(** Reading a trace. *)
Definition is_remove (a : action) : bool :=
  match a with RemoveLabel _ => true | _ => false end.

Definition handled (s : stats) : nat :=
  created s + updated s + excluded s + labels_removed s + errors s.

End Sync.

(** ** Business_service.py: [get_account_id_by_email] *)

Module Accounts.

Record user : Type := {
  emailAddress : jfield;
  accountId : option string
}.

(** How the loop over the users ends: it returns the account of a user
    with the email asked for, it finds none, or it raises
    ([user.get("emailAddress", "").lower()] on a JSON null). *)
Inductive scan : Type :=
| Found (account_id : option string)
| NoMatch
| Raises.

Fixpoint exact_match (email : string) (users : list user) : scan :=
  match users with
  | [] => NoMatch
  | user :: rest =>
      match get_default (emailAddress user) "" with
      | None => Raises
      | Some address =>
          if Py.lower address =? Py.lower email
          then Found (accountId user)
          else exact_match email rest
      end
  end.

(** [get_account_id_by_email]: the handler turns every exception into
    [None]. *)
Definition get_account_id_by_email (email : string) (answer : reply (list user))
  : option string :=
  match answer with
  | Fault => None
  | Body users =>
      match users with
      | [] => None
      | first :: _ =>
          match exact_match email users with
          | Found account_id => account_id
          | NoMatch => accountId first
          | Raises => None
          end
      end
  end.

(** Reading a list of users: the address is a JSON null; the address is
    the one asked for, case apart. *)
Definition null_address (u : user) : bool :=
  match emailAddress u with Null => true | _ => false end.

Definition has_address (email : string) (u : user) : bool :=
  match get_default (emailAddress u) "" with
  | Some address => Py.lower address =? Py.lower email
  | None => false
  end.

End Accounts.

(** ** Reading the comparison and the indexes *)

Module Reads.
Import Issues.

(** The value an update carries for a field of the given type. *)
Definition value_for (t : field_type) (v : string) : update_value :=
  match t with
  | select => VSelect v
  | text => VText v
  end.

(** An update value that writes a non-empty text or option. *)
Definition writes_text (v : update_value) : bool :=
  match v with
  | VText s | VSelect s => Py.truthy s
  | VNone | VAccount _ => false
  end.

(** An entry of an update that, when it is for a custom field, writes a
    non-empty text or option. *)
Definition entry_writes_text (kv : update_key * update_value) : bool :=
  match fst kv with
  | KCustom _ => writes_text (snd kv)
  | _ => true
  end.

(** The issue carries this non-empty service id. *)
Definition has_service_id (id : string) (i : issue) : bool :=
  match business_service_id (fields i) with
  | Some s => Py.truthy s && (s =? id)
  | None => false
  end.

(** The issue is indexed under this name key. *)
Definition has_name_key (k : string) (i : issue) : bool :=
  Py.truthy (Fetch.clean_name (summary (fields i)))
  && (Py.lower (Fetch.clean_name (summary (fields i))) =? k).

End Reads.

(** ** Further inputs *)

Module Samples.
Import Issues.

(** A Retired service of the export. *)
Definition legacy_record : sn_record :=
  {| name := Str "Legacy";
     sys_id := Str "L1";
     u_business_domain := Str "D1";
     u_short_service_id := Missing;
     operational_status := Str "6";
     used_for := Null;
     service_classification := Str "" |}.

(** The Payroll service under a new sys_id. *)
Definition payroll_again : sn_record :=
  {| name := Str "Payroll";
     sys_id := Str "A2";
     u_business_domain := Str "D1";
     u_short_service_id := Str "PAY";
     operational_status := Str "1";
     used_for := Str "Production";
     service_classification := Str "Business Service" |}.

(** A record whose name is a JSON null. *)
Definition nameless_record : sn_record :=
  {| name := Null;
     sys_id := Str "Z9";
     u_business_domain := Str "D1";
     u_short_service_id := Missing;
     operational_status := Str "1";
     used_for := Missing;
     service_classification := Missing |}.

(** A second issue with the service id and the name of
    [Inputs.payroll_issue], on a last page. *)
Definition payroll_duplicate : issue :=
  {| key := "AMI-7";
     fields :=
       {| custom := fun _ => JNone;
          business_service_id := Some "A1";
          summary := "Retired-Payroll | A1";
          labels := [] |} |}.

Definition last_issue_page : Fetch.search_page issue :=
  {| Fetch.issues := [payroll_duplicate]; Fetch.nextPageToken := None |}.

(** A last page of issue keys. *)
Definition last_page : Fetch.search_page string :=
  {| Fetch.issues := ["AMI-3"]; Fetch.nextPageToken := None |}.

(** The two indexes built from the one issue [Inputs.payroll_issue]. *)
Definition payroll_cache : Fetch.index * Fetch.index :=
  fold_left Fetch.index_issue [Inputs.payroll_issue] ([], []).

End Samples.

(** ** More Python string primitives *)

Module PyText.

(** [s.replace(old, "")] for a non-empty [old]: the occurrences of [old]
    are removed from left to right, without overlap. [skip] counts the
    characters of the occurrence under way that are still to drop. *)
Fixpoint remove_from (skip : nat) (s old : string) : string :=
  match s with
  | EmptyString => EmptyString
  | String c r =>
      match skip with
      | S k => remove_from k r old
      | O => if Py.startswith s old
             then remove_from (String.length old - 1) r old
             else String c (remove_from 0 r old)
      end
  end.

Definition remove (s old : string) : string := remove_from 0 s old.

Fixpoint lstrip_char (ch : ascii) (s : string) : string :=
  match s with
  | EmptyString => EmptyString
  | String c r => if Ascii.eqb c ch then lstrip_char ch r else s
  end.

Fixpoint rstrip_char (ch : ascii) (s : string) : string :=
  match s with
  | EmptyString => EmptyString
  | String c r =>
      match rstrip_char ch r with
      | EmptyString => if Ascii.eqb c ch then EmptyString else String c EmptyString
      | r' => String c r'
      end
  end.

(** [s.strip(ch)] for a one-character [ch]. *)
Definition strip_char (ch : ascii) (s : string) : string :=
  rstrip_char ch (lstrip_char ch s).

(** The double quote, U+0022. *)
Definition quote : ascii := ascii_of_nat 34.

End PyText.

(** ** business_domain.py: [process_business_domains] *)

Module Workflow.

(** The table read from Confluence: sys_id to [domain_name]. *)
Definition automation_table : Type := list (string * string).

(** The calls of a run that change something: a call of
    [fill_business_domain_field_direct] and a call of
    [update_confluence_table_with_new_domain]. *)
Inductive call : Type :=
| Fill (domain_sys_id : string) (domain_name : string)
| AddRow (row : Domains.table_add).

Definition is_fill (c : call) : bool :=
  match c with Fill _ _ => true | AddRow _ => false end.

Record stats : Type := {
  calls : list call;
  executed : nat;
  not_found : nat;
  activated : nat;
  errors : nat
}.

Definition no_stats : stats :=
  {| calls := []; executed := 0; not_found := 0; activated := 0; errors := 0 |}.

(** [get_business_domain_info_from_json] *)
Fixpoint get_business_domain_info_from_json (domain_id : string)
    (domain_list : list Domains.entry) : option Domains.domain_info :=
  match domain_list with
  | [] => None
  | Domains.NotADict :: rest => get_business_domain_info_from_json domain_id rest
  | Domains.Domain domain :: rest =>
      if opt_is (get (Domains.sys_id domain)) domain_id
      then Some {| Domains.info_sys_id := get (Domains.sys_id domain);
                   Domains.info_name := get_default (Domains.name domain) "" |}
      else get_business_domain_info_from_json domain_id rest
  end.

(** [_get_operational_status] *)
Fixpoint _get_operational_status (domain_id : string)
    (domain_list : list Domains.entry) : option string :=
  match domain_list with
  | [] => None
  | Domains.NotADict :: rest => _get_operational_status domain_id rest
  | Domains.Domain domain :: rest =>
      if opt_is (get (Domains.sys_id domain)) domain_id
      then get (Domains.operational_status domain)
      else _get_operational_status domain_id rest
  end.

Section Run.
Variable AUTO_UPDATE_CONFLUENCE : bool.
(** The number of issues the k-th fill of the run updates, and the
    result of the k-th table update of the run. *)
Variable fill_success : nat -> nat.
Variable table_update_ok : nat -> bool.
Variable table : automation_table.
Variable domains_data : list Domains.entry.

Definition fills (st : stats) : nat := List.length (filter is_fill (calls st)).
Definition rows (st : stats) : nat :=
  List.length (filter (fun c => negb (is_fill c)) (calls st)).

Definition with_call (c : call) (st : stats) : stats :=
  {| calls := (calls st ++ [c])%list; executed := executed st;
     not_found := not_found st; activated := activated st; errors := errors st |}.

Definition bump_executed (st : stats) : stats :=
  {| calls := calls st; executed := S (executed st);
     not_found := not_found st; activated := activated st; errors := errors st |}.

Definition bump_not_found (st : stats) : stats :=
  {| calls := calls st; executed := executed st;
     not_found := S (not_found st); activated := activated st; errors := errors st |}.

Definition bump_activated (st : stats) : stats :=
  {| calls := calls st; executed := executed st;
     not_found := not_found st; activated := S (activated st); errors := errors st |}.

Definition bump_errors (st : stats) : stats :=
  {| calls := calls st; executed := executed st;
     not_found := not_found st; activated := activated st; errors := S (errors st) |}.

(** [fill_business_domain_field_direct(domain_id, domain_name)]: the
    call, and whether [success > 0]. *)
Definition fill (domain_id domain_name : string) (st : stats) : bool * stats :=
  ((0 <? fill_success (fills st))%nat, with_call (Fill domain_id domain_name) st).

(** [_handle_existing_domain]; [domain_name] is the name of the table. *)
Definition _handle_existing_domain (domain_id domain_name : string) (st : stats)
  : stats :=
  let '(success, st) := fill domain_id domain_name st in
  if success then bump_executed st else st.

(** [_handle_new_domain] *)
Definition _handle_new_domain (domain_id : string) (st : stats) : stats :=
  match get_business_domain_info_from_json domain_id domains_data with
  | None => bump_not_found st
  | Some domain_info =>
      let domain_name :=
        if Py.truthy_opt (Domains.info_name domain_info)
        then fmt (Domains.info_name domain_info) else "Unknown" in
      let '(success, st) := fill domain_id domain_name st in
      let st := if success then bump_executed st else st in
      if negb AUTO_UPDATE_CONFLUENCE then bump_not_found st
      else
        let ok := table_update_ok (rows st) in
        let st := with_call (AddRow {| Domains.added := domain_info;
                                       Domains.is_planned := false |}) st in
        if ok then st else bump_errors st
  end.

(** [_process_domains_with_issues] *)
Definition process_one (st : stats) (domain_id : string) : stats :=
  match dict_get String.eqb domain_id table with
  | Some domain_name => _handle_existing_domain domain_id domain_name st
  | None => _handle_new_domain domain_id st
  end.

Definition _process_domains_with_issues (domain_ids : list string) (st : stats)
  : stats :=
  fold_left process_one domain_ids st.

(** [_activate_planned_domains] *)
Definition activate_one (st : stats) (domain_id : string) : stats :=
  match dict_get String.eqb domain_id table with
  | None => st
  | Some domain_name =>
      if negb (Py.contains (Py.lower domain_name) "(planned)") then st
      else
        let operational_status := _get_operational_status domain_id domains_data in
        if negb (match operational_status with
                 | Some s => str_in s ["1"; ""]
                 | None => true
                 end) then st
        else
          let clean_name :=
            PyText.strip_char PyText.quote
              (PyText.remove (PyText.remove domain_name " (planned)") "(planned)") in
          let '(success, st) := fill domain_id clean_name st in
          if success then bump_activated st else st
  end.

Definition _activate_planned_domains (domain_ids : list string) (st : stats)
  : stats :=
  fold_left activate_one domain_ids st.

(** [process_business_domains] once the export, the table and the ids
    of the issues are loaded: the state after step 1, after step 2, and
    the state of step 3. The table updates of step 3 come after those of
    step 1. *)
Definition process_business_domains (unique_domain_ids : list string)
  : stats * stats * Domains.state :=
  if negb (nonempty domains_data) then (no_stats, no_stats, Domains.initial)
  else
    let step1 := _process_domains_with_issues unique_domain_ids no_stats in
    let step2 := _activate_planned_domains unique_domain_ids step1 in
    let step3 :=
      Domains._add_missing_domains_to_confluence AUTO_UPDATE_CONFLUENCE
        (fun k => table_update_ok (rows step2 + k))
        domains_data (map fst table) unique_domain_ids in
    (step1, step2, step3).
End Run.

(** Reading the calls. *)
Definition row_for_new_domain (table : automation_table) (domain_ids : list string)
    (c : call) : bool :=
  match c with
  | Fill _ _ => true
  | AddRow row =>
      negb (Domains.is_planned row)
      && match Domains.info_sys_id (Domains.added row) with
         | Some id => str_in id domain_ids
                      && negb (str_in id (map fst table))
         | None => false
         end
  end.

(** The calls step 1 makes for one id, and those step 2 makes. *)
Definition calls_of_step1 (AUTO_UPDATE_CONFLUENCE : bool) (table : automation_table)
    (domains_data : list Domains.entry) (domain_id : string) : list call :=
  match dict_get String.eqb domain_id table with
  | Some domain_name => [Fill domain_id domain_name]
  | None =>
      match get_business_domain_info_from_json domain_id domains_data with
      | None => []
      | Some domain_info =>
          Fill domain_id
            (if Py.truthy_opt (Domains.info_name domain_info)
             then fmt (Domains.info_name domain_info) else "Unknown")
          :: (if AUTO_UPDATE_CONFLUENCE
              then [AddRow {| Domains.added := domain_info;
                              Domains.is_planned := false |}]
              else [])
      end
  end.

Definition calls_of_step2 (table : automation_table)
    (domains_data : list Domains.entry) (domain_id : string) : list call :=
  match dict_get String.eqb domain_id table with
  | None => []
  | Some domain_name =>
      if Py.contains (Py.lower domain_name) "(planned)"
         && match _get_operational_status domain_id domains_data with
            | Some s => str_in s ["1"; ""]
            | None => true
            end
      then [Fill domain_id
              (PyText.strip_char PyText.quote
                 (PyText.remove (PyText.remove domain_name " (planned)") "(planned)"))]
      else []
  end.

(** An id with issues that step 1 counts as not found. *)
Definition counted_not_found (AUTO_UPDATE_CONFLUENCE : bool) (table : automation_table)
    (domains_data : list Domains.entry) (domain_id : string) : bool :=
  negb (str_in domain_id (map fst table))
  && (negb AUTO_UPDATE_CONFLUENCE
      || match get_business_domain_info_from_json domain_id domains_data with
         | None => true
         | Some _ => false
         end).

(** The export has a domain with this id. *)
Definition known_domain (domains_data : list Domains.entry) (domain_id : string) : bool :=
  match get_business_domain_info_from_json domain_id domains_data with
  | Some _ => true
  | None => false
  end.

(** main_workflow.py, [process_new_business_domains]: the rows added and
    the number returned; [domain_ids] is iterated in sorted order. *)
Definition process_new_one (table_update_ok : nat -> bool) (table : automation_table)
    (domains_data : list Domains.entry)
    (acc : list Domains.table_add * nat) (d_id : string)
  : list Domains.table_add * nat :=
  let '(added, processed) := acc in
  if str_in d_id (map fst table) then (added, S processed)
  else
    match get_business_domain_info_from_json d_id domains_data with
    | Some info =>
        let ok := table_update_ok (List.length added) in
        let added := (added ++ [{| Domains.added := info;
                                   Domains.is_planned := false |}])%list in
        if ok then (added, S processed) else (added, processed)
    | None => (added, processed)
    end.

Definition process_new_business_domains (table_update_ok : nat -> bool)
    (domain_ids : list string) (domains_data : list Domains.entry)
    (table : automation_table) : list Domains.table_add * nat :=
  fold_left (process_new_one table_update_ok table domains_data)
    (sorted_by String.leb domain_ids) ([], 0).

End Workflow.

(** ** main_workflow.py: the option ids of the service issues *)

Module Dropdown.

(** The tree of [get_cascading_field_options]: parent value to the id of
    the parent and to its children, child value to child id. *)
Definition option_tree : Type := list (string * (string * list (string * string))).

(** One round of the loop that builds the tree; [None] once
    [tree[p_name]] has raised [KeyError]. *)
Definition add_tree_option (parents : list (string * string))
    (acc : option option_tree) (o : Cascade.jira_option) : option option_tree :=
  match acc with
  | None => None
  | Some tree =>
      match Cascade.o_optionId o with
      | None =>
          Some (dict_set String.eqb (Cascade.o_value o) (Cascade.o_id o, []) tree)
      | Some optionId =>
          let p_name := dict_get String.eqb optionId parents in
          if Py.truthy_opt p_name then
            match dict_get String.eqb (fmt p_name) tree with
            | Some (id, children) =>
                Some (dict_set String.eqb (fmt p_name)
                        (id, dict_set String.eqb (Cascade.o_value o) (Cascade.o_id o)
                               children)
                        tree)
            | None => None
            end
          else Some tree
      end
  end.

(** [get_cascading_field_options]: the handler turns every exception,
    of a request or of the construction, into the empty tree. *)
Definition get_cascading_field_options
    (script : list (reply (Fetch.option_page Cascade.jira_option)))
  : ending option_tree :=
  match snd (Fetch.options_loop script [] 0) with
  | Returned all_opts =>
      match fold_left (add_tree_option (Cascade.parent_map all_opts)) all_opts (Some []) with
      | Some tree => Returned tree
      | None => Returned []
      end
  | Raised => Returned []
  | Waiting => Waiting
  end.

(** A service issue, with the two fields the function reads. *)
Record service_issue : Type := {
  business_domain : Issues.jira_value;
  business_service_name : option string
}.

(** [d_raw.get("value") if isinstance(d_raw, dict) else d_raw] *)
Definition domain_name_of (d_raw : Issues.jira_value) : option string :=
  match d_raw with
  | Issues.JNone => None
  | Issues.JText s => Some s
  | Issues.JDict value _ => value
  end.

(** The child id found for an issue in the tree, if any. *)
Definition child_id_of (options : option_tree) (issue : service_issue) : option string :=
  match domain_name_of (business_domain issue), business_service_name issue with
  | Some d_name, Some s_name =>
      match dict_get String.eqb d_name options with
      | Some (_, children) => dict_get String.eqb s_name children
      | None => None
      end
  | _, _ => None
  end.

(** [sync_cascading_dropdown]: the calls of
    [_update_option_id_for_service] (service name, child id) in order and
    the counter [updated]; [None] while a load waits for a reply. *)
Definition sync_cascading_dropdown
    (service_script : list (reply (Fetch.search_page service_issue)))
    (option_script : list (reply (Fetch.option_page Cascade.jira_option)))
  : option (list (string * string) * nat) :=
  match snd (Fetch.fetch_jira_issues_paginated service_script) with
  | Returned services =>
      match get_cascading_field_options option_script with
      | Returned options =>
          if negb (nonempty services) || negb (nonempty options) then Some ([], 0)
          else
            Some (fold_left
                    (fun acc issue =>
                       match child_id_of options issue with
                       | Some child_id =>
                           ((fst acc ++ [(fmt (business_service_name issue), child_id)])%list,
                            S (snd acc))
                       | None => acc
                       end)
                    services ([], 0))
      | Raised | Waiting => None
      end
  | Raised | Waiting => None
  end.

End Dropdown.

(** * Properties *)

(** ** Strings *)

Lemma take_length (n : nat) (s : string) : String.length (Py.take n s) <= n.
Proof.
  revert s; induction n as [|n IH]; intros [|c r]; simpl; try lia.
  specialize (IH r); lia.
Qed.



Lemma startswith_drop_length (p s : string) :
  Py.startswith s p = true ->
  String.length (Py.drop (String.length p) s) + String.length p = String.length s.
Proof.
  revert s; induction p as [|a p IH]; intros s H.
  - destruct s; simpl; lia.
  - destruct s as [|b s]; simpl in *; [discriminate|].
    apply andb_true_iff in H as [_ H]; specialize (IH s H); lia.
Qed.

Lemma lstrip_length (s : string) : String.length (Py.lstrip s) <= String.length s.
Proof.
  induction s as [|c r IH]; simpl; [lia|].
  destruct (Py.isspace c); simpl; lia.
Qed.

Lemma rstrip_length (s : string) : String.length (Py.rstrip s) <= String.length s.
Proof.
  induction s as [|c r IH]; simpl; [lia|].
  destruct (Py.rstrip r) as [|c' r'] eqn:E.
  - destruct (Py.isspace c); simpl; lia.
  - simpl in *; lia.
Qed.

Lemma strip_length (s : string) : String.length (Py.strip s) <= String.length s.
Proof.
  unfold Py.strip.
  pose proof (rstrip_length (Py.lstrip s)); pose proof (lstrip_length s); lia.
Qed.

Lemma rstrip_idempotent (s : string) : Py.rstrip (Py.rstrip s) = Py.rstrip s.
Proof.
  induction s as [|c r IH]; simpl; [reflexivity|].
  destruct (Py.rstrip r) as [|c' r'] eqn:E.
  - destruct (Py.isspace c) eqn:Ec; simpl; [reflexivity|].
    rewrite Ec; reflexivity.
  - change (Py.rstrip (String c (String c' r')) = String c (String c' r')).
    simpl. simpl in IH. rewrite IH. reflexivity.
Qed.

Lemma rstrip_cons (c : ascii) (r : string) :
  Py.isspace c = false -> Py.rstrip (String c r) = String c (Py.rstrip r).
Proof.
  intros Hc; simpl. destruct (Py.rstrip r); [rewrite Hc|]; reflexivity.
Qed.

Lemma lstrip_head (s : string) :
  Py.lstrip s = "" \/
  exists c r, Py.lstrip s = String c r /\ Py.isspace c = false.
Proof.
  induction s as [|c r IH]; simpl; [left; reflexivity|].
  destruct (Py.isspace c) eqn:Ec; [exact IH|].
  right; exists c, r; split; [reflexivity | exact Ec].
Qed.

Lemma strip_drop_shorter (p s : string) :
  Py.startswith s p = true -> 0 < String.length p ->
  String.length (Py.strip (Py.drop (String.length p) s)) < String.length s.
Proof.
  intros H Hp.
  pose proof (startswith_drop_length _ _ H).
  pose proof (strip_length (Py.drop (String.length p) s)). lia.
Qed.

(** [s.strip().strip() == s.strip()] *)
Lemma strip_idempotent (s : string) : Py.strip (Py.strip s) = Py.strip s.
Proof.
  unfold Py.strip.
  destruct (lstrip_head s) as [E | (c & r & E & Hc)]; rewrite E.
  - reflexivity.
  - rewrite (rstrip_cons c r Hc). simpl Py.lstrip. rewrite Hc.
    rewrite (rstrip_cons c _ Hc), rstrip_idempotent. reflexivity.
Qed.

(** ** The summary of a Retired service *)

Section SummaryFacts.
Import Summary.

Lemma strip_retired_prefixes_fixed (fuel : nat) (b : string) :
  Py.startswith b "Retired-" = false ->
  Py.startswith b "Retired - " = false ->
  strip_retired_prefixes fuel b = b.
Proof.
  intros H1 H2; destruct fuel; cbn [strip_retired_prefixes]; [reflexivity|].
  rewrite H1, H2; reflexivity.
Qed.


(** More fuel than the length changes nothing. *)
Lemma strip_retired_prefixes_stable (fuel : nat) (s : string) :
  String.length s <= fuel ->
  strip_retired_prefixes fuel s = base_summary s.
Proof.
  intros Hlen. unfold base_summary.
  assert (G : forall f g t, String.length t <= f -> String.length t <= g ->
              strip_retired_prefixes f t = strip_retired_prefixes g t).
  { clear. induction f as [|f IH]; intros g t Hf Hg.
    - destruct t; [|simpl in Hf; lia]. destruct g; reflexivity.
    - destruct g as [|g].
      + destruct t; [reflexivity | simpl in Hg; lia].
      + cbn [strip_retired_prefixes].
        destruct (Py.startswith t "Retired - ") eqn:E2.
        * rewrite orb_true_r.
          pose proof (strip_drop_shorter _ _ E2 ltac:(cbv; lia)).
          apply IH; lia.
        * rewrite orb_false_r.
          destruct (Py.startswith t "Retired-") eqn:E1; [|reflexivity].
          pose proof (strip_drop_shorter _ _ E1 ltac:(cbv; lia)).
          apply IH; lia. }
  apply G; [exact Hlen | lia].
Qed.




End SummaryFacts.


(** A base without surrounding blanks can still hold the doubled prefix
    further right, and then the derived summary holds it too. *)
Lemma derive_keeps_inner_double_prefix :
  Py.strip "Ex-Retired-Retired-Payroll" = "Ex-Retired-Retired-Payroll"
  /\ Summary.derive "Ex-Retired-Retired-Payroll" = "Retired-Ex-Retired-Retired-Payroll"
  /\ Py.contains (Summary.derive "Ex-Retired-Retired-Payroll") "Retired-Retired-" = true.
Proof. repeat split; vm_compute; reflexivity. Qed.









(** A summary without surrounding blanks has a base without them. *)
Lemma base_summary_stripped (s : string) :
  Py.strip s = s -> Py.strip (Summary.base_summary s) = Summary.base_summary s.
Proof.
  unfold Summary.base_summary. generalize (String.length s) as fuel.
  intros fuel; revert s; induction fuel as [|fuel IH]; intros s Hs;
    cbn [Summary.strip_retired_prefixes]; [exact Hs|].
  destruct (Py.startswith s "Retired - ").
  - rewrite orb_true_r. apply IH, strip_idempotent.
  - rewrite orb_false_r. destruct (Py.startswith s "Retired-"); [|exact Hs].
    apply IH, strip_idempotent.
Qed.


(** A base of 248 characters whose 247th is a blank: the cut at 255 leaves
    the blank at the end of the derived summary, and the next derivation
    strips it. *)
Lemma derive_cut_not_idempotent :
  let s := String.concat "" (repeat "a" 246) ++ " b" in
  Py.strip (Summary.base_summary s) = Summary.base_summary s
  /\ String.length (Summary.base_summary s) = 248
  /\ Summary.derive (Summary.derive s) <> Summary.derive s.
Proof.
  repeat split; try (vm_compute; reflexivity).
  vm_compute. discriminate.
Qed.

(** ** Dicts *)

Section DictFacts.
Context {K V : Type}.
Variable eqb : K -> K -> bool.
Hypothesis eqb_eq : forall a b, eqb a b = true <-> a = b.

Lemma dict_get_set (k k' : K) (v : V) (d : list (K * V)) :
  dict_get eqb k (dict_set eqb k' v d)
  = if eqb k k' then Some v else dict_get eqb k d.
Proof.
  induction d as [|[k0 v0] d IH]; simpl.
  - reflexivity.
  - destruct (eqb k' k0) eqn:E; simpl.
    + apply eqb_eq in E; subst k0.
      destruct (eqb k k'); reflexivity.
    + rewrite IH. destruct (eqb k k0) eqn:E0; [|reflexivity].
      apply eqb_eq in E0; subst k0.
      destruct (eqb k k') eqn:E1; [|reflexivity].
      apply eqb_eq in E1; subst k'.
      rewrite (proj2 (eqb_eq k k) eq_refl) in E. discriminate.
Qed.

Lemma dict_set_nonempty (k : K) (v : V) (d : list (K * V)) :
  nonempty (dict_set eqb k v d) = true.
Proof.
  destruct d as [|[k0 v0] d]; simpl; [reflexivity|].
  destruct (eqb k k0); reflexivity.
Qed.
End DictFacts.

Lemma update_key_eqb_eq (a b : Issues.update_key) :
  Issues.update_key_eqb a b = true <-> a = b.
Proof.
  split.
  - destruct a as [f| | |], b as [g| | |]; simpl; try discriminate; try reflexivity.
    destruct f, g; simpl; try discriminate; reflexivity.
  - intros <-. destruct a as [f| | |]; simpl; try reflexivity.
    destruct f; reflexivity.
Qed.

(** ** The field comparison *)

Section CompareFacts.
Import Issues.

Lemma get_set_update (k k' : update_key) (v : update_value) (u : updates) :
  get_update k (set_update k' v u)
  = if update_key_eqb k k' then Some v else get_update k u.
Proof. apply dict_get_set, update_key_eqb_eq. Qed.

(** The loop over the custom fields writes custom keys only. *)
Lemma compare_one_other (k : update_key) fields record upd m :
  (forall f, k <> KCustom f) ->
  get_update k (compare_one fields record upd m) = get_update k upd.
Proof.
  intros Hk. unfold compare_one.
  assert (E : update_key_eqb k (KCustom (field_id m)) = false).
  { destruct (update_key_eqb k (KCustom (field_id m))) eqn:E; [|reflexivity].
    apply update_key_eqb_eq in E. destruct (Hk _ E). }
  repeat match goal with
         | |- context [if ?b then _ else _] => destruct b
         | |- context [match ?x with Some _ => _ | None => _ end] => destruct x
         | |- context [match type ?x with _ => _ end] => destruct (type x)
         end;
    rewrite ?get_set_update, ?E; reflexivity.
Qed.

Lemma compare_loop_other (k : update_key) fields record ms upd :
  (forall f, k <> KCustom f) ->
  get_update k (fold_left (compare_one fields record) ms upd) = get_update k upd.
Proof.
  intros Hk. revert upd; induction ms as [|m ms IH]; intros upd; simpl.
  - reflexivity.
  - rewrite IH. apply compare_one_other, Hk.
Qed.

(** [updates["summary"]] is what the summary rule proposes. *)
Lemma compare_fields_summary (existing_issue : issue) (record : sn_record) :
  proposed_summary (_compare_fields existing_issue record)
  = Summary.summary_update (get (operational_status record))
      (summary (fields existing_issue)).
Proof.
  unfold proposed_summary, _compare_fields.
  fold get_update.
  destruct (Summary.summary_update _ _) as [s|].
  - rewrite get_set_update; reflexivity.
  - rewrite compare_loop_other by discriminate. reflexivity.
Qed.

Lemma compare_fields_other (k : update_key) existing_issue record :
  k = KAssignee \/ k = KReporter ->
  get_update k (_compare_fields existing_issue record) = None.
Proof.
  intros Hk. unfold _compare_fields.
  assert (Hc : forall f, k <> KCustom f) by (destruct Hk; subst; discriminate).
  assert (Hs : update_key_eqb k KSummary = false) by (destruct Hk; subst; reflexivity).
  destruct (Summary.summary_update _ _).
  - rewrite get_set_update, Hs, compare_loop_other by exact Hc. reflexivity.
  - rewrite compare_loop_other by exact Hc. reflexivity.
Qed.
End CompareFacts.

Lemma summary_update_within (status : option string) (current : string) :
  Issues.within 255 (Summary.summary_update status current).
Proof.
  unfold Summary.summary_update.
  destruct (opt_is status "6").
  - destruct (current =? _); cbn [Issues.within]; [exact I | apply take_length].
  - destruct (current =? _); cbn [Issues.within]; [exact I | apply take_length].
Qed.

(** C10: the summary written at creation and the replacement summary an
    update proposes (the Retired form as well as the bare base) have at most
    255 characters, whatever the name, the sys_id and the current summary. *)
Theorem summaries_at_most_255
    (name sys_id : jfield) (existing_issue : Issues.issue) (record : Issues.sn_record) :
  String.length (Summary.create_summary name sys_id) <= 255
  /\ Issues.within 255 (Issues.proposed_summary (Issues._compare_fields existing_issue record)).
Proof.
  split; [apply take_length|].
  rewrite compare_fields_summary. apply summary_update_within.
Qed.

(** ** The update of a tracked service *)

Section UpdateFacts.
Import Issues.

Variable now : string.
Variable rep_id : option string.
Variable record : sn_record.
Variable existing_issue : issue.

Let p := update_payload now rep_id record existing_issue.

Lemma set_update_nonempty (k : update_key) (v : update_value) (u : updates) :
  nonempty (set_update k v u) = true.
Proof. apply dict_set_nonempty. Qed.

(** The update always carries a [fields] part, and the assignee is
    cleared in it. *)
Lemma update_clears_assignee :
  exists u, payload_fields p = Some u /\ get_update KAssignee u = Some VNone.
Proof.
  subst p; unfold update_payload.
  destruct rep_id as [id|]; [destruct (Py.truthy id)|];
    cbn [payload_fields]; rewrite set_update_nonempty;
    eexists; (split; [reflexivity|]);
    rewrite ?get_set_update; reflexivity.
Qed.

(** The reporter is set as soon as its account id is resolved. *)
Lemma update_sets_reporter (id : string) :
  rep_id = Some id -> Py.truthy id = true ->
  exists u, payload_fields p = Some u /\ get_update KReporter u = Some (VAccount id).
Proof.
  intros E Hid; subst p; unfold update_payload. rewrite E, Hid.
  cbn [payload_fields]; rewrite set_update_nonempty.
  eexists; (split; [reflexivity|]).
  rewrite get_set_update; reflexivity.
Qed.

(** Without a resolved account id the update leaves the reporter alone. *)
Lemma update_without_reporter :
  Py.truthy_opt rep_id = false ->
  exists u, payload_fields p = Some u /\ get_update KReporter u = None.
Proof.
  intros E; subst p; unfold update_payload.
  destruct rep_id as [id|]; simpl in E; [rewrite E|];
    cbn [payload_fields]; rewrite set_update_nonempty;
    eexists; (split; [reflexivity|]);
    rewrite get_set_update; simpl; apply compare_fields_other; auto.
Qed.

(** The test [if fields_to_update] comes after the assignee has been put
    in the dict: the comment is attached to every update. *)
Lemma update_always_comments :
  comment_add p = ["Business service info updated on " ++ now].
Proof.
  subst p; unfold update_payload.
  destruct rep_id as [id|]; [destruct (Py.truthy id)|];
    cbn [comment_add]; rewrite set_update_nonempty; reflexivity.
Qed.

(** When no compared field differs the comparison proposes nothing. *)
Lemma nothing_differs_nothing_proposed :
  some_field_differs existing_issue record = false ->
  _compare_fields existing_issue record = [].
Proof.
  unfold some_field_differs, _compare_fields; intros H.
  apply orb_false_iff in H as [Hf Hs].
  unfold summary_differs in Hs.
  destruct (Summary.summary_update _ _); [discriminate|].
  clear Hs. revert Hf. generalize (@nil (update_key * update_value)) as upd.
  induction field_mappings as [|m ms IH]; intros upd Hf; simpl in *.
  - reflexivity.
  - apply orb_false_iff in Hf as [Hm Hms].
    unfold compare_one at 2. unfold field_differs in Hm. rewrite Hm.
    apply IH, Hms.
Qed.
End UpdateFacts.

(** Outside a dry run the payload built above is the request sent. *)
Lemma update_sends_payload now rep_id record existing_issue server :
  fst (_update_business_service_optimized false now rep_id record existing_issue server)
  = Some (Issues.update_payload now rep_id record existing_issue).
Proof. reflexivity. Qed.

(** C4: the issue AMI-1 holds every compared field of its export record, so
    that the comparison proposes nothing; the update built for it clears the
    assignee, sets the reporter, and still attaches the dated comment. *)
Theorem unchanged_issue_still_commented :
  Issues.some_field_differs Inputs.payroll_issue Inputs.payroll_record = false
  /\ Issues._compare_fields Inputs.payroll_issue Inputs.payroll_record = []
  /\ fst (_update_business_service_optimized false "2025-11-03" (Some "acc-1")
            Inputs.payroll_record Inputs.payroll_issue (fun _ => Update.Response 204))
     = Some {| Issues.labels_add := ["business-service-verified"];
               Issues.comment_add := ["Business service info updated on 2025-11-03"];
               Issues.payload_fields :=
                 Some [(Issues.KAssignee, Issues.VNone);
                       (Issues.KReporter, Issues.VAccount "acc-1")] |}.
Proof. repeat split; vm_compute; reflexivity. Qed.

(** ** The paginated fetches *)

Section FetchFacts.
Import Fetch.
Context {R : Type}.

(** Over pages that all announce a next one the loop keeps going. *)
Lemma search_loop_continues (pre : list (search_page R)) rest acc sent :
  forallb continues pre = true ->
  search_loop (map Body pre ++ rest) acc sent
  = search_loop rest (acc ++ gathered pre) (sent + List.length pre).
Proof.
  revert acc sent; induction pre as [|p pre IH]; intros acc sent H.
  - unfold gathered; simpl. rewrite app_nil_r, Nat.add_0_r. reflexivity.
  - simpl in H. apply andb_true_iff in H as [Hp Hpre].
    unfold continues in Hp. apply andb_true_iff in Hp as [Ht Hn].
    cbn [map app search_loop]. rewrite Ht.
    apply negb_true_iff in Hn. rewrite Hn. cbn [negb].
    rewrite (IH _ _ Hpre). unfold gathered; simpl.
    rewrite <- app_assoc. f_equal. simpl; lia.
Qed.

Lemma options_loop_continues (pre : list (option_page R)) rest acc sent :
  forallb more_options pre = true ->
  options_loop (map Body pre ++ rest) acc sent
  = options_loop rest (acc ++ concat (map values pre)) (sent + List.length pre).
Proof.
  revert acc sent; induction pre as [|p pre IH]; intros acc sent H.
  - simpl. rewrite app_nil_r, Nat.add_0_r. reflexivity.
  - simpl in H. apply andb_true_iff in H as [Hp Hpre].
    unfold more_options in Hp. apply negb_true_iff in Hp.
    cbn [map app options_loop]. rewrite Hp.
    rewrite (IH _ _ Hpre). simpl.
    rewrite <- app_assoc. f_equal. lia.
Qed.

(** A page without issues ends the token-based loop, whatever token it
    carries: the fetch returns what it holds and reads no further reply. *)
Lemma empty_page_stops_search (pre : list (search_page R)) (p : search_page R) rest :
  forallb continues pre = true ->
  issues p = [] ->
  fetch_jira_issues_paginated (map Body pre ++ Body p :: rest)
  = (S (List.length pre), Returned (gathered pre)).
Proof.
  intros Hpre Hp. unfold fetch_jira_issues_paginated.
  rewrite (search_loop_continues _ _ _ _ Hpre).
  cbn [search_loop]. rewrite Hp, app_nil_r. simpl.
  destruct (negb (Py.truthy_opt (nextPageToken p))); reflexivity.
Qed.

(** A fault on the page after [pre]: the handlers of
    [fetch_jira_issues_paginated] return the empty list. *)
Lemma fault_empties_search (pre : list (search_page R)) rest :
  forallb continues pre = true ->
  fetch_jira_issues_paginated (map Body pre ++ Fault :: rest)
  = (S (List.length pre), Returned []).
Proof.
  intros Hpre. unfold fetch_jira_issues_paginated.
  rewrite (search_loop_continues _ _ _ _ Hpre). reflexivity.
Qed.

(** [fetch_all_options] lets the fault through. *)
Lemma fault_leaves_options (pre : list (option_page R)) rest :
  forallb more_options pre = true ->
  fetch_all_options (map Body pre ++ Fault :: rest)
  = (S (List.length pre), Raised).
Proof.
  intros Hpre. unfold fetch_all_options.
  rewrite (options_loop_continues _ _ _ _ Hpre). reflexivity.
Qed.
End FetchFacts.

Lemma empty_page_stops_load (pre : list (Fetch.search_page Issues.issue)) p rest :
  forallb Fetch.continues pre = true ->
  Fetch.issues p = [] ->
  Fetch.load_all_business_services_with_fields (map Body pre ++ Body p :: rest)
  = (S (List.length pre),
     Returned (fold_left Fetch.index_issue (Fetch.gathered pre) ([], []))).
Proof.
  intros Hpre Hp. unfold Fetch.load_all_business_services_with_fields.
  rewrite (search_loop_continues _ _ _ _ Hpre).
  cbn [Fetch.search_loop]. rewrite Hp, app_nil_r. simpl.
  destruct (negb (Py.truthy_opt (Fetch.nextPageToken p))); reflexivity.
Qed.

Lemma fault_empties_load (pre : list (Fetch.search_page Issues.issue)) rest :
  forallb Fetch.continues pre = true ->
  Fetch.load_all_business_services_with_fields (map Body pre ++ Fault :: rest)
  = (S (List.length pre), Returned ([], [])).
Proof.
  intros Hpre. unfold Fetch.load_all_business_services_with_fields.
  rewrite (search_loop_continues _ _ _ _ Hpre). reflexivity.
Qed.

(** C6, as stated, fails: after a first page of two issues a fault on the
    second page makes [fetch_jira_issues_paginated] return the empty list,
    not the two issues, and makes [fetch_all_options] raise. *)
Lemma fault_loses_first_page :
  Fetch.continues Inputs.first_page = true
  /\ snd (Fetch.fetch_jira_issues_paginated [Body Inputs.first_page; Fault])
     = Returned []
  /\ snd (Fetch.fetch_jira_issues_paginated [Body Inputs.first_page; Fault])
     <> Returned (Fetch.issues Inputs.first_page)
  /\ snd (Fetch.fetch_all_options [Body Inputs.first_option_page; Fault])
     <> Returned (Fetch.values Inputs.first_option_page).
Proof. repeat split; try reflexivity; vm_compute; discriminate. Qed.

(** C6 (amended): when a transport fault occurs on the page after n pages
    that each announced a next one, [fetch_jira_issues_paginated] returns
    the empty list and [load_all_business_services_with_fields] two empty
    indexes (the records of the n pages are dropped), and
    [fetch_all_options] raises; each has sent n+1 requests. *)
Theorem fault_discards_accumulated_pages (R O : Type)
    (pre : list (Fetch.search_page R)) (rest : list (reply (Fetch.search_page R)))
    (pre_i : list (Fetch.search_page Issues.issue))
    (rest_i : list (reply (Fetch.search_page Issues.issue)))
    (pre_o : list (Fetch.option_page O))
    (rest_o : list (reply (Fetch.option_page O))) :
  forallb Fetch.continues pre = true ->
  forallb Fetch.continues pre_i = true ->
  forallb Fetch.more_options pre_o = true ->
  Fetch.fetch_jira_issues_paginated (map Body pre ++ Fault :: rest)
    = (S (List.length pre), Returned [])
  /\ Fetch.load_all_business_services_with_fields (map Body pre_i ++ Fault :: rest_i)
    = (S (List.length pre_i), Returned ([], []))
  /\ Fetch.fetch_all_options (map Body pre_o ++ Fault :: rest_o)
    = (S (List.length pre_o), Raised).
Proof.
  intros H Hi Ho. repeat split.
  - apply fault_empties_search, H.
  - apply fault_empties_load, Hi.
  - apply fault_leaves_options, Ho.
Qed.

Lemma fault_discards_witness :
  forallb Fetch.continues [Inputs.first_page] = true
  /\ forallb Fetch.continues [Inputs.first_issue_page] = true
  /\ forallb Fetch.more_options [Inputs.first_option_page] = true
  /\ Fetch.fetch_jira_issues_paginated [Body Inputs.first_page; Fault]
     = (2, Returned [])
  /\ Fetch.load_all_business_services_with_fields [Body Inputs.first_issue_page; Fault]
     = (2, Returned ([], []))
  /\ Fetch.fetch_all_options [Body Inputs.first_option_page; Fault]
     = (2, Raised).
Proof.
  split; [reflexivity|]. split; [reflexivity|]. split; [reflexivity|].
  apply (fault_discards_accumulated_pages string string
           [Inputs.first_page] [] [Inputs.first_issue_page] []
           [Inputs.first_option_page] []); reflexivity.
Defined.

(** C7: an empty page that announces one more does not stop
    [fetch_all_options]: it asks for the next page and returns what that
    page holds. The two token-based fetches stop on such a page
    ([empty_page_stops_search], [empty_page_stops_load]). *)
Theorem empty_option_page_does_not_stop :
  Fetch.values Inputs.empty_option_page = []
  /\ Fetch.fetch_all_options [Body Inputs.empty_option_page; Body Inputs.last_option_page]
     = (2, Returned ["HR"])
  /\ Fetch.fetch_all_options [Body Inputs.empty_option_page]
     = (1, Waiting)
  /\ Fetch.fetch_jira_issues_paginated
       [Body Inputs.empty_page_with_token; Body Inputs.first_page]
     = (1, Returned []).
Proof. repeat split; reflexivity. Qed.

(** ** [update_issue] *)

Section UpdateIssueFacts.
Import Update.
Variable server : nat -> put_reply.

Lemma attempts_cons (er_response : Z -> bool) (attempt : nat) (rest : list nat) :
  attempts er_response server (attempt :: rest)
  = match attempt_body er_response attempt (server attempt) with
    | (ev, Return result) => (ev, result)
    | (ev, Next) =>
        let '(ev', result) := attempts er_response server rest in
        ((ev ++ ev')%list, result)
    end.
Proof. reflexivity. Qed.

(** Three answers 429: three requests, a wait of 10 s and one of 20 s
    before the retries, and [None]. *)
Lemma update_issue_rate_limited :
  (forall attempt, server attempt = Response 429) ->
  update_issue server
  = ([Put 0; Sleep (inject_Z (RETRY_BASE_DELAY * 2 ^ 0));
      Put 1; Sleep (inject_Z (RETRY_BASE_DELAY * 2 ^ 1));
      Put 2], None).
Proof.
  intros H. unfold update_issue, update_issue_with.
  cbn [seq MAX_RETRIES attempts]. rewrite !H. reflexivity.
Qed.

(** A request that raises without a response ends the call at once. *)
Lemma update_issue_no_response :
  server 0 = NoResponse -> update_issue server = ([Put 0], None).
Proof.
  intros H. unfold update_issue, update_issue_with.
  cbn [seq MAX_RETRIES attempts]. rewrite H. reflexivity.
Qed.

(** A first answer below 400 (or from 600 on) is returned after the fixed
    delay. *)
Lemma update_issue_success (status_code : Z) :
  server 0 = Response status_code -> ok status_code = true ->
  update_issue server = ([Put 0; Sleep RATE_LIMIT_DELAY], Some status_code).
Proof.
  intros H Hok. unfold update_issue, update_issue_with.
  cbn [seq MAX_RETRIES attempts]. rewrite H. unfold attempt_body.
  rewrite Hok.
  destruct (status_code =? 429)%Z eqn:E; [|reflexivity].
  apply Z.eqb_eq in E; subst. discriminate.
Qed.

(** An HTTP error other than 429 on the first attempt: the response of
    the exception is falsy, the handler does not return, and the loop
    sends the request again without waiting. *)
Lemma update_issue_retries_http_error (status_code : Z) :
  server 0 = Response status_code -> ok status_code = false ->
  status_code <> 429%Z ->
  update_issue server
  = (Put 0 :: fst (attempts response_bool server [1; 2]),
     snd (attempts response_bool server [1; 2])).
Proof.
  intros H Hok Hne. unfold update_issue, update_issue_with.
  change (seq 0 MAX_RETRIES) with [0; 1; 2].
  rewrite attempts_cons, H. unfold attempt_body.
  apply Z.eqb_neq in Hne. rewrite Hne, Hok.
  unfold http_error_handler, response_bool. rewrite Hok.
  cbn [andb Nat.eqb MAX_RETRIES Nat.sub].
  destruct (attempts ok server [1; 2]); reflexivity.
Qed.

(** Had the response of the exception been truthy, the same error would
    have ended the call at once, as the handler is written to do. *)
Lemma update_issue_with_truthy_response (status_code : Z) :
  server 0 = Response status_code -> ok status_code = false ->
  status_code <> 429%Z ->
  update_issue_with (fun _ => true) server = ([Put 0], None).
Proof.
  intros H Hok Hne. unfold update_issue_with.
  change (seq 0 MAX_RETRIES) with [0; 1; 2].
  rewrite attempts_cons, H. unfold attempt_body.
  apply Z.eqb_neq in Hne. rewrite Hne, Hok.
  unfold http_error_handler. rewrite Hne. reflexivity.
Qed.
End UpdateIssueFacts.

(** C8: an answer 500 on the first attempt does not end [update_issue]: it
    sends the request again, at once, and returns the 200 of the second
    attempt; three answers 500 take three requests. *)
Theorem update_issue_retries_after_500 :
  Update.update_issue Inputs.error_then_success
  = ([Update.Put 0; Update.Put 1; Update.Sleep RATE_LIMIT_DELAY], Some 200%Z)
  /\ Update.update_issue (fun _ => Update.Response 500)
     = ([Update.Put 0; Update.Put 1; Update.Put 2], None).
Proof. split; reflexivity. Qed.

(** ** Domains missing from the Confluence table *)

Lemma missing_active_domain_trace
    (auto : bool) (table_update_ok : nat -> bool) (d : Domains.domain_record)
    (id : string) (automation_table processed_ids : list string) :
  Domains.sys_id d = Str id ->
  Py.truthy_opt (get (Domains.name d)) = true ->
  Domains.is_active d = true ->
  str_in id automation_table = false ->
  str_in id processed_ids = false ->
  Domains.calls
    (Domains._add_missing_domains_to_confluence auto table_update_ok
       [Domains.Domain d] automation_table processed_ids)
  = if auto
    then let row := {| Domains.added :=
                         {| Domains.info_sys_id := Some id;
                            Domains.info_name := get (Domains.name d) |};
                       Domains.is_planned := true |} in
         [row; row]
    else [].
Proof.
  destruct d as [sid nm st]; cbn [Domains.sys_id Domains.name].
  intros -> Hn Ha Ht Hp.
  unfold Domains.is_active in Ha; cbn [Domains.operational_status] in Ha.
  unfold Domains._add_missing_domains_to_confluence.
  cbn [fold_left Domains.add_missing_one Domains.sys_id Domains.name
       Domains.operational_status get opt_in].
  rewrite Ht, Hp, Hn. cbn [orb negb].
  assert (H20 : opt_is (get st) "20" = false /\ opt_is (get st) "6" = false).
  { destruct (get st) as [s|]; [|split; reflexivity].
    simpl in Ha. rewrite orb_false_r in Ha.
    apply orb_true_iff in Ha as [E|E]; apply String.eqb_eq in E; subst;
      split; reflexivity. }
  destruct H20 as [H20 H6]. rewrite H20, H6, Ha.
  assert (En : get_default nm "" = get nm).
  { destruct nm; try reflexivity; discriminate. }
  rewrite En.
  unfold Domains._add_active_domain, Domains.call_table.
  destruct auto; cbn [negb]; [|reflexivity].
  cbn [Domains.initial Domains.calls app List.length].
  destruct (table_update_ok 0); cbn [Domains.bump_planned Domains.calls app List.length];
    destruct (table_update_ok 1); reflexivity.
Qed.

(** With the automatic update on, the pass adds the row of a missing Active
    domain twice; with the update off it adds nothing. *)
Lemma missing_active_domain_adds
    (auto : bool) (table_update_ok : nat -> bool) (d : Domains.domain_record)
    (id : string) (automation_table processed_ids : list string) :
  Domains.sys_id d = Str id ->
  Py.truthy_opt (get (Domains.name d)) = true ->
  Domains.is_active d = true ->
  str_in id automation_table = false ->
  str_in id processed_ids = false ->
  Domains.adds_for id
    (Domains._add_missing_domains_to_confluence auto table_update_ok
       [Domains.Domain d] automation_table processed_ids)
  = if auto then 2 else 0.
Proof.
  intros Hid Hn Ha Ht Hp. unfold Domains.adds_for.
  rewrite (missing_active_domain_trace auto table_update_ok d id _ _ Hid Hn Ha Ht Hp).
  destruct auto; [|reflexivity].
  cbn [filter Domains.added Domains.info_sys_id opt_is].
  rewrite String.eqb_refl. reflexivity.
Qed.

(** C9: for the Active domain d1, absent from the table and from the
    processed ids, one pass with the automatic update on calls the table
    update twice, with the same row. *)
Theorem active_domain_added_twice :
  let st := Domains._add_missing_domains_to_confluence true (fun _ => true)
              [Domains.Domain Inputs.finance_domain] [] [] in
  Domains.is_active Inputs.finance_domain = true
  /\ Domains.adds_for "d1" st = 2
  /\ Domains.calls st
     = [ {| Domains.added := {| Domains.info_sys_id := Some "d1";
                                Domains.info_name := Some "Finance" |};
            Domains.is_planned := true |};
         {| Domains.added := {| Domains.info_sys_id := Some "d1";
                                Domains.info_name := Some "Finance" |};
            Domains.is_planned := true |} ].
Proof. repeat split; reflexivity. Qed.

(** ** The cascading option tree *)

Section CascadeFacts.
Import Cascade.
Variable apply : bool.
Variable target : cascade_structure.
Variable planned_services : list string.
Variable current : current_structure.

Lemma andthen_ret (ev : list event) (b : M) :
  andthen (ret ev) b = ((ev ++ fst b)%list, snd b).
Proof. reflexivity. Qed.

(** Every child of the current tree whose normalized name is planned
    gets its DELETED row, enabled or not. *)
Lemma planned_child_deleted (p : string) (data : jira_parent) (child : jira_child) :
  In (p, data) current -> In child (children data) ->
  str_in (normalize_name (c_name child)) planned_services = true ->
  In (Row p (c_name child) DELETED_Status_20)
     (fst (sync apply target planned_services current)).
Proof.
  intros Hp Hc Hplanned. unfold sync. rewrite andthen_ret. cbn [fst].
  apply in_or_app; left. unfold planned_deletes.
  apply in_flat_map. exists (p, data). split; [exact Hp|].
  apply in_flat_map. exists child. split; [exact Hc|].
  rewrite Hplanned. left; reflexivity.
Qed.

(** The sweep looks the parent up in the target by its exact Jira name: an
    enabled child whose name is not among the children found that way is
    marked To disable. *)
Lemma sweep_disables (p : string) (data : jira_parent) (child : jira_child) :
  In (p, data) current -> In child (children data) ->
  str_in (normalize_name (c_name child)) (target_children_of target p) = false ->
  c_disabled child = false ->
  In (Row p (c_name child) To_disable) (obsolete_sweep apply target current).
Proof.
  intros Hp Hc Hunknown Henabled. unfold obsolete_sweep.
  apply in_flat_map. exists (p, data). split; [exact Hp|].
  apply in_flat_map. exists child. split; [exact Hc|].
  rewrite Hunknown, Henabled. left; reflexivity.
Qed.

(** When the main loop ends without an exception, the rows of the sweep
    are rows of the pass. *)
Lemma sweep_in_sync (e : event) :
  snd (for_each (diff_parent apply current) target) = true ->
  In e (obsolete_sweep apply target current) ->
  In e (fst (sync apply target planned_services current)).
Proof.
  intros Hok He. unfold sync. rewrite andthen_ret. cbn [fst].
  apply in_or_app; right.
  unfold andthen at 1. rewrite Hok. cbn [fst].
  apply in_or_app; right. rewrite andthen_ret. cbn [fst].
  apply in_or_app; left. exact He.
Qed.
(** A planned child that is enabled, and that the target does not hold
    under the same parent, is deleted and then marked To disable. *)
Lemma planned_enabled_child_also_disabled
    (p : string) (data : jira_parent) (child : jira_child) :
  In (p, data) current -> In child (children data) ->
  str_in (normalize_name (c_name child)) planned_services = true ->
  str_in (normalize_name (c_name child)) (target_children_of target p) = false ->
  c_disabled child = false ->
  snd (for_each (diff_parent apply current) target) = true ->
  In (Row p (c_name child) DELETED_Status_20)
     (fst (sync apply target planned_services current))
  /\ In (Row p (c_name child) To_disable)
       (fst (sync apply target planned_services current)).
Proof.
  intros Hp Hc Hplanned Hunknown Henabled Hok. split.
  - apply (planned_child_deleted p data child); assumption.
  - apply sweep_in_sync; [exact Hok|].
    apply (sweep_disables p data child); assumption.
Qed.
End CascadeFacts.

(** C1: Billing is filed under Finance and belongs under HR. The first pass
    moves it: the old option is disabled, a new one is created under HR. On
    the options that result, the search reaches the disabled option under
    Finance first, and the second pass moves Billing again. *)
Theorem second_pass_moves_again :
  Cascade.build_target [Inputs.domain_finance; Inputs.domain_hr] [Inputs.billing_of_hr]
  = (Inputs.target_hr, [])
  /\ Cascade.build_current Inputs.options_misfiled = Some Inputs.current_misfiled
  /\ Cascade.operations
       (fst (Cascade.sync true Inputs.target_hr [] Inputs.current_misfiled))
     = [Cascade.Row "HR" "Billing" Cascade.To_move;
        Cascade.Row "Finance" "Billing" Cascade.To_disable]
  /\ Cascade.build_current Inputs.options_after_first_pass
     = Some Inputs.current_after_first_pass
  /\ Cascade.sync true Inputs.target_hr [] Inputs.current_after_first_pass
     = ([Cascade.Row "HR" "Billing" Cascade.To_move;
         Cascade.Call (Cascade.PUT_disabled "99" true);
         Cascade.Call (Cascade.POST "Billing" false "11");
         Cascade.Row "HR" "Billing" Cascade.OK;
         Cascade.Call (Cascade.PUT_move ["99"]);
         Cascade.Call (Cascade.PUT_move ["100"])], true).
Proof. repeat split; reflexivity. Qed.

(** C3: Billing is Planned in the export and enabled under Finance in Jira.
    The pass deletes the option and then, in the sweep, marks the same
    option To disable and sends the request that disables it. *)
Theorem planned_child_deleted_then_disabled :
  Cascade.build_target [Inputs.domain_finance] [Inputs.billing_planned]
  = ([], ["billing"])
  /\ Cascade.build_current Inputs.options_finance = Some Inputs.current_finance
  /\ Cascade.sync true [] ["billing"] Inputs.current_finance
     = ([Cascade.Row "Finance" "Billing" Cascade.DELETED_Status_20;
         Cascade.Call (Cascade.DELETE "99");
         Cascade.Row "Finance" "Billing" Cascade.To_disable;
         Cascade.Call (Cascade.PUT_disabled "99" true);
         Cascade.Call (Cascade.PUT_move ["99"])], true).
Proof. repeat split; reflexivity. Qed.

(** C5: the target parent Finance is finance in Jira, and Billing is one of
    its target children. The main loop matches the two parents and reports
    Billing as OK; the sweep looks for the key finance in the target, finds
    no children, and marks Billing To disable. *)
Theorem sweep_ignores_case_variant_parent :
  Cascade.build_target [Inputs.domain_finance] [Inputs.billing_of_finance]
  = (Inputs.target_finance, [])
  /\ Cascade.build_current Inputs.options_lowercase = Some Inputs.current_lowercase
  /\ Cascade.normalize_name "Finance" = Cascade.normalize_name "finance"
  /\ Cascade.sync false Inputs.target_finance [] Inputs.current_lowercase
     = ([Cascade.Row "Finance" "Billing" Cascade.OK;
         Cascade.Row "finance" "Billing" Cascade.To_disable], true).
Proof. repeat split; reflexivity. Qed.

(** * Further properties *)

(** ** Normalized names *)

Lemma isspace_lower_char (c : ascii) : Py.isspace (Py.lower_char c) = Py.isspace c.
Proof.
  destruct c as [b0 b1 b2 b3 b4 b5 b6 b7].
  destruct b0, b1, b2, b3, b4, b5, b6, b7; reflexivity.
Qed.

Lemma lower_char_idempotent (c : ascii) :
  Py.lower_char (Py.lower_char c) = Py.lower_char c.
Proof.
  destruct c as [b0 b1 b2 b3 b4 b5 b6 b7].
  destruct b0, b1, b2, b3, b4, b5, b6, b7; reflexivity.
Qed.

Lemma lower_idempotent (s : string) : Py.lower (Py.lower s) = Py.lower s.
Proof.
  induction s as [|c r IH]; simpl; [reflexivity|].
  rewrite lower_char_idempotent, IH. reflexivity.
Qed.

Lemma lstrip_lower (s : string) : Py.lstrip (Py.lower s) = Py.lower (Py.lstrip s).
Proof.
  induction s as [|c r IH]; simpl; [reflexivity|].
  rewrite isspace_lower_char. destruct (Py.isspace c); [exact IH | reflexivity].
Qed.

Lemma rstrip_lower (s : string) : Py.rstrip (Py.lower s) = Py.lower (Py.rstrip s).
Proof.
  induction s as [|c r IH]; simpl; [reflexivity|].
  rewrite IH, isspace_lower_char.
  destruct (Py.rstrip r) as [|c' r']; simpl.
  - destruct (Py.isspace c); reflexivity.
  - reflexivity.
Qed.

Lemma strip_lower (s : string) : Py.strip (Py.lower s) = Py.lower (Py.strip s).
Proof. unfold Py.strip. rewrite lstrip_lower, rstrip_lower. reflexivity. Qed.

(** X1: normalizing a name twice gives the same key as normalizing it once,
    so that the keys of the planned set and the names compared with them
    are normal forms. *)
Theorem normalize_name_idempotent (name : string) :
  Cascade.normalize_name (Cascade.normalize_name name) = Cascade.normalize_name name.
Proof.
  unfold Cascade.normalize_name.
  rewrite strip_lower, lower_idempotent, strip_idempotent. reflexivity.
Qed.

(** ** The requests of a pass *)

Section RequestFacts.
Import Cascade Checks.

Lemma requests_app (a b : list event) :
  requests (a ++ b) = (requests a ++ requests b)%list.
Proof. unfold requests. apply flat_map_app. Qed.

Lemma requests_when (b : bool) (c : api) :
  requests (when b c) = if b then [c] else [].
Proof. destruct b; reflexivity. Qed.

Lemma all_requests_app P a b :
  all_requests P (a ++ b) = all_requests P a && all_requests P b.
Proof. unfold all_requests. rewrite requests_app. apply forallb_app. Qed.

Lemma all_requests_flat_map {A : Type} P (f : A -> list event) (l : list A) :
  (forall x, In x l -> all_requests P (f x) = true) ->
  all_requests P (flat_map f l) = true.
Proof.
  induction l as [|x l IH]; intros H; simpl; [reflexivity|].
  rewrite all_requests_app, (H x (or_introl eq_refl)), IH; [reflexivity|].
  intros y Hy; apply H; right; exact Hy.
Qed.

Lemma all_requests_for_each {A : Type} P (body : A -> M) (l : list A) :
  (forall x, In x l -> all_requests P (fst (body x)) = true) ->
  all_requests P (fst (for_each body l)) = true.
Proof.
  induction l as [|x l IH]; intros H; simpl; [reflexivity|].
  unfold andthen. destruct (snd (body x)); cbn [fst].
  - rewrite all_requests_app, (H x (or_introl eq_refl)), IH; [reflexivity|].
    intros y Hy; apply H; right; exact Hy.
  - apply H; left; reflexivity.
Qed.

Lemma all_requests_andthen P (a b : M) :
  all_requests P (fst a) = true -> all_requests P (fst b) = true ->
  all_requests P (fst (andthen a b)) = true.
Proof.
  intros Ha Hb. unfold andthen. destruct (snd a); cbn [fst]; [|exact Ha].
  rewrite all_requests_app, Ha, Hb. reflexivity.
Qed.

Variable apply : bool.
Variable target : cascade_structure.
Variable planned_services : list string.
Variable current : current_structure.

(** The requests of the four parts of the pass satisfy [P] as soon as the
    requests each part can send do. *)
Lemma all_requests_diff_child P parent_name parent_name_norm jira_parent child :
  (forall v d o, apply = true -> P (POST v d o) = true) ->
  (forall i b, apply = true -> P (PUT_disabled i b) = true) ->
  all_requests P
    (fst (diff_child apply current parent_name parent_name_norm jira_parent child)) = true.
Proof.
  intros Hpost Hput. unfold diff_child.
  destruct (search current (normalize_name (t_name child)) None None) as [found_in child_id].
  destruct (negb (Py.truthy_opt found_in)).
  - cbn [ret fst]. unfold all_requests; cbn [requests flat_map app].
    fold (requests (when apply (POST (t_name child) (t_disabled child) (p_id jira_parent)))).
    rewrite requests_when. destruct apply eqn:E; [|reflexivity].
    simpl. rewrite Hpost by reflexivity. reflexivity.
  - destruct (negb (normalize_name (fmt found_in) =? parent_name_norm)).
    + cbn [ret fst]. unfold all_requests; cbn [requests flat_map app].
      rewrite flat_map_app.
      fold (requests (when apply (PUT_disabled (fmt child_id) true))).
      fold (requests (when apply (POST (t_name child) (t_disabled child) (p_id jira_parent)))).
      rewrite !requests_when. destruct apply eqn:E; [|reflexivity].
      simpl. rewrite Hpost, Hput by reflexivity. reflexivity.
    + destruct (find _ (children jira_parent)) as [jira_child|]; [|reflexivity].
      destruct (c_disabled jira_child && negb (t_disabled child)); [|reflexivity].
      cbn [ret fst]. unfold all_requests; cbn [requests flat_map app].
      fold (requests (when (apply && REACTIVATE_ACTIVE) (PUT_disabled (c_id jira_child) false))).
      rewrite requests_when. destruct apply eqn:E; [|reflexivity].
      simpl. rewrite Hput by reflexivity. reflexivity.
Qed.

Lemma all_requests_sync P :
  (forall i, apply = true -> P (DELETE i) = true
             \/ ~ exists p data child,
                    In (p, data) current /\ In child (children data)
                    /\ c_id child = i
                    /\ str_in (normalize_name (c_name child)) planned_services = true) ->
  (forall v d o, apply = true -> P (POST v d o) = true) ->
  (forall i b, apply = true -> P (PUT_disabled i b) = true) ->
  (forall l, apply = true -> P (PUT_move l) = true) ->
  all_requests P (fst (sync apply target planned_services current)) = true.
Proof.
  intros Hdel Hpost Hput Hmove. unfold sync.
  repeat apply all_requests_andthen; cbn [ret fst].
  - unfold planned_deletes. apply all_requests_flat_map. intros [p data] Hp.
    apply all_requests_flat_map. intros child Hc.
    destruct (str_in (normalize_name (c_name child)) planned_services) eqn:E;
      [|reflexivity].
    unfold all_requests; cbn [requests flat_map app].
    fold (requests (when apply (DELETE (c_id child)))).
    rewrite requests_when. destruct apply eqn:Ea; [|reflexivity].
    simpl. destruct (Hdel (c_id child) eq_refl) as [H|H]; [rewrite H; reflexivity|].
    exfalso; apply H. exists p, data, child. auto.
  - apply all_requests_for_each. intros [parent_name kids] _. unfold diff_parent.
    destruct (negb (Py.truthy_opt _)); [reflexivity|].
    destruct (dict_get _ _ current) as [jira_parent|]; [|reflexivity].
    apply all_requests_for_each. intros child _.
    apply all_requests_diff_child; assumption.
  - unfold obsolete_sweep. apply all_requests_flat_map. intros [p data] _.
    apply all_requests_flat_map. intros child _.
    destruct (negb _ && negb _).
    + unfold all_requests; cbn [requests flat_map app].
      fold (requests (when (apply && DISABLE_OBSOLETE) (PUT_disabled (c_id child) true))).
      rewrite requests_when. destruct apply eqn:Ea; [|reflexivity].
      simpl. rewrite Hput by reflexivity. reflexivity.
    + destruct (str_in _ _); reflexivity.
  - unfold reorder. destruct apply eqn:Ea; [|reflexivity].
    apply all_requests_flat_map. intros [p data] _.
    destruct (nonempty _); [|reflexivity].
    unfold all_requests; simpl. rewrite Hmove by reflexivity. reflexivity.
Qed.
End RequestFacts.

(** X2: in diagnostic mode the pass sends no request at all, whatever the
    target tree, the planned set and the current tree. *)
Theorem diagnostic_pass_sends_nothing
    (target : Cascade.cascade_structure) (planned_services : list string)
    (current : Cascade.current_structure) :
  Cascade.requests (fst (Cascade.sync false target planned_services current)) = [].
Proof.
  pose proof (all_requests_sync false target planned_services current (fun _ => false)) as H.
  unfold Checks.all_requests in H.
  destruct (Cascade.requests _) as [|c l]; [reflexivity|].
  simpl in H. discriminate H; intros; discriminate.
Qed.

Lemma is_planned_child_complete planned_services current p data child :
  In (p, data) current -> In child (Cascade.children data) ->
  str_in (Cascade.normalize_name (Cascade.c_name child)) planned_services = true ->
  Checks.is_planned_child planned_services current (Cascade.c_id child) = true.
Proof.
  intros Hp Hc Hplanned. unfold Checks.is_planned_child.
  apply existsb_exists. exists (p, data). split; [exact Hp|].
  apply existsb_exists. exists child. split; [exact Hc|].
  cbn [snd]. rewrite String.eqb_refl, Hplanned. reflexivity.
Qed.

(** X3: every [DELETE] a pass sends names a child of the current tree whose
    normalized name is in the planned set; with an empty planned set the
    pass deletes nothing (an obsolete child is disabled, never deleted). *)
Theorem pass_deletes_planned_children_only
    (apply : bool) (target : Cascade.cascade_structure)
    (planned_services : list string) (current : Cascade.current_structure) :
  forallb (Checks.delete_is_planned planned_services current)
    (Cascade.requests (fst (Cascade.sync apply target planned_services current))) = true
  /\ existsb Checks.is_delete
       (Cascade.requests (fst (Cascade.sync apply target [] current))) = false.
Proof.
  split.
  - apply (all_requests_sync apply target planned_services current
             (Checks.delete_is_planned planned_services current));
      try (intros; reflexivity).
    intros i _.
    destruct (Checks.is_planned_child planned_services current i) eqn:E;
      [left; exact E | right].
    intros (p & data & child & Hp & Hc & Hid & Hplanned). subst i.
    rewrite (is_planned_child_complete _ _ p data child Hp Hc Hplanned) in E.
    discriminate.
  - pose proof (all_requests_sync apply target [] current
                  (fun c => negb (Checks.is_delete c))) as H.
    assert (G : Checks.all_requests (fun c => negb (Checks.is_delete c))
                  (fst (Cascade.sync apply target [] current)) = true).
    { apply H; try (intros; reflexivity).
      intros i _. right. intros (p & data & child & _ & _ & _ & Hplanned).
      discriminate. }
    unfold Checks.all_requests in G.
    induction (Cascade.requests (fst (Cascade.sync apply target [] current)))
      as [|c l IH]; [reflexivity|].
    simpl in G |- *. apply andb_true_iff in G as [Hc Hl].
    apply negb_true_iff in Hc. rewrite Hc, (IH Hl). reflexivity.
Qed.

(** ** The obsolete sweep *)

Lemma row_in_when (e : Cascade.event) b c p n st :
  e = Cascade.Row p n st -> ~ In e (Cascade.when b c).
Proof. intros -> H. destruct b; simpl in H; [destruct H as [H|[]]; discriminate | exact H]. Qed.

(** X4: the sweep marks a child To disable exactly when it is a child of
    the current tree that is enabled and whose normalized name is not among
    the target children read under the exact name of its parent: a disabled
    child and a listed child are never marked. *)
Theorem sweep_marks_enabled_unlisted_children
    (apply : bool) (target : Cascade.cascade_structure)
    (current : Cascade.current_structure) (p n : string) :
  In (Cascade.Row p n Cascade.To_disable) (Cascade.obsolete_sweep apply target current)
  <-> exists data child,
        In (p, data) current /\ In child (Cascade.children data)
        /\ Cascade.c_name child = n
        /\ Cascade.c_disabled child = false
        /\ str_in (Cascade.normalize_name n) (Cascade.target_children_of target p) = false.
Proof.
  split.
  - unfold Cascade.obsolete_sweep. intros H.
    apply in_flat_map in H as ([q data] & Hq & H).
    apply in_flat_map in H as (child & Hc & H).
    destruct (str_in (Cascade.normalize_name (Cascade.c_name child))
                (Cascade.target_children_of target q)) eqn:Ek;
      destruct (Cascade.c_disabled child) eqn:Ed; cbn [negb andb] in H.
    + destruct H as [H|[]]; discriminate.
    + destruct H as [H|[]]; discriminate.
    + destruct H.
    + destruct H as [H|H].
      * injection H as -> <-. exists data, child. auto.
      * exfalso. revert H. apply row_in_when with (p := p) (n := n) (st := Cascade.To_disable).
        reflexivity.
  - intros (data & child & Hp & Hc & <- & Hd & Hk).
    apply (sweep_disables apply target current p data child); assumption.
Qed.

(** ** Sorting *)

Section SortFacts.
Context {A : Type}.
Variable leb : A -> A -> bool.

Lemma in_insert_by (x y : A) (l : list A) :
  In y (insert_by leb x l) <-> y = x \/ In y l.
Proof.
  induction l as [|z l IH]; simpl.
  - intuition.
  - destruct (leb x z); simpl; [intuition|]. rewrite IH. intuition.
Qed.

Lemma in_sorted_by (y : A) (l : list A) : In y (sorted_by leb l) <-> In y l.
Proof.
  induction l as [|x l IH]; simpl; [reflexivity|].
  rewrite in_insert_by, IH. intuition.
Qed.

Lemma insert_by_perm (x : A) (l : list A) : Permutation (x :: l) (insert_by leb x l).
Proof.
  induction l as [|z l IH]; simpl; [reflexivity|].
  destruct (leb x z); [reflexivity|].
  rewrite perm_swap. apply perm_skip, IH.
Qed.

Lemma sorted_by_perm (l : list A) : Permutation l (sorted_by leb l).
Proof.
  induction l as [|x l IH]; simpl; [reflexivity|].
  rewrite <- insert_by_perm. apply perm_skip, IH.
Qed.

Hypothesis leb_total : forall x y, leb x y = true \/ leb y x = true.
Hypothesis leb_trans : forall x y z, leb x y = true -> leb y z = true -> leb x z = true.

Let R (x y : A) : Prop := leb x y = true.

Lemma insert_by_sorted (x : A) (l : list A) :
  StronglySorted R l -> StronglySorted R (insert_by leb x l).
Proof.
  induction 1 as [|z l Hs IH Hz]; simpl.
  - constructor; constructor.
  - destruct (leb x z) eqn:E.
    + constructor; [constructor; assumption|].
      constructor; [exact E|].
      eapply Forall_impl; [|exact Hz]. intros w Hw. exact (leb_trans _ _ _ E Hw).
    + constructor; [exact IH|].
      apply Forall_forall. intros w Hw. apply in_insert_by in Hw as [->|Hw].
      * destruct (leb_total x z) as [H|H]; [congruence | exact H].
      * rewrite Forall_forall in Hz. apply Hz, Hw.
Qed.

Lemma sorted_by_sorted (l : list A) : StronglySorted R (sorted_by leb l).
Proof.
  induction l as [|x l IH]; simpl; [constructor | apply insert_by_sorted, IH].
Qed.
End SortFacts.

Lemma string_leb_cases (a b : string) :
  String.leb a b = true <-> String_as_OT.lt a b \/ a = b.
Proof.
  unfold String.leb.
  destruct (String.compare a b) eqn:E.
  - apply String_as_OT.cmp_eq in E. intuition.
  - apply String_as_OT.cmp_lt in E. intuition.
  - split; [discriminate|]. intros [H|H].
    + apply String_as_OT.cmp_lt in H. unfold String_as_OT.cmp in H. congruence.
    + apply String_as_OT.cmp_eq in H. unfold String_as_OT.cmp in H. congruence.
Qed.

Lemma string_leb_trans (a b c : string) :
  String.leb a b = true -> String.leb b c = true -> String.leb a c = true.
Proof.
  rewrite !string_leb_cases. intros [H1| ->] [H2| ->]; auto.
  left. eapply String_as_OT.lt_trans; eassumption.
Qed.

(** ** The dict that holds a tree *)

Section TreeDict.
Context {V : Type}.

Lemma in_dict_set (k k' : string) (v v' : V) (d : list (string * V)) :
  In (k, v) (dict_set String.eqb k' v' d) -> (k = k' /\ v = v') \/ In (k, v) d.
Proof.
  induction d as [|[k0 v0] d IH]; simpl.
  - intros [H|[]]. injection H as <- <-. auto.
  - destruct (String.eqb_spec k' k0) as [->|Hne]; simpl.
    + intros [H|H]; [injection H as <- <-; auto | auto].
    + intros [H|H]; [auto | destruct (IH H); auto].
Qed.

Lemma keys_dict_set (k : string) (v : V) (d : list (string * V)) (x : string) :
  In x (map fst (dict_set String.eqb k v d)) -> x = k \/ In x (map fst d).
Proof.
  induction d as [|[k0 v0] d IH]; simpl.
  - intros [H|[]]; auto.
  - destruct (String.eqb_spec k k0) as [->|Hne]; simpl.
    + intros [H|H]; auto.
    + intros [H|H]; [auto | destruct (IH H); auto].
Qed.

Lemma nodup_dict_set (k : string) (v : V) (d : list (string * V)) :
  NoDup (map fst d) -> NoDup (map fst (dict_set String.eqb k v d)).
Proof.
  induction d as [|[k0 v0] d IH]; simpl; intros H.
  - constructor; [intros [] | constructor].
  - inversion H as [|? ? Hn Hd]; subst.
    destruct (String.eqb_spec k k0) as [->|Hne]; simpl.
    + constructor; assumption.
    + constructor; [|apply IH, Hd].
      intros Hin. apply keys_dict_set in Hin as [->|Hin]; [congruence | exact (Hn Hin)].
Qed.

Lemma dict_get_in (k : string) (v : V) (d : list (string * V)) :
  dict_get String.eqb k d = Some v -> In (k, v) d.
Proof.
  induction d as [|[k0 v0] d IH]; simpl; [discriminate|].
  destruct (String.eqb_spec k k0) as [->|Hne].
  - intros H; injection H as ->. left; reflexivity.
  - intros H; right; apply IH, H.
Qed.
End TreeDict.

(** ** The target tree *)

Section TargetFacts.
Import Cascade Reading.
Variable business_domains : list business_domain.
Variable services : list service.

Let domains := domain_map business_domains.

Lemma add_service_ok (acc : cascade_structure * list string) (s : service) :
  In s services ->
  tree_ok domains services acc -> tree_ok domains services (add_service domains acc s).
Proof.
  intros Hs (Hc & Hp & Hn & Hk). destruct acc as [cs planned]. unfold add_service.
  fold (parent_of domains s). fold (status_of s).
  destruct (Py.truthy_opt (parent_of domains s)) eqn:Et; [|repeat split; assumption].
  destruct (parent_of domains s) as [p|] eqn:Ep; [|discriminate]. cbn [fmt].
  destruct (String.eqb_spec (status_of s) "20") as [E20|N20].
  - repeat split; cbn [fst snd] in *; try assumption.
    + intros n Hin.
      destruct (str_in (normalize_name (s_name s)) planned) eqn:Em; [apply Hp, Hin|].
      apply in_app_or in Hin as [Hin|[<-|[]]]; [apply Hp, Hin|].
      exists s. rewrite Ep. auto.
    + destruct (str_in (normalize_name (s_name s)) planned) eqn:Em; [exact Hn|].
      apply NoDup_app; [exact Hn | constructor; [intros [] | constructor] |].
      intros x Hx [<-|[]].
      assert (str_in (normalize_name (s_name s)) planned = true); [|congruence].
      unfold str_in. apply existsb_exists.
      exists (normalize_name (s_name s)). split; [exact Hx | apply String.eqb_refl].
  - repeat split; cbn [fst snd] in *; try assumption.
    + intros q kids child Hin Hchild.
      apply in_dict_set in Hin as [[-> ->]|Hin]; [|exact (Hc _ _ _ Hin Hchild)].
      apply in_app_or in Hchild as [Hchild|[<-|[]]].
      * destruct (dict_get String.eqb p cs) as [l|] eqn:El; [|destruct Hchild].
        exact (Hc _ _ _ (dict_get_in _ _ _ El) Hchild).
      * exists s. cbn [t_name t_disabled]. auto.
    + apply nodup_dict_set, Hk.
Qed.

Lemma fold_add_service_ok (l : list service) (acc : cascade_structure * list string) :
  (forall s, In s l -> In s services) -> tree_ok domains services acc ->
  tree_ok domains services (fold_left (add_service domains) l acc).
Proof.
  revert acc; induction l as [|s l IH]; intros acc Hl Hacc; simpl; [exact Hacc|].
  apply IH; [intros x Hx; apply Hl; right; exact Hx|].
  apply add_service_ok; [apply Hl; left; reflexivity | exact Hacc].
Qed.

Lemma built_tree_ok :
  tree_ok domains services (fold_left (add_service domains) services ([], [])).
Proof.
  apply fold_add_service_ok; [auto|].
  repeat split; cbn [fst snd]; try constructor; intros; contradiction.
Qed.
End TargetFacts.

Section BuiltTarget.
Import Cascade Reading.
Variable business_domains : list business_domain.
Variable services : list service.

Lemma build_target_eq :
  build_target business_domains services
  = (map (fun kv =>
            (fst kv,
             sorted_by (fun x y => String.leb (Py.lower (t_name x)) (Py.lower (t_name y)))
               (snd kv)))
       (sorted_items
          (fst (fold_left (add_service (domain_map business_domains)) services ([], [])))),
     snd (fold_left (add_service (domain_map business_domains)) services ([], []))).
Proof.
  unfold build_target.
  destruct (fold_left (add_service (domain_map business_domains)) services ([], []));
    reflexivity.
Qed.

Lemma sorted_map_keys {V W : Type} (f : string * V -> string * W) (l : list (string * V)) :
  (forall kv, fst (f kv) = fst kv) ->
  StronglySorted by_key l -> StronglySorted by_key (map f l).
Proof.
  intros Hf. induction 1 as [|a l Hs IH Ha]; simpl; constructor; [exact IH|].
  apply Forall_forall. intros b Hb. apply in_map_iff in Hb as (b0 & <- & Hb0).
  rewrite Forall_forall in Ha. unfold by_key. rewrite !Hf. apply Ha, Hb0.
Qed.
End BuiltTarget.

(** X5: no Planned service is in the target tree. Every child of a target
    parent has the name of a service of the export whose status is not 20
    and whose domain resolves to that parent, and is flagged disabled
    exactly when that status is 6; every planned name is the normalized
    name of a service whose status is 20; the planned names and the parent
    names are without duplicates. *)
Theorem target_tree_comes_from_unplanned_services
    (business_domains : list Cascade.business_domain) (services : list Cascade.service) :
  let domains := Cascade.domain_map business_domains in
  let built := Cascade.build_target business_domains services in
  (forall p kids child,
      In (p, kids) (fst built) -> In child kids ->
      Reading.child_from_service domains services p child)
  /\ (forall n, In n (snd built) -> Reading.planned_from_service domains services n)
  /\ NoDup (snd built)
  /\ NoDup (map fst (fst built)).
Proof.
  intros domains built. subst built. rewrite build_target_eq. cbn [fst snd].
  destruct (built_tree_ok business_domains services) as (Hc & Hp & Hn & Hk).
  repeat split.
  - intros p kids child Hin Hchild.
    apply in_map_iff in Hin as ([q l] & Heq & Hin). injection Heq as <- <-.
    apply in_sorted_by in Hin. apply in_sorted_by in Hchild.
    exact (Hc _ _ _ Hin Hchild).
  - exact Hp.
  - exact Hn.
  - rewrite map_map. cbn [fst].
    eapply Permutation_NoDup; [|exact Hk].
    apply Permutation_map. apply sorted_by_perm.
Qed.

(** X6: the target tree is in order: the parents by name, and under every
    parent the children by lower-cased name; sorting keeps the children of
    a parent, it only reorders them. *)
Theorem target_tree_is_sorted
    (business_domains : list Cascade.business_domain) (services : list Cascade.service) :
  let unsorted :=
    fst (fold_left (Cascade.add_service (Cascade.domain_map business_domains))
           services ([], [])) in
  let built := fst (Cascade.build_target business_domains services) in
  StronglySorted Reading.by_key built
  /\ Forall (fun kv => StronglySorted Reading.by_lower_name (snd kv)) built
  /\ Forall (fun kv => exists kids, In (fst kv, kids) unsorted
                                    /\ Permutation kids (snd kv)) built.
Proof.
  intros unsorted built. subst built unsorted. rewrite build_target_eq. cbn [fst].
  repeat split.
  - apply sorted_map_keys; [reflexivity|].
    apply (sorted_by_sorted (fun a b => String.leb (fst a) (fst b))).
    + intros x y. apply String.leb_total.
    + intros x y z. apply string_leb_trans.
  - apply Forall_forall. intros kv Hin.
    apply in_map_iff in Hin as ([q l] & <- & _). cbn [snd].
    apply (sorted_by_sorted
             (fun x y => String.leb (Py.lower (Cascade.t_name x)) (Py.lower (Cascade.t_name y)))).
    + intros x y. apply String.leb_total.
    + intros x y z. apply string_leb_trans.
  - apply Forall_forall. intros kv Hin.
    apply in_map_iff in Hin as ([q l] & <- & Hin). cbn [fst snd].
    apply in_sorted_by in Hin. exists l. split; [exact Hin | apply sorted_by_perm].
Qed.

(** ** The search of a target child *)

Section SearchFacts.
Import Cascade.
Variable child_norm : string.

Lemma search_missed (cs : current_structure) (fi ci f c : option string) :
  Py.truthy_opt fi = false ->
  search cs child_norm fi ci = (f, c) ->
  Py.truthy_opt f = false ->
  forall q data child,
    In (q, data) cs -> Py.truthy q = true -> In child (children data) ->
    same_child child_norm child = false.
Proof.
  revert fi ci; induction cs as [|[q0 data0] cs IH]; intros fi ci Hfi Hs Hf;
    simpl in Hs; intros q data child Hin Hq Hchild; [destruct Hin|].
  destruct (find (same_child child_norm) (children data0)) as [child0|] eqn:Efind.
  - cbn [Py.truthy_opt] in Hs. destruct (Py.truthy q0) eqn:Eq0.
    + injection Hs as <- <-. simpl in Hf. congruence.
    + destruct Hin as [Hin|Hin]; [injection Hin as -> ->; congruence|].
      exact (IH (Some q0) (Some (c_id child0)) Eq0 Hs Hf q data child Hin Hq Hchild).
  - rewrite Hfi in Hs. destruct Hin as [Hin|Hin].
    + injection Hin as -> ->. exact (find_none _ _ Efind child Hchild).
    + exact (IH _ _ Hfi Hs Hf q data child Hin Hq Hchild).
Qed.

(** A truthy result names the first parent, in the order of the tree,
    that has a non-empty name and a child of that normalized name, with
    the first such child of that parent. *)
Lemma search_first (cs : current_structure) (fi ci f c : option string) :
  Py.truthy_opt fi = false ->
  search cs child_norm fi ci = (f, c) ->
  Py.truthy_opt f = true ->
  exists before q data after child,
    cs = (before ++ (q, data) :: after)%list
    /\ f = Some q /\ Py.truthy q = true
    /\ find (same_child child_norm) (children data) = Some child
    /\ c = Some (c_id child)
    /\ forall q' data',
         In (q', data') before -> Py.truthy q' = true ->
         find (same_child child_norm) (children data') = None.
Proof.
  revert fi ci; induction cs as [|[q0 data0] cs IH]; intros fi ci Hfi Hs Hf;
    cbn [search] in Hs.
  - injection Hs as <- <-. congruence.
  - destruct (find (same_child child_norm) (children data0)) as [child0|] eqn:Efind.
    + cbn [Py.truthy_opt] in Hs. destruct (Py.truthy q0) eqn:Eq0.
      * injection Hs as <- <-.
        exists [], q0, data0, cs, child0. repeat split; auto.
        intros q' data' [].
      * destruct (IH (Some q0) (Some (c_id child0)) Eq0 Hs Hf)
          as (before & q & data & after & child & -> & H1 & H2 & H3 & H4 & H5).
        exists ((q0, data0) :: before), q, data, after, child.
        repeat split; auto.
        intros q' data' [Hin|Hin] Hq'; [|exact (H5 q' data' Hin Hq')].
        injection Hin as <- <-. congruence.
    + rewrite Hfi in Hs.
      destruct (IH fi ci Hfi Hs Hf)
        as (before & q & data & after & child & -> & H1 & H2 & H3 & H4 & H5).
      exists ((q0, data0) :: before), q, data, after, child.
      repeat split; auto.
      intros q' data' [Hin|Hin] Hq'; [|exact (H5 q' data' Hin Hq')].
      injection Hin as <- <-. exact Efind.
Qed.
End SearchFacts.

Section RowFacts.
Import Cascade.

Lemma in_andthen (e : event) (a b : M) :
  In e (fst (andthen a b)) -> In e (fst a) \/ In e (fst b).
Proof.
  unfold andthen. destruct (snd a); cbn [fst]; [|auto].
  intros H; apply in_app_or in H; exact H.
Qed.

Lemma in_for_each {A : Type} (e : event) (body : A -> M) (l : list A) :
  In e (fst (for_each body l)) -> exists x, In x l /\ In e (fst (body x)).
Proof.
  induction l as [|x l IH]; simpl; [intros []|].
  intros H. apply in_andthen in H as [H|H].
  - exists x; auto.
  - destruct (IH H) as (y & Hy & He). exists y; auto.
Qed.

Variable apply : bool.
Variable target : cascade_structure.
Variable planned_services : list string.
Variable current : current_structure.

(** A row To add or To move of a pass is a row of the main loop, written
    for a child of the target tree. *)
Lemma add_or_move_row (p n : string) (st : status) :
  st = To_add \/ st = To_move ->
  In (Row p n st) (fst (sync apply target planned_services current)) ->
  exists kids child jira_parent,
    In (p, kids) target /\ In child kids /\ t_name child = n
    /\ In (Row p n st)
         (fst (diff_child apply current p (normalize_name p) jira_parent child)).
Proof.
  intros Hst H. unfold sync in H.
  apply in_andthen in H as [H|H].
  { cbn [ret fst] in H. unfold planned_deletes in H.
    apply in_flat_map in H as ([q data] & _ & H).
    apply in_flat_map in H as (child & _ & H).
    destruct (str_in _ _); [|destruct H].
    destruct H as [H|H]; [destruct Hst; subst; discriminate|].
    exfalso. revert H. eapply row_in_when. reflexivity. }
  apply in_andthen in H as [H|H].
  { apply in_for_each in H as ([q kids] & Hq & H). unfold diff_parent in H.
    destruct (negb (Py.truthy_opt _)).
    { destruct H as [H|[]]. destruct Hst; subst; discriminate. }
    destruct (dict_get _ _ current) as [jira_parent|]; [|destruct H].
    apply in_for_each in H as (child & Hchild & H).
    assert (E : q = p /\ t_name child = n).
    { unfold diff_child in H.
      destruct (search current _ None None) as [fi ci].
      destruct (negb (Py.truthy_opt fi)).
      { destruct H as [H|H]; [injection H; auto|].
        exfalso. revert H. eapply row_in_when. reflexivity. }
      destruct (negb (_ =? _)).
      { destruct H as [H|H]; [injection H; auto|].
        apply in_app_or in H as [H|H]; exfalso; revert H; eapply row_in_when; reflexivity. }
      destruct (find _ _) as [jc|]; [|destruct H].
      destruct (c_disabled jc && negb (t_disabled child)).
      - destruct H as [H|H]; [injection H; auto|].
        exfalso. revert H. eapply row_in_when. reflexivity.
      - destruct H as [H|[]]. injection H; auto. }
    destruct E as [-> <-]. exists kids, child, jira_parent. auto. }
  apply in_andthen in H as [H|H]; cbn [ret fst] in H.
  - unfold obsolete_sweep in H.
    apply in_flat_map in H as ([q data] & _ & H).
    apply in_flat_map in H as (child & _ & H).
    destruct (negb _ && negb _).
    + destruct H as [H|H]; [destruct Hst; subst; discriminate|].
      exfalso. revert H. eapply row_in_when. reflexivity.
    + destruct (str_in _ _); [|destruct H].
      destruct H as [H|[]]. destruct Hst; subst; discriminate.
  - unfold reorder in H. destruct apply; [|destruct H].
    apply in_flat_map in H as ([q data] & _ & H).
    destruct (nonempty _); [|destruct H]. destruct H as [H|[]]. discriminate.
Qed.

Lemma same_child_eq (norm : string) (c : jira_child) :
  same_child norm c = true <-> normalize_name (c_name c) = norm.
Proof. unfold same_child. apply String.eqb_eq. Qed.

(** X7: a pass reports a target child To add only when no parent of the
    current tree with a non-empty name has a child of the same normalized
    name (a parent named by the empty string is read as not found). It
    reports the child To move only when the first parent of the current
    tree, in tree order, that has a non-empty name and a child of that
    normalized name is one whose normalized name differs from the one
    of the target parent. *)
Theorem add_and_move_rows_are_sound (p n : string) :
  (In (Row p n To_add) (fst (sync apply target planned_services current)) ->
   forall q data child,
     In (q, data) current -> Py.truthy q = true -> In child (children data) ->
     normalize_name (c_name child) <> normalize_name n)
  /\ (In (Row p n To_move) (fst (sync apply target planned_services current)) ->
      exists before q data after child,
        current = (before ++ (q, data) :: after)%list
        /\ Py.truthy q = true
        /\ find (same_child (normalize_name n)) (children data) = Some child
        /\ (forall q' data' child',
              In (q', data') before -> Py.truthy q' = true ->
              In child' (children data') ->
              normalize_name (c_name child') <> normalize_name n)
        /\ normalize_name q <> normalize_name p).
Proof.
  split; intros H.
  - apply add_or_move_row in H as (kids & tc & jp & _ & _ & <- & H); [|auto].
    unfold diff_child in H.
    destruct (search current (normalize_name (t_name tc)) None None) as [fi ci] eqn:Es.
    destruct (Py.truthy_opt fi) eqn:Ef; cbn [negb] in H.
    + exfalso. destruct (negb (_ =? _)).
      * destruct H as [H|H]; [discriminate|].
        apply in_app_or in H as [H|H]; revert H; eapply row_in_when; reflexivity.
      * destruct (find _ _) as [jc|]; [|destruct H].
        destruct (c_disabled jc && negb (t_disabled tc)).
        -- destruct H as [H|H]; [discriminate|]. revert H; eapply row_in_when; reflexivity.
        -- destruct H as [H|[]]; discriminate.
    + intros q data child Hq Ht Hc Heq.
      pose proof (search_missed _ current None None fi ci eq_refl Es Ef q data child Hq Ht Hc) as Hm.
      apply same_child_eq in Heq. congruence.
  - apply add_or_move_row in H as (kids & tc & jp & _ & _ & <- & H); [|auto].
    unfold diff_child in H.
    destruct (search current (normalize_name (t_name tc)) None None) as [fi ci] eqn:Es.
    destruct (Py.truthy_opt fi) eqn:Ef; cbn [negb] in H.
    + destruct (search_first _ current None None fi ci eq_refl Es Ef)
        as (before & q & data & after & child & Hcur & -> & Hq & Hfind & _ & Hfirst).
      cbn [fmt] in H.
      destruct (String.eqb_spec (normalize_name q) (normalize_name p)) as [E|E];
        cbn [negb] in H.
      * exfalso. destruct (find _ _) as [jc|]; [|destruct H].
        destruct (c_disabled jc && negb (t_disabled tc)).
        -- destruct H as [H|H]; [discriminate|]. revert H; eapply row_in_when; reflexivity.
        -- destruct H as [H|[]]; discriminate.
      * exists before, q, data, after, child. repeat split; auto.
        intros q' data' child' Hin Hq' Hc' Heq.
        pose proof (find_none _ _ (Hfirst q' data' Hin Hq') child' Hc') as Hn.
        apply same_child_eq in Heq. congruence.
    + exfalso. destruct H as [H|H]; [discriminate|].
      revert H; eapply row_in_when; reflexivity.
Qed.
End RowFacts.

(** ** The cost of [update_issue] *)

(** X8: whatever the server answers, one call of [update_issue] sends at
    least one and at most MAX_RETRIES requests and sleeps 30.5 seconds at
    most; a status code it returns is one for which [raise_for_status] does
    not raise, so never 429 nor another error status. *)
Theorem update_issue_is_bounded (server : nat -> Update.put_reply) :
  1 <= Traces.puts (fst (Update.update_issue server)) <= MAX_RETRIES
  /\ (Traces.slept (fst (Update.update_issue server)) <= 61 # 2)%Q
  /\ match snd (Update.update_issue server) with
     | Some status_code => Update.ok status_code = true
     | None => True
     end.
Proof.
  unfold Update.update_issue, Update.update_issue_with.
  change (seq 0 MAX_RETRIES) with [0; 1; 2].
  cbn [Update.attempts]. unfold Update.attempt_body, Update.http_error_handler.
  unfold Update.response_bool.
  destruct (server 0) as [|c0];
    [|destruct (c0 =? 429)%Z eqn:E0; destruct (Update.ok c0) eqn:K0];
    (destruct (server 1) as [|c1];
     [|destruct (c1 =? 429)%Z eqn:E1; destruct (Update.ok c1) eqn:K1]);
    (destruct (server 2) as [|c2];
     [|destruct (c2 =? 429)%Z eqn:E2; destruct (Update.ok c2) eqn:K2]);
    cbn; unfold MAX_RETRIES; repeat split; try lia; try assumption; try exact I;
    try (unfold Qle; simpl; lia).
Qed.

(** ** The search of the issues without a domain name *)

Section OffsetFacts.
Import DomainSearch.
Context {R : Type}.

Lemma offset_loop_offsets (t : nat) (script : list (reply (offset_page R)))
    (all_issues : list R) (start_at : nat) (offsets : list nat) :
  forallb (reports t) script = true ->
  exists later,
    fst (offset_loop script all_issues start_at offsets) = (offsets ++ later)%list
    /\ later = map (fun k => start_at + k * max_results) (seq 0 (List.length later))
    /\ Forall (fun o => o = start_at \/ o < t) later.
Proof.
  assert (one : forall s, [s] = map (fun k => s + k * max_results) (seq 0 1)).
  { intros s. simpl. f_equal. lia. }
  revert all_issues start_at offsets.
  induction script as [|r script IH]; intros all_issues start_at offsets H.
  - exists []. simpl. rewrite app_nil_r. auto.
  - simpl in H. apply andb_true_iff in H as [Hr Hs]. destruct r as [|p]; simpl.
    + exists [start_at]. auto.
    + destruct (total p <=? start_at + max_results)%nat eqn:E; cbn [orb].
      * exists [start_at]. auto.
      * destruct (List.length (page_issues p) =? 0)%nat.
        -- exists [start_at]. auto.
        -- destruct (IH (all_issues ++ page_issues p)%list (start_at + max_results)
                       (offsets ++ [start_at])%list Hs) as (later & -> & Hm & Hl).
           exists (start_at :: later). rewrite <- app_assoc. split; [reflexivity|].
           split.
           ++ cbn [List.length seq map]. f_equal; [lia|].
              rewrite <- seq_shift, map_map. rewrite Hm at 1.
              apply map_ext. intros k. lia.
           ++ constructor; [auto|].
              eapply Forall_impl; [|exact Hl]. intros o [->|Ho]; [|auto].
              right. simpl in Hr. apply Nat.eqb_eq in Hr. apply Nat.leb_gt in E. lia.
Qed.

Lemma offset_loop_ends (script rest : list (reply (offset_page R)))
    (t : nat) (all_issues : list R) (start_at : nat) (offsets : list nat) :
  snd (offset_loop (script ++ Body {| page_issues := []; total := t |} :: rest)
         all_issues start_at offsets) <> Waiting.
Proof.
  revert all_issues start_at offsets.
  induction script as [|r script IH]; intros all_issues start_at offsets.
  - cbn [app offset_loop page_issues List.length Nat.eqb]. rewrite orb_true_r.
    discriminate.
  - cbn [app offset_loop]. destruct r as [|p]; [discriminate|].
    destruct ((total p <=? start_at + max_results)%nat
              || (List.length (page_issues p) =? 0)%nat); [discriminate|apply IH].
Qed.
End OffsetFacts.

(** X9: when every page reports the same total [t], the search of the
    issues without a domain name asks for the offsets 0, 100, 200, ... in
    turn and never for an offset at or beyond [t] (the first request
    apart); and a page without issues ends it wherever it comes and
    whatever total it reports: the search returns a list and reads no
    further reply. *)
Theorem domain_search_stays_below_total (R : Type) (t : nat)
    (script : list (reply (DomainSearch.offset_page R))) :
  forallb (DomainSearch.reports t) script = true ->
  let offsets := fst (DomainSearch.search_issues_missing_business_domain script) in
  offsets = map (fun k => k * DomainSearch.max_results) (seq 0 (List.length offsets))
  /\ Forall (fun o => o = 0 \/ o < t) offsets
  /\ forall t' rest,
       exists issues,
         snd (DomainSearch.search_issues_missing_business_domain
                (script ++ Body {| DomainSearch.page_issues := [];
                                   DomainSearch.total := t' |} :: rest))
         = Returned issues.
Proof.
  intros H offsets. subst offsets.
  destruct (offset_loop_offsets t script [] 0 [] H) as (later & E & Hm & Hl).
  unfold DomainSearch.search_issues_missing_business_domain.
  repeat split.
  - destruct (DomainSearch.offset_loop script [] 0 []) as [offsets e].
    cbn [fst] in E. subst offsets. cbn [app] in *.
    destruct e; exact Hm.
  - destruct (DomainSearch.offset_loop script [] 0 []) as [offsets e].
    cbn [fst] in E. subst offsets. destruct e; exact Hl.
  - intros t' rest. clear E Hm Hl.
    pose proof (offset_loop_ends script rest t' [] 0 []) as Hw.
    destruct (DomainSearch.offset_loop _ [] 0 []) as [offsets e].
    cbn [snd] in *. destruct e as [l| |]; [exists l|exists []|]; try reflexivity.
    exfalso. apply Hw. reflexivity.
Qed.

Lemma domain_search_witness :
  forallb (DomainSearch.reports 150)
    [Body {| DomainSearch.page_issues := ["AMI-1"]; DomainSearch.total := 150 |};
     Body {| DomainSearch.page_issues := ["AMI-2"]; DomainSearch.total := 150 |}] = true
  /\ Forall (fun o => o = 0 \/ o < 150)
       (fst (DomainSearch.search_issues_missing_business_domain
               [Body {| DomainSearch.page_issues := ["AMI-1"]; DomainSearch.total := 150 |};
                Body {| DomainSearch.page_issues := ["AMI-2"];
                        DomainSearch.total := 150 |}])).
Proof.
  split; [reflexivity|].
  apply (domain_search_stays_below_total string 150
           [Body {| DomainSearch.page_issues := ["AMI-1"]; DomainSearch.total := 150 |};
            Body {| DomainSearch.page_issues := ["AMI-2"]; DomainSearch.total := 150 |}]).
  reflexivity.
Defined.

(** ** The domain ids of the issues found *)

Section SetFacts.
Import DomainSearch.

Lemma in_set_add (x y : string) (s : list string) :
  In y (set_add x s) <-> y = x \/ In y s.
Proof.
  unfold set_add. destruct (str_in x s) eqn:E.
  - split; [auto|]. intros [->|H]; [|exact H].
    unfold str_in in E. apply existsb_exists in E as (z & Hz & Ez).
    apply String.eqb_eq in Ez. subst z. exact Hz.
  - rewrite in_app_iff. simpl. intuition.
Qed.

Lemma nodup_set_add (x : string) (s : list string) :
  NoDup s -> NoDup (set_add x s).
Proof.
  intros H. unfold set_add. destruct (str_in x s) eqn:E; [exact H|].
  apply NoDup_app; [exact H|repeat constructor; simpl; tauto|].
  intros y Hy [->|[]].
  assert (str_in y s = true); [|congruence].
  unfold str_in. apply existsb_exists. exists y. split; [exact Hy|].
  apply String.eqb_refl.
Qed.
End SetFacts.

(** X10: the set of domain ids read from the issues holds each id once,
    and an id belongs to it exactly when some issue carries it as a
    non-empty Business domain id: issues without the field, with a null
    or with an empty id add nothing. *)
Theorem unique_domain_ids_are_the_issues_ids (issues : list DomainSearch.domain_issue) :
  NoDup (DomainSearch.get_unique_business_domain_ids issues)
  /\ forall domain_id,
       In domain_id (DomainSearch.get_unique_business_domain_ids issues)
       <-> domain_id <> ""
           /\ exists issue, In issue issues
                /\ DomainSearch.di_domain_id issue = Str domain_id.
Proof.
  unfold DomainSearch.get_unique_business_domain_ids.
  assert (G : forall acc, NoDup acc ->
            NoDup (fold_left
                     (fun domain_ids issue =>
                        match get (DomainSearch.di_domain_id issue) with
                        | Some domain_id =>
                            if Py.truthy domain_id
                            then DomainSearch.set_add domain_id domain_ids
                            else domain_ids
                        | None => domain_ids
                        end) issues acc)
            /\ forall domain_id,
                 In domain_id
                   (fold_left
                      (fun domain_ids issue =>
                         match get (DomainSearch.di_domain_id issue) with
                         | Some domain_id =>
                             if Py.truthy domain_id
                             then DomainSearch.set_add domain_id domain_ids
                             else domain_ids
                         | None => domain_ids
                         end) issues acc)
                 <-> In domain_id acc
                     \/ (domain_id <> ""
                         /\ exists issue, In issue issues
                              /\ DomainSearch.di_domain_id issue = Str domain_id)).
  { induction issues as [|i issues IH]; intros acc Hacc.
    - simpl. split; [exact Hacc|]. intros d. split; [auto|].
      intros [H|(_ & i & [] & _)]. exact H.
    - cbn [fold_left].
      destruct (DomainSearch.di_domain_id i) as [| |s] eqn:Ei; cbn [get].
      + destruct (IH acc Hacc) as [N M]. split; [exact N|].
        intros d. rewrite M. split.
        * intros [H|(Hd & j & Hj & Ej)]; [auto|].
          right. split; [exact Hd|]. exists j. split; [right; exact Hj|exact Ej].
        * intros [H|(Hd & j & [<-|Hj] & Ej)]; [auto|congruence|].
          right. split; [exact Hd|]. exists j. auto.
      + destruct (IH acc Hacc) as [N M]. split; [exact N|].
        intros d. rewrite M. split.
        * intros [H|(Hd & j & Hj & Ej)]; [auto|].
          right. split; [exact Hd|]. exists j. split; [right; exact Hj|exact Ej].
        * intros [H|(Hd & j & [<-|Hj] & Ej)]; [auto|congruence|].
          right. split; [exact Hd|]. exists j. auto.
      + destruct s as [|c s]; cbn [Py.truthy].
        * destruct (IH acc Hacc) as [N M]. split; [exact N|].
          intros d. rewrite M. split.
          -- intros [H|(Hd & j & Hj & Ej)]; [auto|].
             right. split; [exact Hd|]. exists j. split; [right; exact Hj|exact Ej].
          -- intros [H|(Hd & j & [<-|Hj] & Ej)]; [auto|congruence|].
             right. split; [exact Hd|]. exists j. auto.
        * destruct (IH _ (nodup_set_add (String c s) acc Hacc)) as [N M].
          split; [exact N|].
          intros d. rewrite M, in_set_add. split.
          -- intros [[->|H]|(Hd & j & Hj & Ej)]; [|auto|].
             ++ right. split; [discriminate|]. exists i. split; [left; reflexivity|exact Ei].
             ++ right. split; [exact Hd|]. exists j. split; [right; exact Hj|exact Ej].
          -- intros [H|(Hd & j & [<-|Hj] & Ej)]; [auto| |].
             ++ left. left. congruence.
             ++ right. split; [exact Hd|]. exists j. auto. }
  destruct (G [] (NoDup_nil _)) as [N M]. split; [exact N|].
  intros d. rewrite M. simpl. tauto.
Qed.

(** ** Filling the Business Domain field *)

Lemma fill_fold (DRY_RUN : bool) (put_ok : nat -> bool) (issues sent : list string)
    (success_count error_count : nat) :
  let '(sent', (success', error')) :=
    fold_left (Fill.fill_one DRY_RUN put_ok) issues
      (sent, (success_count, error_count)) in
  success' + error' = success_count + error_count + List.length issues
  /\ sent' = (if DRY_RUN then sent else sent ++ issues)%list
  /\ (DRY_RUN = true -> error' = error_count).
Proof.
  revert sent success_count error_count.
  induction issues as [|i issues IH]; intros sent success_count error_count.
  - simpl. rewrite app_nil_r. destruct DRY_RUN; repeat split; lia.
  - cbn [fold_left Fill.fill_one]. destruct DRY_RUN.
    + specialize (IH sent (S success_count) error_count).
      destruct (fold_left _ issues _) as [sent' [success' error']].
      destruct IH as (Hc & Hs & He). repeat split; [simpl; lia|exact Hs|exact He].
    + destruct (put_ok (List.length sent)).
      * specialize (IH (sent ++ [i])%list (S success_count) error_count).
        destruct (fold_left _ issues _) as [sent' [success' error']].
        destruct IH as (Hc & Hs & He).
        repeat split; [simpl; lia|rewrite Hs, <- app_assoc; reflexivity|discriminate].
      * specialize (IH (sent ++ [i])%list success_count (S error_count)).
        destruct (fold_left _ issues _) as [sent' [success' error']].
        destruct IH as (Hc & Hs & He).
        repeat split; [simpl; lia|rewrite Hs, <- app_assoc; reflexivity|discriminate].
Qed.

(** X13: filling the Business Domain field accounts for every issue the
    search returned, as a success or as an error; it sends one PUT per
    issue, in order, and none at all in a dry run, which reports every
    issue as a success; and a search that fails reads as nothing to
    update: the counts are (0, 0) and no PUT is sent. *)
Theorem fill_counts_every_issue (DRY_RUN : bool)
    (script : list (reply (Fetch.search_page string))) (put_ok : nat -> bool) :
  match snd (Fetch.fetch_jira_issues_paginated script),
        Fill.fill_business_domain_field_direct DRY_RUN script put_ok with
  | Returned issues, Some (sent, (success_count, error_count)) =>
      success_count + error_count = List.length issues
      /\ sent = (if DRY_RUN then [] else issues)
      /\ (DRY_RUN = true -> error_count = 0)
  | Returned _, None => False
  | _, filled => filled = None
  end
  /\ forall (pre : list (Fetch.search_page string)) rest,
       forallb Fetch.continues pre = true ->
       Fill.fill_business_domain_field_direct DRY_RUN
         (map Body pre ++ Fault :: rest) put_ok = Some ([], (0, 0)).
Proof.
  split.
  - unfold Fill.fill_business_domain_field_direct.
    destruct (snd (Fetch.fetch_jira_issues_paginated script)) as [issues| |];
      [|reflexivity|reflexivity].
    destruct issues as [|i issues]; [destruct DRY_RUN; simpl; auto|].
    cbn [List.length Nat.eqb].
    pose proof (fill_fold DRY_RUN put_ok (i :: issues) [] 0 0) as H.
    destruct (fold_left _ (i :: issues) _) as [sent' [success' error']].
    destruct H as (Hc & Hs & He). repeat split; [simpl in *; lia|exact Hs|exact He].
  - intros pre rest Hpre. unfold Fill.fill_business_domain_field_direct.
    unfold Fetch.fetch_jira_issues_paginated.
    rewrite (search_loop_continues pre (Fault :: rest) [] 0 Hpre).
    reflexivity.
Qed.

(** ** The pass over the export, in general *)

Section DomainFacts.
Variable auto : bool.
Variable table_update_ok : nat -> bool.
Variables automation_table processed_ids : list string.

Let inv (st : Domains.state) : Prop :=
  forallb (DomainChecks.row_ok automation_table processed_ids) (Domains.calls st) = true
  /\ Domains.planned_added st + Domains.retired_added st
     = DomainChecks.succeeded table_update_ok (List.length (Domains.calls st)).

Lemma succeeded_S (n : nat) :
  DomainChecks.succeeded table_update_ok (S n)
  = DomainChecks.succeeded table_update_ok n + (if table_update_ok n then 1 else 0).
Proof.
  unfold DomainChecks.succeeded. rewrite seq_S, filter_app, length_app. simpl.
  destruct (table_update_ok n); reflexivity.
Qed.

Lemma add_keeps_inv (info : Domains.domain_info) (st : Domains.state) :
  DomainChecks.row_ok automation_table processed_ids
    {| Domains.added := info; Domains.is_planned := true |} = true ->
  inv st ->
  inv (Domains._add_planned_domain auto table_update_ok info st)
  /\ inv (Domains._add_retired_domain auto table_update_ok info st)
  /\ inv (Domains._add_active_domain auto table_update_ok info st).
Proof.
  intros Hrow [Hc Hn].
  unfold Domains._add_planned_domain, Domains._add_retired_domain,
    Domains._add_active_domain, Domains.call_table.
  destruct auto; cbn [negb]; [|repeat split; assumption].
  unfold inv.
  destruct (table_update_ok (List.length (Domains.calls st))) eqn:E;
    cbn [Domains.bump_planned Domains.bump_retired Domains.calls
         Domains.planned_added Domains.retired_added];
    rewrite forallb_app, Hc, length_app, Nat.add_1_r, succeeded_S, E;
    cbn [forallb]; rewrite Hrow; repeat split; try reflexivity; lia.
Qed.

Lemma add_missing_one_inv (st : Domains.state) (e : Domains.entry) :
  inv st ->
  inv (Domains.add_missing_one auto table_update_ok automation_table processed_ids st e).
Proof.
  intros H. destruct e as [|d]; [exact H|].
  cbn [Domains.add_missing_one].
  destruct (opt_in (get (Domains.sys_id d)) automation_table) eqn:Et; [exact H|].
  destruct (opt_in (get (Domains.sys_id d)) processed_ids) eqn:Ep; [exact H|].
  cbn [orb].
  destruct (Py.truthy_opt (get (Domains.name d))) eqn:En; [|exact H].
  cbn [negb].
  assert (Hrow : DomainChecks.row_ok automation_table processed_ids
                   {| Domains.added :=
                        {| Domains.info_sys_id := get (Domains.sys_id d);
                           Domains.info_name := get_default (Domains.name d) "" |};
                      Domains.is_planned := true |} = true).
  { unfold DomainChecks.row_ok.
    cbn [Domains.added Domains.info_sys_id Domains.info_name Domains.is_planned].
    rewrite Et, Ep. destruct (Domains.name d); try discriminate.
    cbn [get get_default negb andb] in *. rewrite En. reflexivity. }
  destruct (opt_is (get (Domains.operational_status d)) "20");
    [apply add_keeps_inv; assumption|].
  destruct (opt_is (get (Domains.operational_status d)) "6");
    [apply add_keeps_inv; assumption|].
  destruct (match get (Domains.operational_status d) with
            | Some s => str_in s ["1"; ""]
            | None => true
            end); [|exact H].
  apply add_keeps_inv; [assumption|]. apply add_keeps_inv; assumption.
Qed.

Lemma fold_add_missing_inv (all_domains : list Domains.entry) (st : Domains.state) :
  inv st ->
  inv (fold_left
         (Domains.add_missing_one auto table_update_ok automation_table processed_ids)
         all_domains st).
Proof.
  revert st. induction all_domains as [|e l IH]; intros st H; [exact H|].
  cbn [fold_left]. apply IH, add_missing_one_inv, H.
Qed.

(** X11: whatever the export holds, every row that the pass over the
    missing domains adds to the table has a non-empty name, is flagged
    planned, and carries an id (when it has one) that is in neither the
    table nor the processed ids; and the two counters together count
    exactly the table updates that succeeded. *)
Theorem added_rows_are_named_and_new (all_domains : list Domains.entry) :
  let st := Domains._add_missing_domains_to_confluence auto table_update_ok
              all_domains automation_table processed_ids in
  forallb (DomainChecks.row_ok automation_table processed_ids) (Domains.calls st) = true
  /\ Domains.planned_added st + Domains.retired_added st
     = DomainChecks.succeeded table_update_ok (List.length (Domains.calls st)).
Proof.
  apply (fold_add_missing_inv all_domains Domains.initial). split; reflexivity.
Qed.
End DomainFacts.

Lemma add_calls_only (auto : bool) (ok : nat -> bool) (info : Domains.domain_info)
    (st : Domains.state) :
  Domains.calls (Domains._add_planned_domain auto ok info st)
  = (Domains.calls st
     ++ if auto then [{| Domains.added := info; Domains.is_planned := true |}] else [])%list
  /\ Domains.calls (Domains._add_retired_domain auto ok info st)
     = (Domains.calls st
        ++ if auto then [{| Domains.added := info; Domains.is_planned := true |}] else [])%list
  /\ Domains.calls (Domains._add_active_domain auto ok info st)
     = (Domains.calls st
        ++ if auto then [{| Domains.added := info; Domains.is_planned := true |}] else [])%list.
Proof.
  unfold Domains._add_planned_domain, Domains._add_retired_domain,
    Domains._add_active_domain, Domains.call_table.
  destruct auto; cbn [negb]; [|rewrite app_nil_r; auto].
  destruct (ok (List.length (Domains.calls st))); auto.
Qed.

Lemma add_missing_one_calls (auto : bool) (ok ok' : nat -> bool)
    (automation_table processed_ids : list string) (st : Domains.state)
    (e : Domains.entry) :
  Domains.calls (Domains.add_missing_one auto ok automation_table processed_ids st e)
  = (Domains.calls st
     ++ Domains.calls (Domains.add_missing_one auto ok' automation_table processed_ids
                         Domains.initial e))%list.
Proof.
  destruct e as [|d]; cbn [Domains.add_missing_one];
    [rewrite app_nil_r; reflexivity|].
  destruct (opt_in _ automation_table || opt_in _ processed_ids);
    [rewrite app_nil_r; reflexivity|].
  destruct (negb _); [rewrite app_nil_r; reflexivity|].
  destruct (opt_is _ "20").
  { rewrite (proj1 (add_calls_only auto ok _ st)).
    rewrite (proj1 (add_calls_only auto ok' _ Domains.initial)). reflexivity. }
  destruct (opt_is _ "6").
  { rewrite (proj1 (proj2 (add_calls_only auto ok _ st))).
    rewrite (proj1 (proj2 (add_calls_only auto ok' _ Domains.initial))). reflexivity. }
  destruct (match get (Domains.operational_status d) with
            | Some s => str_in s ["1"; ""]
            | None => true
            end); [|rewrite app_nil_r; reflexivity].
  rewrite !(proj2 (proj2 (add_calls_only auto ok _ _))).
  rewrite !(proj2 (proj2 (add_calls_only auto ok' _ _))).
  cbn [Domains.initial Domains.calls app]. rewrite <- app_assoc. reflexivity.
Qed.

Lemma fold_add_missing_calls (auto : bool) (ok ok' : nat -> bool)
    (automation_table processed_ids : list string) (l : list Domains.entry)
    (st : Domains.state) :
  Domains.calls
    (fold_left (Domains.add_missing_one auto ok automation_table processed_ids) l st)
  = (Domains.calls st
     ++ Domains.calls
          (fold_left (Domains.add_missing_one auto ok' automation_table processed_ids)
             l Domains.initial))%list.
Proof.
  revert st. induction l as [|e l IH] using rev_ind; intros st.
  - simpl. rewrite app_nil_r. reflexivity.
  - rewrite !fold_left_app. cbn [fold_left].
    rewrite (add_missing_one_calls auto ok ok'), IH.
    rewrite (add_missing_one_calls auto ok' ok' _ _
               (fold_left _ l Domains.initial)).
    rewrite app_assoc. reflexivity.
Qed.

(** X12: the pass over the missing domains never consults what it has
    added: the rows added for an export in two parts are the rows for the
    first part followed by the rows for the second, whatever the table
    updates answer; so a domain listed twice in the export is added for
    each listing; and with the automatic update off nothing is added. *)
Theorem rows_added_per_listing (auto : bool) (ok ok1 ok2 : nat -> bool)
    (automation_table processed_ids : list string)
    (first second : list Domains.entry) :
  Domains.calls (Domains._add_missing_domains_to_confluence auto ok
                   (first ++ second) automation_table processed_ids)
  = (Domains.calls (Domains._add_missing_domains_to_confluence auto ok1
                      first automation_table processed_ids)
     ++ Domains.calls (Domains._add_missing_domains_to_confluence auto ok2
                         second automation_table processed_ids))%list
  /\ Domains._add_missing_domains_to_confluence false ok
       first automation_table processed_ids = Domains.initial.
Proof.
  unfold Domains._add_missing_domains_to_confluence. split.
  - rewrite fold_left_app.
    rewrite (fold_add_missing_calls auto ok ok2 _ _ second).
    rewrite (fold_add_missing_calls auto ok ok1 _ _ first Domains.initial).
    reflexivity.
  - induction first as [|e l IH]; [reflexivity|].
    cbn [fold_left]. rewrite <- IH at 2. f_equal.
    destruct e as [|d]; cbn [Domains.add_missing_one]; [reflexivity|].
    destruct (opt_in _ automation_table || opt_in _ processed_ids); [reflexivity|].
    destruct (negb _); [reflexivity|].
    destruct (opt_is _ "20"); [reflexivity|].
    destruct (opt_is _ "6"); [reflexivity|].
    destruct (match get (Domains.operational_status d) with
              | Some s => str_in s ["1"; ""]
              | None => true
              end); reflexivity.
Qed.

(** ** The account of an email address *)

Lemma exact_match_find (email : string) (users : list Accounts.user) :
  Accounts.exact_match email users
  = match find (fun u => Accounts.null_address u || Accounts.has_address email u) users with
    | Some u => if Accounts.null_address u then Accounts.Raises
                else Accounts.Found (Accounts.accountId u)
    | None => Accounts.NoMatch
    end.
Proof.
  induction users as [|u users IH]; [reflexivity|].
  cbn [Accounts.exact_match find].
  unfold Accounts.null_address at 1, Accounts.has_address at 1.
  destruct (Accounts.emailAddress u) as [| |a] eqn:E; cbn [get_default orb].
  - destruct (Py.lower "" =? Py.lower email) eqn:Em.
    + unfold Accounts.null_address. rewrite E. reflexivity.
    + exact IH.
  - unfold Accounts.null_address. rewrite E. reflexivity.
  - destruct (Py.lower a =? Py.lower email) eqn:Em.
    + unfold Accounts.null_address. rewrite E. reflexivity.
    + exact IH.
Qed.

(** X14: the account lookup returns the account of the first listed user
    whose address is the one asked for, case apart, and falls back on the
    first user of the answer when there is none; a user whose address is
    a JSON null, met before any match, makes the lookup return nothing,
    whoever follows; and an account returned is always the account of a
    listed user. *)
Theorem account_lookup_takes_first_match (email : string) (users : list Accounts.user) :
  Accounts.get_account_id_by_email email (Body users)
  = match find (fun u => Accounts.null_address u || Accounts.has_address email u) users with
    | Some u => if Accounts.null_address u then None else Accounts.accountId u
    | None => match users with
              | first :: _ => Accounts.accountId first
              | [] => None
              end
    end
  /\ match Accounts.get_account_id_by_email email (Body users) with
     | Some account_id =>
         exists u, In u users /\ Accounts.accountId u = Some account_id
     | None => True
     end.
Proof.
  assert (E : Accounts.get_account_id_by_email email (Body users)
              = match find (fun u => Accounts.null_address u
                                     || Accounts.has_address email u) users with
                | Some u => if Accounts.null_address u then None
                            else Accounts.accountId u
                | None => match users with
                          | first :: _ => Accounts.accountId first
                          | [] => None
                          end
                end).
  { unfold Accounts.get_account_id_by_email.
    destruct users as [|first rest]; [reflexivity|].
    rewrite exact_match_find.
    destruct (find _ (first :: rest)) as [u|]; [|reflexivity].
    destruct (Accounts.null_address u); reflexivity. }
  split; [exact E|]. rewrite E.
  destruct (find _ users) as [u|] eqn:F.
  - apply find_some in F as [Hin _].
    destruct (Accounts.null_address u); [exact I|].
    destruct (Accounts.accountId u) as [a|] eqn:Ea; [|exact I].
    exists u. auto.
  - destruct users as [|first rest]; [exact I|].
    destruct (Accounts.accountId first) as [a|] eqn:Ea; [|exact I].
    exists first. split; [left; reflexivity|exact Ea].
Qed.

(** ** A created issue, compared with its own record *)

Section CreationFacts.
Import Issues.
Import Creation.

Lemma get_set_if_truthy (k k' : update_key) (make : string -> update_value)
    (value : option string) (u : updates) :
  get_update k (set_if_truthy k' make value u)
  = if update_key_eqb k k' && Py.truthy_opt value
    then option_map make value
    else get_update k u.
Proof.
  unfold set_if_truthy. destruct value as [v|]; cbn [Py.truthy_opt option_map].
  - destruct (Py.truthy v).
    + rewrite get_set_update. destruct (update_key_eqb k k'); reflexivity.
    + rewrite andb_false_r. reflexivity.
  - rewrite andb_false_r. reflexivity.
Qed.

Lemma option_string_eqb_refl (a : option string) : option_string_eqb a a = true.
Proof. destruct a as [s|]; [apply String.eqb_refl|reflexivity]. Qed.

Lemma normalize_falsy (v : string) :
  Py.truthy v = false -> _normalize_value (Some v) = None.
Proof.
  unfold Py.truthy. intros H. apply negb_false_iff, String.eqb_eq in H. subst v.
  reflexivity.
Qed.

Ltac read_fields :=
  repeat (first [rewrite get_set_if_truthy | rewrite get_set_update];
          cbn [update_key_eqb custom_field_eqb andb]);
  change (get_update ?k []) with (@None update_value).

Variable rep_id : option string.
Variable short_description : jfield.
Variable record : sn_record.
Variable issue_key : string.

Let created : issue :=
  stored issue_key (created_fields rep_id short_description record).

(** What a text or option field of the record reads back as. *)
Lemma stored_truthy (make : string -> update_value) (value : option string) :
  (make = VText \/ make = VSelect) ->
  _normalize_value
    (current_value_of
       (stored_value (if Py.truthy_opt value then option_map make value else None)))
  = _normalize_value value.
Proof.
  intros Hm. destruct value as [v|]; cbn [Py.truthy_opt option_map]; [|reflexivity].
  destruct (Py.truthy v) eqn:Ev.
  - destruct Hm as [-> | ->]; cbn [stored_value current_value_of Py.truthy_opt];
      rewrite ?Ev; reflexivity.
  - rewrite (normalize_falsy v Ev). reflexivity.
Qed.

Lemma created_domain_id :
  field_differs (fields created) record
    {| field_id := business_domain_id; json_key := u_business_domain;
       type := text; mapper := false |} = false.
Proof.
  unfold field_differs, new_value_of.
  cbn [field_id json_key mapper created stored fields custom created_fields cf_updates].
  apply negb_false_iff.
  repeat match goal with
         | |- context [if ?b then _ else set_update _ _ _] => destruct b
         | |- context [if ?b then set_if_truthy _ _ _ _ else _] => destruct b
         end;
    read_fields; rewrite (stored_truthy VText) by auto; apply option_string_eqb_refl.
Qed.

Lemma created_short_name :
  field_differs (fields created) record
    {| field_id := business_service_short_name; json_key := u_short_service_id;
       type := text; mapper := false |} = false.
Proof.
  unfold field_differs, new_value_of.
  cbn [field_id json_key mapper created stored fields custom created_fields cf_updates].
  apply negb_false_iff.
  repeat match goal with
         | |- context [if ?b then _ else set_update _ _ _] => destruct b
         | |- context [if ?b then set_if_truthy _ _ _ _ else _] => destruct b
         end;
    read_fields; rewrite (stored_truthy VText) by auto; apply option_string_eqb_refl.
Qed.

Lemma created_usage :
  field_differs (fields created) record
    {| field_id := business_service_usage; json_key := used_for;
       type := select; mapper := false |} = false.
Proof.
  unfold field_differs, new_value_of.
  cbn [field_id json_key mapper created stored fields custom created_fields cf_updates].
  apply negb_false_iff.
  repeat match goal with
         | |- context [if ?b then _ else set_update _ _ _] => destruct b
         | |- context [if ?b then set_if_truthy _ _ _ _ else _] => destruct b
         end;
    read_fields; rewrite (stored_truthy VSelect) by auto; apply option_string_eqb_refl.
Qed.

Lemma created_classification :
  field_differs (fields created) record
    {| field_id := business_service_classification;
       json_key := service_classification;
       type := select; mapper := false |} = false.
Proof.
  unfold field_differs, new_value_of.
  cbn [field_id json_key mapper created stored fields custom created_fields cf_updates].
  apply negb_false_iff.
  repeat match goal with
         | |- context [if ?b then _ else set_update _ _ _] => destruct b
         | |- context [if ?b then set_if_truthy _ _ _ _ else _] => destruct b
         end;
    read_fields; rewrite (stored_truthy VSelect) by auto; apply option_string_eqb_refl.
Qed.

Lemma created_status :
  field_differs (fields created) record
    {| field_id := business_service_status; json_key := operational_status;
       type := select; mapper := true |} = false.
Proof.
  unfold field_differs, new_value_of.
  cbn [field_id json_key mapper created stored fields custom created_fields cf_updates].
  apply negb_false_iff.
  destruct (get (operational_status record)) as [code|] eqn:Ec;
    cbn [Py.truthy_opt].
  - destruct (Py.truthy code) eqn:Et.
    + repeat match goal with
             | |- context [if ?b then _ else set_update _ _ _] => destruct b
             end;
        read_fields; rewrite (stored_truthy VSelect) by auto;
        apply option_string_eqb_refl.
    + unfold Py.truthy in Et. apply negb_false_iff, String.eqb_eq in Et. subst code.
      repeat match goal with
             | |- context [if ?b then _ else set_update _ _ _] => destruct b
             end;
        read_fields; reflexivity.
  - repeat match goal with
           | |- context [if ?b then _ else set_update _ _ _] => destruct b
           end;
      read_fields; reflexivity.
Qed.

Lemma created_name :
  name record <> Str "Unknown" ->
  field_differs (fields created) record
    {| field_id := business_service_name; json_key := name;
       type := text; mapper := false |} = false.
Proof.
  intros Hn. unfold field_differs, new_value_of.
  cbn [field_id json_key mapper created stored fields custom created_fields cf_updates].
  apply negb_false_iff.
  destruct (Py.truthy_opt (get (operational_status record)));
    (destruct (name record) as [| |n] eqn:En; cbn [get_default get option_string_eqb];
     [rewrite String.eqb_refl
     |
     |destruct (n =? "Unknown") eqn:E;
      [apply String.eqb_eq in E; subst n; congruence|]]);
    read_fields; cbn [stored_value current_value_of];
    try apply option_string_eqb_refl; reflexivity.
Qed.

(** X15: an issue created from a record and stored as sent needs no
    update when it is next compared with that record: the comparison
    proposes no field at all. This holds for every record that is not
    Retired, whose name is not the text Unknown and whose created summary
    starts with no Retired prefix; values that are absent, null or blank
    are left out at creation and read as equal by the comparison. *)
Theorem created_issue_needs_no_update :
  name record <> Str "Unknown" ->
  opt_is (get (operational_status record)) "6" = false ->
  Py.startswith (Summary.create_summary (name record) (sys_id record)) "Retired-" = false ->
  Py.startswith (Summary.create_summary (name record) (sys_id record)) "Retired - " = false ->
  _compare_fields (stored issue_key (created_fields rep_id short_description record))
    record = [].
Proof.
  intros Hn H6 H1 H2. apply nothing_differs_nothing_proposed.
  unfold some_field_differs. fold created. cbn [field_mappings existsb].
  rewrite created_domain_id, (created_name Hn), created_short_name, created_status,
    created_usage, created_classification.
  cbn [orb]. unfold summary_differs, Summary.summary_update.
  rewrite H6. cbn [created stored fields summary created_fields cf_summary].
  unfold Summary.base_summary. rewrite (strip_retired_prefixes_fixed _ _ H1 H2).
  rewrite String.eqb_refl. reflexivity.
Qed.

(** X16: a Retired record whose created summary starts with neither
    Retired prefix is created under that plain summary, so the first
    comparison of the stored issue with the same record proposes the
    summary with the Retired prefix: the prefix followed by the first
    247 characters of the created summary. *)
Theorem retired_service_is_renamed_after_creation :
  opt_is (get (operational_status record)) "6" = true ->
  Py.startswith (Summary.create_summary (name record) (sys_id record)) "Retired-" = false ->
  Py.startswith (Summary.create_summary (name record) (sys_id record)) "Retired - " = false ->
  proposed_summary
    (_compare_fields (stored issue_key (created_fields rep_id short_description record))
       record)
  = Some ("Retired-"
          ++ Py.take 247 (Summary.create_summary (name record) (sys_id record))).
Proof.
  intros H6 H1 H2. rewrite compare_fields_summary.
  unfold Summary.summary_update. rewrite H6.
  cbn [stored fields summary created_fields cf_summary].
  unfold Summary.base_summary. rewrite (strip_retired_prefixes_fixed _ _ H1 H2).
  set (s := Summary.create_summary (name record) (sys_id record)) in *.
  change (Py.take 255 ("Retired-" ++ s)) with ("Retired-" ++ Py.take 247 s).
  destruct (s =? "Retired-" ++ Py.take 247 s) eqn:E; [|reflexivity].
  apply String.eqb_eq in E. rewrite E in H1. discriminate H1.
Qed.
End CreationFacts.

Lemma created_issue_witness :
  Issues.name Inputs.payroll_record <> Str "Unknown"
  /\ Issues._compare_fields
       (Creation.stored "AMI-1"
          (Creation.created_fields (Some "acc-1") Missing Inputs.payroll_record))
       Inputs.payroll_record = [].
Proof.
  split; [discriminate|].
  apply (created_issue_needs_no_update (Some "acc-1") Missing Inputs.payroll_record "AMI-1");
    [discriminate|reflexivity|reflexivity|reflexivity].
Defined.

Lemma retired_service_witness :
  opt_is (get (Issues.operational_status Samples.legacy_record)) "6" = true
  /\ Issues.proposed_summary
       (Issues._compare_fields
          (Creation.stored "AMI-2"
             (Creation.created_fields None Missing Samples.legacy_record))
          Samples.legacy_record)
     = Some "Retired-Legacy | L1".
Proof.
  split; [reflexivity|].
  apply (retired_service_is_renamed_after_creation None Missing Samples.legacy_record
           "AMI-2"); reflexivity.
Defined.

(** ** The synchronization of the services *)

Section SyncFacts.
Import Issues.
Import Sync.

Variable succeeds : nat -> bool.
Variables issues_cache name_cache : Fetch.index.

Let good (records : nat) (st : state) : Prop :=
  handled (snd st) = records
  /\ unchanged (snd st) = 0
  /\ created (snd st) + updated (snd st) + labels_removed (snd st)
     = DomainChecks.succeeded succeeds (List.length (fst st))
  /\ existsb is_remove (fst st) = false.

Lemma call_good (n : nat) (a : action) (on_success : stats -> stats) (st : state) :
  is_remove a = false ->
  (on_success = bump_updated \/ on_success = bump_created) ->
  good n st -> good (S n) (call succeeds a on_success st).
Proof.
  intros Ha Hs (Hh & Hu & Hc & Hr). destruct st as [trace s]. cbn [fst snd] in *.
  unfold good, call. cbn [fst snd].
  rewrite length_app, Nat.add_1_r, succeeded_S, existsb_app, Hr.
  cbn [existsb orb]. rewrite Ha.
  unfold handled in *.
  destruct (succeeds (List.length trace));
    [destruct Hs as [-> | ->]|];
    cbn [bump_updated bump_created bump_errors created updated excluded unchanged
         labels_removed errors];
    repeat split; try reflexivity; try assumption; lia.
Qed.

Lemma process_record_good (n : nat) (st st' : state) (record : sn_record) :
  good n st -> process_record succeeds issues_cache name_cache st record = Some st' ->
  good (S n) st'.
Proof.
  intros H. unfold process_record.
  assert (Hskip : forall bump, bump = bump_excluded \/ bump = bump_errors ->
                  good (S n) (fst st, bump (snd st))).
  { intros bump Hb. destruct H as (Hh & Hu & Hc & Hr). unfold good, handled in *.
    cbn [fst snd]. destruct Hb as [-> | ->];
      cbn [bump_excluded bump_errors created updated excluded unchanged
           labels_removed errors];
      repeat split; try assumption; lia. }
  destruct (should_exclude_item record).
  { intros [= <-]. apply Hskip. auto. }
  destruct (get (sys_id record)) as [id|]; [|intros [= <-]; apply Hskip; auto].
  destruct (Py.truthy id); [|intros [= <-]; apply Hskip; auto].
  destruct (lookup issues_cache name_cache record id) as [[existing|]|];
    [| |discriminate]; intros [= <-]; apply call_good; auto.
Qed.

Lemma process_records_good (records : list sn_record) (n : nat) (st : state) :
  good n st ->
  let '(st', raised) := process_records succeeds issues_cache name_cache records st in
  (raised = false -> good (n + List.length records) st')
  /\ existsb is_remove (fst st') = false.
Proof.
  revert n st. induction records as [|r records IH]; intros n st H.
  - cbn [process_records List.length]. rewrite Nat.add_0_r.
    split; [auto|apply H].
  - cbn [process_records List.length].
    destruct (process_record succeeds issues_cache name_cache st r) as [st1|] eqn:E.
    + specialize (IH (S n) st1 (process_record_good n st st1 r H E)).
      destruct (process_records _ _ _ records st1) as [st' raised].
      destruct IH as [Hg Hr]. split; [|exact Hr].
      intros Hf. replace (n + S (List.length records))
        with (S n + List.length records) by lia. auto.
    + split; [discriminate|apply H].
Qed.

Lemma clean_trace (keys : list string) (st : state) :
  fst (fold_left (clean succeeds) keys st) = (fst st ++ map RemoveLabel keys)%list.
Proof.
  revert st. induction keys as [|k keys IH]; intros st.
  - simpl. rewrite app_nil_r. reflexivity.
  - cbn [fold_left map]. rewrite IH. destruct st as [trace s].
    unfold clean, call. cbn [fst]. rewrite <- app_assoc. reflexivity.
Qed.

Lemma clean_step (st : state) (k : string) :
  handled (snd (clean succeeds st k)) = S (handled (snd st))
  /\ unchanged (snd (clean succeeds st k)) = unchanged (snd st)
  /\ (created (snd st) + updated (snd st) + labels_removed (snd st)
      = DomainChecks.succeeded succeeds (List.length (fst st)) ->
      created (snd (clean succeeds st k)) + updated (snd (clean succeeds st k))
      + labels_removed (snd (clean succeeds st k))
      = DomainChecks.succeeded succeeds (List.length (fst (clean succeeds st k)))).
Proof.
  destruct st as [trace s]. unfold clean, call, handled. cbn [fst snd].
  rewrite length_app, Nat.add_1_r, succeeded_S.
  destruct (succeeds (List.length trace));
    cbn [bump_labels_removed bump_errors created updated excluded unchanged
         labels_removed errors];
    repeat split; lia.
Qed.

Lemma clean_counts (keys : list string) (st : state) :
  handled (snd (fold_left (clean succeeds) keys st))
  = handled (snd st) + List.length keys
  /\ unchanged (snd (fold_left (clean succeeds) keys st)) = unchanged (snd st)
  /\ (created (snd st) + updated (snd st) + labels_removed (snd st)
      = DomainChecks.succeeded succeeds (List.length (fst st)) ->
      created (snd (fold_left (clean succeeds) keys st))
      + updated (snd (fold_left (clean succeeds) keys st))
      + labels_removed (snd (fold_left (clean succeeds) keys st))
      = DomainChecks.succeeded succeeds
          (List.length (fst (fold_left (clean succeeds) keys st)))).
Proof.
  revert st. induction keys as [|k keys IH]; intros st.
  - cbn [fold_left List.length]. repeat split; auto.
  - cbn [fold_left List.length].
    destruct (IH (clean succeeds st k)) as (Hh & Hu & Hc).
    destruct (clean_step st k) as (Sh & Su & Sc).
    rewrite Hh, Hu, Sh, Su. repeat split; [lia|].
    intros H. apply Hc, Sc, H.
Qed.

(** X17: a synchronization that reaches its report has counted every
    record of the export and every issue to clean exactly once, as
    created, updated, excluded, unlabelled or in error; the counter of
    unchanged issues is never moved; the successes counted are the calls
    that succeeded; the number returned is the error counter; and a run
    that stops before its report returns 1. *)
Theorem sync_counts_every_record (data : option (list sn_record)) :
  match sync_with_cache succeeds issues_cache name_cache data, data with
  | (trace, Some s, result), Some records =>
      handled s
      = List.length records + List.length (issues_to_clean issues_cache records)
      /\ unchanged s = 0
      /\ created s + updated s + labels_removed s
         = DomainChecks.succeeded succeeds (List.length trace)
      /\ result = errors s
  | (trace, Some s, result), None => False
  | (trace, None, result), _ => result = 1
  end.
Proof.
  unfold sync_with_cache.
  destruct (negb (nonempty issues_cache)); [destruct data; reflexivity|].
  destruct data as [records|]; [|reflexivity].
  assert (G0 : good 0 ([], no_stats)).
  { repeat split. }
  pose proof (process_records_good records 0 ([], no_stats) G0) as H.
  destruct (process_records succeeds issues_cache name_cache records ([], no_stats))
    as [st raised].
  destruct H as [Hg _]. destruct raised; [reflexivity|].
  destruct (Hg eq_refl) as (Hh & Hu & Hc & _).
  destruct (clean_counts (issues_to_clean issues_cache records) st) as (Kh & Ku & Kc).
  cbn [fst snd]. repeat split.
  - rewrite Kh, Hh. reflexivity.
  - rewrite Ku. exact Hu.
  - apply Kc, Hc.
Qed.

Lemma process_records_app (pre rest : list sn_record) (st : state) :
  process_records succeeds issues_cache name_cache (pre ++ rest) st
  = let '(st', raised) := process_records succeeds issues_cache name_cache pre st in
    if raised then (st', true)
    else process_records succeeds issues_cache name_cache rest st'.
Proof.
  revert st. induction pre as [|r pre IH]; intros st; [reflexivity|].
  cbn [app process_records].
  destruct (process_record succeeds issues_cache name_cache st r); [apply IH|reflexivity].
Qed.

(** X18: a record whose name is a JSON null and whose sys_id is not in
    the cache stops the synchronization: the calls made are those of the
    records before it, no label is removed, no counter is reported and
    the number returned is 1, whatever errors were counted before and
    whatever records follow. *)
Theorem null_name_stops_the_sync (pre post : list sn_record) (record : sn_record)
    (id : string) :
  nonempty issues_cache = true ->
  name record = Null ->
  sys_id record = Str id ->
  Py.truthy id = true ->
  dict_get String.eqb id issues_cache = None ->
  sync_with_cache succeeds issues_cache name_cache (Some (pre ++ record :: post)%list)
  = (fst (fst (process_records succeeds issues_cache name_cache pre ([], no_stats))),
     None, 1)
  /\ existsb is_remove
       (fst (fst (process_records succeeds issues_cache name_cache pre ([], no_stats))))
     = false.
Proof.
  intros Hc Hn Hs Ht Hd. unfold sync_with_cache. rewrite Hc. cbn [negb].
  rewrite process_records_app.
  assert (G0 : good 0 ([], no_stats)) by (repeat split).
  pose proof (process_records_good pre 0 ([], no_stats) G0) as H.
  destruct (process_records succeeds issues_cache name_cache pre ([], no_stats))
    as [st raised].
  destruct H as [_ Hr]. split; [|exact Hr].
  destruct raised; [reflexivity|].
  cbn [process_records]. unfold process_record, should_exclude_item, lookup.
  rewrite Hn, Hs. cbn [get_default get opt_is]. rewrite Ht, Hd. reflexivity.
Qed.

Lemma process_record_trace (st st' : state) (record : sn_record) :
  process_record succeeds issues_cache name_cache st record = Some st' ->
  exists more, fst st' = (fst st ++ more)%list.
Proof.
  unfold process_record.
  destruct (should_exclude_item record).
  { intros [= <-]. exists []. cbn [fst]. rewrite app_nil_r. reflexivity. }
  destruct (get (sys_id record)) as [id|];
    [|intros [= <-]; exists []; cbn [fst]; rewrite app_nil_r; reflexivity].
  destruct (Py.truthy id);
    [|intros [= <-]; exists []; cbn [fst]; rewrite app_nil_r; reflexivity].
  destruct (lookup issues_cache name_cache record id) as [[existing|]|];
    [| |discriminate]; intros [= <-]; destruct st as [trace s]; unfold call;
    cbn [fst]; eexists; reflexivity.
Qed.

Lemma process_records_trace (records : list sn_record) (st : state) :
  exists more,
    fst (fst (process_records succeeds issues_cache name_cache records st))
    = (fst st ++ more)%list.
Proof.
  revert st. induction records as [|r records IH]; intros st.
  - exists []. cbn [process_records fst]. rewrite app_nil_r. reflexivity.
  - cbn [process_records].
    destruct (process_record succeeds issues_cache name_cache st r) as [st1|] eqn:E.
    + destruct (process_record_trace st st1 r E) as [m1 E1].
      destruct (IH st1) as [m2 E2]. exists (m1 ++ m2)%list.
      rewrite E2, E1, app_assoc. reflexivity.
    + exists []. cbn [fst]. rewrite app_nil_r. reflexivity.
Qed.

Lemma process_records_updates (records : list sn_record) (st : state)
    (record : sn_record) (id : string) (existing : issue) :
  In record records ->
  should_exclude_item record = false ->
  get (sys_id record) = Some id ->
  Py.truthy id = true ->
  lookup issues_cache name_cache record id = Some (Some existing) ->
  snd (process_records succeeds issues_cache name_cache records st) = false ->
  In (Update (key existing) record existing)
    (fst (fst (process_records succeeds issues_cache name_cache records st))).
Proof.
  intros Hin He Hs Ht Hl. revert st.
  induction records as [|r records IH]; intros st Hok; [destruct Hin|].
  cbn [process_records] in *.
  destruct (process_record succeeds issues_cache name_cache st r) as [st1|] eqn:E;
    [|discriminate].
  destruct Hin as [->|Hin]; [|apply IH; assumption].
  unfold process_record in E. rewrite He, Hs, Ht, Hl in E.
  injection E as <-.
  destruct (process_records_trace records
              (call succeeds (Update (key existing) record existing) bump_updated st))
    as [more ->].
  destruct st as [trace s]. unfold call. cbn [fst].
  rewrite !in_app_iff. left. right. left. reflexivity.
Qed.

Lemma dict_get_in_index (id : string) (existing : issue) (cache : Fetch.index) :
  dict_get String.eqb id cache = Some existing -> In (id, existing) cache.
Proof.
  induction cache as [|[k v] cache IH]; [discriminate|].
  cbn [dict_get]. destruct (id =? k) eqn:E.
  - apply String.eqb_eq in E. intros [= ->]. subst k. left. reflexivity.
  - intros H. right. apply IH, H.
Qed.

(** X19: in a run whose loop over the records raises no exception, an
    issue that is still labelled, whose own service id has left the
    export, and that a record of the export reaches through its name is
    first updated (the update adds the verification label) and later, in
    the same run, has the label removed. *)
Theorem name_matched_issue_loses_its_label (records : list sn_record)
    (record : sn_record) (old_id new_id service_name : string) (existing : issue) :
  dict_get String.eqb old_id issues_cache = Some existing ->
  str_in VERIFICATION_LABEL (labels (fields existing)) = true ->
  str_in old_id (json_sys_ids records) = false ->
  In record records ->
  name record = Str service_name ->
  (service_name =? "All") = false ->
  sys_id record = Str new_id ->
  Py.truthy new_id = true ->
  dict_get String.eqb new_id issues_cache = None ->
  dict_get String.eqb (Py.lower service_name) name_cache = Some existing ->
  snd (process_records succeeds issues_cache name_cache records ([], no_stats)) = false ->
  exists before between after,
    fst (fst (sync_with_cache succeeds issues_cache name_cache (Some records)))
    = (before ++ Update (key existing) record existing
         :: between ++ RemoveLabel (key existing) :: after)%list.
Proof.
  intros Hold Hlab Hgone Hin Hname Hall Hid Ht Hnew Hnm Hok.
  assert (Hc : nonempty issues_cache = true).
  { destruct issues_cache; [discriminate|reflexivity]. }
  assert (Hu : In (Update (key existing) record existing)
                 (fst (fst (process_records succeeds issues_cache name_cache records
                              ([], no_stats))))).
  { apply (process_records_updates records _ record new_id existing); try assumption.
    - unfold should_exclude_item. rewrite Hname. exact Hall.
    - rewrite Hid. reflexivity.
    - unfold lookup. rewrite Hnew, Hname. cbn [get_default]. rewrite Hnm. reflexivity. }
  assert (Hr : In (key existing) (issues_to_clean issues_cache records)).
  { unfold issues_to_clean. apply in_map_iff. exists (old_id, existing).
    split; [reflexivity|]. apply filter_In. split.
    - apply dict_get_in_index, Hold.
    - cbn [fst snd]. rewrite Hgone, Hlab. reflexivity. }
  unfold sync_with_cache. rewrite Hc. cbn [negb].
  destruct (process_records succeeds issues_cache name_cache records ([], no_stats))
    as [st raised].
  cbn [snd] in Hok. subst raised. cbn [fst] in *.
  rewrite clean_trace.
  apply in_split in Hu as (before & between & ->).
  apply in_split in Hr as (k1 & k2 & ->).
  exists before, (between ++ map RemoveLabel k1)%list, (map RemoveLabel k2).
  rewrite map_app. cbn [map]. rewrite <- !app_assoc. reflexivity.
Qed.
End SyncFacts.

Lemma null_name_witness :
  Sync.sync_with_cache (fun _ => true)
    (fst Samples.payroll_cache) (snd Samples.payroll_cache)
    (Some [Inputs.payroll_record; Samples.nameless_record; Samples.payroll_again])
  = ([Sync.Update "AMI-1" Inputs.payroll_record Inputs.payroll_issue], None, 1).
Proof.
  exact (proj1 (null_name_stops_the_sync (fun _ => true)
                  (fst Samples.payroll_cache) (snd Samples.payroll_cache)
                  [Inputs.payroll_record] [Samples.payroll_again]
                  Samples.nameless_record "Z9"
                  eq_refl eq_refl eq_refl eq_refl eq_refl)).
Defined.

Lemma name_matched_issue_witness :
  exists before between after,
    fst (fst (Sync.sync_with_cache (fun _ => true)
                (fst Samples.payroll_cache) (snd Samples.payroll_cache)
                (Some [Samples.payroll_again])))
    = (before ++ Sync.Update "AMI-1" Samples.payroll_again Inputs.payroll_issue
         :: between ++ Sync.RemoveLabel "AMI-1" :: after)%list.
Proof.
  exact (name_matched_issue_loses_its_label (fun _ => true)
           (fst Samples.payroll_cache) (snd Samples.payroll_cache)
           [Samples.payroll_again] Samples.payroll_again "A1" "A2" "Payroll"
           Inputs.payroll_issue
           eq_refl eq_refl eq_refl (or_introl eq_refl) eq_refl eq_refl eq_refl
           eq_refl eq_refl eq_refl eq_refl).
Defined.

(** X20: when the load of the cache meets a fault, whatever pages came
    before, the synchronization makes no call at all and returns 1; the
    same holds when the export file is missing or unreadable. *)
Theorem failed_load_stops_the_sync
    (pre : list (Fetch.search_page Issues.issue))
    (rest : list (reply (Fetch.search_page Issues.issue)))
    (data : option (list Issues.sn_record)) (succeeds : nat -> bool)
    (issues_cache name_cache : Fetch.index) :
  forallb Fetch.continues pre = true ->
  Sync.sync_business_services_from_json_optimized (map Body pre ++ Fault :: rest)
    data succeeds = Some ([], None, 1)
  /\ Sync.sync_with_cache succeeds issues_cache name_cache None = ([], None, 1).
Proof.
  intros Hpre. split.
  - unfold Sync.sync_business_services_from_json_optimized.
    rewrite (fault_empties_load pre rest Hpre). reflexivity.
  - unfold Sync.sync_with_cache. destruct (negb (nonempty issues_cache)); reflexivity.
Qed.

Lemma failed_load_witness :
  forallb Fetch.continues [Inputs.first_issue_page] = true
  /\ Sync.sync_business_services_from_json_optimized
       (map Body [Inputs.first_issue_page] ++ Fault :: [])
       (Some [Inputs.payroll_record]) (fun _ => true) = Some ([], None, 1).
Proof.
  split; [reflexivity|].
  apply (failed_load_stops_the_sync [Inputs.first_issue_page] []
           (Some [Inputs.payroll_record]) (fun _ => true) [] []).
  reflexivity.
Defined.

(** ** The comparison, field by field *)

Section CompareByField.
Import Issues.

Lemma normalize_truthy (value : option string) (v : string) :
  _normalize_value value = Some v -> Py.truthy v = true.
Proof.
  unfold _normalize_value. destruct value as [s|]; [|discriminate].
  destruct (Py.truthy (Py.strip s)) eqn:E; [|discriminate].
  intros [= <-]. exact E.
Qed.

Lemma compare_one_get (k : update_key) fields record upd m :
  get_update k (compare_one fields record upd m)
  = if update_key_eqb k (KCustom (field_id m)) && field_differs fields record m
    then match _normalize_value (new_value_of m record) with
         | Some v => Some (Reads.value_for (type m) v)
         | None => get_update k upd
         end
    else get_update k upd.
Proof.
  unfold compare_one, field_differs.
  destruct (negb (option_string_eqb _ _)); [|rewrite andb_false_r; reflexivity].
  rewrite andb_true_r.
  destruct (_normalize_value (new_value_of m record)) as [v|] eqn:E.
  - rewrite (normalize_truthy _ _ E).
    destruct (type m); rewrite get_set_update;
      destruct (update_key_eqb k (KCustom (field_id m))); reflexivity.
  - destruct (update_key_eqb k (KCustom (field_id m))); reflexivity.
Qed.

Lemma compare_one_writes fields record upd m :
  forallb Reads.entry_writes_text upd = true ->
  forallb Reads.entry_writes_text (compare_one fields record upd m) = true.
Proof.
  intros H. unfold compare_one.
  destruct (negb (option_string_eqb _ _)); [|exact H].
  destruct (_normalize_value (new_value_of m record)) as [v|] eqn:E; [|exact H].
  pose proof (normalize_truthy _ _ E) as Hv. rewrite Hv.
  assert (G : forall (x : update_value) (u : updates),
            Reads.writes_text x = true ->
            forallb Reads.entry_writes_text u = true ->
            forallb Reads.entry_writes_text (set_update (KCustom (field_id m)) x u) = true).
  { intros x u Hx. induction u as [|[k0 v0] u IH]; intros Hu.
    - cbn. rewrite Hx. reflexivity.
    - cbn [set_update dict_set] in *. cbn [forallb] in Hu.
      apply andb_true_iff in Hu as [H0 Hu].
      destruct (update_key_eqb (KCustom (field_id m)) k0) eqn:Ek.
      + cbn [forallb]. rewrite Hu. unfold Reads.entry_writes_text. cbn [fst snd].
        rewrite Hx. destruct k0; reflexivity.
      + cbn [forallb]. rewrite H0. apply IH, Hu. }
  destruct (type m); apply G; auto.
Qed.
End CompareByField.

(** X21: for each compared custom field, the comparison proposes a value
    exactly when the normalized Jira and export values differ and the
    export has a value: it then proposes that value, stripped, as a text
    or as an option according to the type of the field. An export value
    that is absent, null, blank or (for the status) outside the table
    proposes nothing, so the comparison never clears a custom field. *)
Theorem comparison_never_clears_a_field
    (existing_issue : Issues.issue) (record : Issues.sn_record) :
  (forall m, In m Issues.field_mappings ->
     Issues.get_update (Issues.KCustom (Issues.field_id m))
       (Issues._compare_fields existing_issue record)
     = if Issues.field_differs (Issues.fields existing_issue) record m
       then option_map (Reads.value_for (Issues.type m))
              (Issues._normalize_value (Issues.new_value_of m record))
       else None)
  /\ forall f v,
       In (Issues.KCustom f, v) (Issues._compare_fields existing_issue record) ->
       Reads.writes_text v = true.
Proof.
  split.
  - intros m Hm. unfold Issues._compare_fields.
    assert (E : Issues.get_update (Issues.KCustom (Issues.field_id m))
                  (fold_left (Issues.compare_one (Issues.fields existing_issue) record)
                     Issues.field_mappings [])
                = if Issues.field_differs (Issues.fields existing_issue) record m
                  then option_map (Reads.value_for (Issues.type m))
                         (Issues._normalize_value (Issues.new_value_of m record))
                  else None).
    { cbn [Issues.field_mappings fold_left].
      cbn [In] in Hm.
      repeat (destruct Hm as [<-|Hm]);
        [ | | | | | |destruct Hm];
        rewrite !compare_one_get;
        cbn [Issues.field_id Issues.update_key_eqb Issues.custom_field_eqb andb];
        match goal with
        | |- context [Issues.field_differs ?f ?r ?m] =>
            destruct (Issues.field_differs f r m)
        end;
        try reflexivity;
        match goal with
        | |- context [Issues._normalize_value ?x] =>
            destruct (Issues._normalize_value x)
        end; reflexivity. }
    destruct (Summary.summary_update _ _).
    + rewrite get_set_update. exact E.
    + exact E.
  - intros f v Hin. unfold Issues._compare_fields in Hin.
    assert (G : forallb Reads.entry_writes_text
                  (fold_left (Issues.compare_one (Issues.fields existing_issue) record)
                     Issues.field_mappings []) = true).
    { generalize Issues.field_mappings as ms.
      assert (H0 : forallb Reads.entry_writes_text [] = true) by reflexivity.
      revert H0. generalize (@nil (Issues.update_key * Issues.update_value)) as upd.
      intros upd H0 ms. revert upd H0.
      induction ms as [|m ms IH]; intros upd H0; [exact H0|].
      cbn [fold_left]. apply IH, compare_one_writes, H0. }
    set (u := fold_left (Issues.compare_one (Issues.fields existing_issue) record)
               Issues.field_mappings []) in *.
    assert (Hu : In (Issues.KCustom f, v) u).
    { destruct (Summary.summary_update _ _) as [s|]; [|exact Hin].
      clear G. unfold Issues.set_update in Hin.
      induction u as [|[k0 v0] u IH].
      - cbn in Hin. destruct Hin as [H|[]]. discriminate H.
      - cbn [dict_set] in Hin.
        destruct (Issues.update_key_eqb Issues.KSummary k0) eqn:Ek.
        + apply update_key_eqb_eq in Ek. subst k0.
          destruct Hin as [H|H]; [discriminate H|right; exact H].
        + destruct Hin as [H|H]; [left; exact H|right; apply IH, H]. }
    rewrite forallb_forall in G. apply (G _ Hu).
Qed.

(** ** The two indexes of the loaded issues *)

Section IndexFacts.
Import Issues.

Lemma find_snoc {A : Type} (P : A -> bool) (l : list A) (a : A) :
  find P (l ++ [a])
  = match find P l with
    | Some x => Some x
    | None => if P a then Some a else None
    end.
Proof.
  induction l as [|b l IH]; [reflexivity|].
  cbn [app find]. destruct (P b); [reflexivity|exact IH].
Qed.

Lemma index_get_set (k k' : string) (v : issue) (d : Fetch.index) :
  dict_get String.eqb k (dict_set String.eqb k' v d)
  = if k' =? k then Some v else dict_get String.eqb k d.
Proof.
  rewrite (dict_get_set String.eqb String.eqb_eq). rewrite (String.eqb_sym k k').
  reflexivity.
Qed.

Lemma index_issue_get (acc : Fetch.index * Fetch.index) (i : issue) (k : string) :
  dict_get String.eqb k (fst (Fetch.index_issue acc i))
  = (if Reads.has_service_id k i then Some i else dict_get String.eqb k (fst acc))
  /\ dict_get String.eqb k (snd (Fetch.index_issue acc i))
     = (if Reads.has_name_key k i then Some i else dict_get String.eqb k (snd acc)).
Proof.
  destruct acc as [ids names]. unfold Fetch.index_issue, Reads.has_service_id,
    Reads.has_name_key. cbn [fst snd]. split.
  - destruct (business_service_id (fields i)) as [s|]; [|reflexivity].
    destruct (Py.truthy s); [|reflexivity].
    cbn [andb]. apply index_get_set.
  - destruct (Py.truthy (Fetch.clean_name (summary (fields i)))); [|reflexivity].
    cbn [andb]. apply index_get_set.
Qed.

Lemma index_fold_get (all_issues : list issue) (acc : Fetch.index * Fetch.index)
    (k : string) :
  dict_get String.eqb k (fst (fold_left Fetch.index_issue all_issues acc))
  = match find (Reads.has_service_id k) (rev all_issues) with
    | Some i => Some i
    | None => dict_get String.eqb k (fst acc)
    end
  /\ dict_get String.eqb k (snd (fold_left Fetch.index_issue all_issues acc))
     = match find (Reads.has_name_key k) (rev all_issues) with
       | Some i => Some i
       | None => dict_get String.eqb k (snd acc)
       end.
Proof.
  revert acc. induction all_issues as [|i l IH]; intros acc; [split; reflexivity|].
  cbn [fold_left rev]. rewrite !find_snoc.
  destruct (IH (Fetch.index_issue acc i)) as [-> ->].
  destruct (index_issue_get acc i k) as [-> ->].
  split.
  - destruct (find (Reads.has_service_id k) (rev l)); [reflexivity|].
    destruct (Reads.has_service_id k i); reflexivity.
  - destruct (find (Reads.has_name_key k) (rev l)); [reflexivity|].
    destruct (Reads.has_name_key k i); reflexivity.
Qed.
End IndexFacts.

Lemma search_loop_last {R : Type} (pages : list (Fetch.search_page R))
    (last : Fetch.search_page R) (rest : list (reply (Fetch.search_page R))) :
  forallb Fetch.continues pages = true ->
  Fetch.continues last = false ->
  Fetch.search_loop (map Body (pages ++ [last]) ++ rest) [] 0
  = (S (List.length pages), Returned (Fetch.gathered (pages ++ [last]))).
Proof.
  intros Hp Hl. rewrite map_app, <- app_assoc. cbn [map app].
  rewrite (search_loop_continues pages (Body last :: rest) [] 0 Hp).
  assert (Hg : Fetch.gathered (pages ++ [last])
               = (Fetch.gathered pages ++ Fetch.issues last)%list).
  { unfold Fetch.gathered. rewrite map_app, concat_app. cbn [map concat].
    rewrite app_nil_r. reflexivity. }
  rewrite Hg. cbn [Fetch.search_loop app Nat.add].
  unfold Fetch.continues in Hl.
  destruct (Py.truthy_opt (Fetch.nextPageToken last)); cbn [negb andb] in *;
    [|reflexivity].
  apply negb_false_iff in Hl. rewrite Hl. reflexivity.
Qed.

(** X22: the cache loaded from Jira finds, under a service id, the last
    loaded issue that carries that non-empty id, and under a name key the
    last loaded issue whose cleaned summary name, lowered, is that key:
    when two issues share an id or a name the later one hides the
    earlier, and an issue with neither is in no index. *)
Theorem index_keeps_the_last_issue (pages : list (Fetch.search_page Issues.issue))
    (last : Fetch.search_page Issues.issue) (k : string) :
  forallb Fetch.continues pages = true ->
  Fetch.continues last = false ->
  exists ids names,
    snd (Fetch.load_all_business_services_with_fields (map Body (pages ++ [last])))
    = Returned (ids, names)
    /\ dict_get String.eqb k ids
       = find (Reads.has_service_id k) (rev (Fetch.gathered (pages ++ [last])))
    /\ dict_get String.eqb k names
       = find (Reads.has_name_key k) (rev (Fetch.gathered (pages ++ [last]))).
Proof.
  intros Hp Hl. unfold Fetch.load_all_business_services_with_fields.
  rewrite <- (app_nil_r (map Body (pages ++ [last]))).
  rewrite (search_loop_last pages last [] Hp Hl).
  destruct (fold_left Fetch.index_issue (Fetch.gathered (pages ++ [last])) ([], []))
    as [ids names] eqn:E.
  exists ids, names. split; [reflexivity|].
  destruct (index_fold_get (Fetch.gathered (pages ++ [last])) ([], []) k) as [H1 H2].
  rewrite E in H1, H2. cbn [fst snd dict_get] in H1, H2.
  rewrite H1, H2. split.
  - destruct (find (Reads.has_service_id k) _); reflexivity.
  - destruct (find (Reads.has_name_key k) _); reflexivity.
Qed.

Lemma index_witness :
  exists ids names,
    snd (Fetch.load_all_business_services_with_fields
           (map Body ([Inputs.first_issue_page] ++ [Samples.last_issue_page])))
    = Returned (ids, names)
    /\ dict_get String.eqb "A1" ids
       = find (Reads.has_service_id "A1")
           (rev (Fetch.gathered ([Inputs.first_issue_page] ++ [Samples.last_issue_page])))
    /\ dict_get String.eqb "A1" names
       = find (Reads.has_name_key "A1")
           (rev (Fetch.gathered ([Inputs.first_issue_page] ++ [Samples.last_issue_page]))).
Proof.
  exact (index_keeps_the_last_issue [Inputs.first_issue_page] Samples.last_issue_page
           "A1" eq_refl eq_refl).
Defined.

(** ** From the creation to the cache *)

Section RoundTrip.
Import Issues.






End RoundTrip.


(** ** The fetches, when nothing fails *)

(** X30: when no request fails, the paginated fetches return the
    records of every page they read, in order and once each: the issue
    search reads up to the first page that has no next-page token or no
    issue, the option fetch up to the first page that is flagged last or
    carries no flag, and neither reads a reply beyond that page. *)
Theorem fetches_return_every_page (R : Type)
    (pages : list (Fetch.search_page R)) (last : Fetch.search_page R)
    (rest : list (reply (Fetch.search_page R)))
    (option_pages : list (Fetch.option_page R)) (last_options : Fetch.option_page R)
    (option_rest : list (reply (Fetch.option_page R))) :
  forallb Fetch.continues pages = true ->
  Fetch.continues last = false ->
  forallb Fetch.more_options option_pages = true ->
  Fetch.more_options last_options = false ->
  Fetch.fetch_jira_issues_paginated (map Body (pages ++ [last]) ++ rest)
  = (S (List.length pages), Returned (Fetch.gathered (pages ++ [last])))
  /\ Fetch.fetch_all_options (map Body (option_pages ++ [last_options]) ++ option_rest)
     = (S (List.length option_pages),
        Returned (concat (map Fetch.values (option_pages ++ [last_options])))).
Proof.
  intros Hp Hl Ho Hlo. split.
  - unfold Fetch.fetch_jira_issues_paginated.
    rewrite (search_loop_last pages last rest Hp Hl). reflexivity.
  - unfold Fetch.fetch_all_options.
    rewrite map_app, <- app_assoc. cbn [map app].
    rewrite (options_loop_continues option_pages (Body last_options :: option_rest)
               [] 0 Ho).
    cbn [Fetch.options_loop app Nat.add].
    unfold Fetch.more_options in Hlo. apply negb_false_iff in Hlo. rewrite Hlo.
    rewrite map_app, concat_app. cbn [map concat]. rewrite app_nil_r. reflexivity.
Qed.

Lemma fetches_witness :
  Fetch.fetch_jira_issues_paginated
    (map Body ([Inputs.first_page] ++ [Samples.last_page]) ++ [Fault])
  = (2, Returned ["AMI-1"; "AMI-2"; "AMI-3"])
  /\ Fetch.fetch_all_options
       (map Body ([Inputs.first_option_page] ++ [Inputs.last_option_page]) ++ [Fault])
     = (2, Returned ["Finance"; "HR"]).
Proof.
  exact (fetches_return_every_page string [Inputs.first_page] Samples.last_page [Fault]
           [Inputs.first_option_page] Inputs.last_option_page [Fault]
           eq_refl eq_refl eq_refl eq_refl).
Defined.

(** ** The run over the business domains *)

Section WorkflowFacts.
Import Workflow.

Variable auto : bool.
Variable fill_success : nat -> nat.
Variable table_update_ok : nat -> bool.
Variable table : automation_table.
Variable domains_data : list Domains.entry.

Lemma table_keys (id : string) :
  str_in id (map fst table)
  = match dict_get String.eqb id table with Some _ => true | None => false end.
Proof.
  induction table as [|[k v] t IH]; [reflexivity|].
  cbn [map fst dict_get]. unfold str_in in *. cbn [existsb].
  destruct (id =? k); [reflexivity|exact IH].
Qed.

Lemma info_has_id (id : string) (info : Domains.domain_info) :
  get_business_domain_info_from_json id domains_data = Some info ->
  Domains.info_sys_id info = Some id.
Proof.
  induction domains_data as [|e l IH]; [discriminate|].
  cbn [get_business_domain_info_from_json]. destruct e as [|d]; [exact IH|].
  destruct (get (Domains.sys_id d)) as [s|] eqn:E; cbn [opt_is]; [|exact IH].
  destruct (s =? id) eqn:Es; [|exact IH].
  apply String.eqb_eq in Es. subst s. intros [= <-]. reflexivity.
Qed.

Lemma process_one_calls (st : stats) (id : string) :
  calls (process_one auto fill_success table_update_ok table domains_data st id)
  = (calls st ++ calls_of_step1 auto table domains_data id)%list.
Proof.
  unfold process_one, calls_of_step1.
  destruct (dict_get String.eqb id table) as [name|].
  - unfold _handle_existing_domain, fill.
    destruct (0 <? fill_success (fills st))%nat; reflexivity.
  - unfold _handle_new_domain, fill.
    destruct (get_business_domain_info_from_json id domains_data) as [info|];
      [|cbn; rewrite app_nil_r; reflexivity].
    destruct (0 <? fill_success (fills st))%nat; destruct auto; cbn [negb];
      try reflexivity.
    all: match goal with
         | |- context [if table_update_ok ?k then _ else _] =>
             destruct (table_update_ok k)
         end; cbn; rewrite <- app_assoc; reflexivity.
Qed.

Lemma activate_one_calls (st : stats) (id : string) :
  calls (activate_one fill_success table domains_data st id)
  = (calls st ++ calls_of_step2 table domains_data id)%list.
Proof.
  unfold activate_one, calls_of_step2.
  destruct (dict_get String.eqb id table) as [name|]; [|rewrite app_nil_r; reflexivity].
  destruct (Py.contains (Py.lower name) "(planned)"); cbn [negb andb];
    [|rewrite app_nil_r; reflexivity].
  destruct (match _get_operational_status id domains_data with
            | Some s => str_in s ["1"; ""]
            | None => true
            end); cbn [negb]; [|rewrite app_nil_r; reflexivity].
  unfold fill. destruct (0 <? fill_success (fills st))%nat; reflexivity.
Qed.

Lemma step1_calls (ids : list string) (st : stats) :
  calls (_process_domains_with_issues auto fill_success table_update_ok table
           domains_data ids st)
  = (calls st ++ flat_map (calls_of_step1 auto table domains_data) ids)%list.
Proof.
  unfold _process_domains_with_issues. revert st.
  induction ids as [|id ids IH]; intros st.
  - cbn. rewrite app_nil_r. reflexivity.
  - cbn [fold_left flat_map]. rewrite IH, process_one_calls, app_assoc. reflexivity.
Qed.

Lemma step2_calls (ids : list string) (st : stats) :
  calls (_activate_planned_domains fill_success table domains_data ids st)
  = (calls st ++ flat_map (calls_of_step2 table domains_data) ids)%list.
Proof.
  unfold _activate_planned_domains. revert st.
  induction ids as [|id ids IH]; intros st.
  - cbn. rewrite app_nil_r. reflexivity.
  - cbn [fold_left flat_map]. rewrite IH, activate_one_calls, app_assoc. reflexivity.
Qed.

Lemma step1_rows_ok (ids : list string) (id : string) :
  str_in id ids = true ->
  forallb (row_for_new_domain table ids) (calls_of_step1 auto table domains_data id)
  = true.
Proof.
  intros Hin. unfold calls_of_step1.
  destruct (dict_get String.eqb id table) as [name|] eqn:Et; [reflexivity|].
  destruct (get_business_domain_info_from_json id domains_data) as [info|] eqn:Ei;
    [|reflexivity].
  destruct auto; [|reflexivity].
  cbn [forallb row_for_new_domain Domains.is_planned Domains.added negb andb].
  rewrite (info_has_id id info Ei), Hin, table_keys, Et. reflexivity.
Qed.

Lemma step2_fills_only (id : string) :
  forallb is_fill (calls_of_step2 table domains_data id) = true.
Proof.
  unfold calls_of_step2.
  destruct (dict_get String.eqb id table); [|reflexivity].
  destruct (_ && _); reflexivity.
Qed.

Lemma forallb_flat_map {A B : Type} (P : B -> bool) (f : A -> list B) (l : list A) :
  (forall a, In a l -> forallb P (f a) = true) ->
  forallb P (flat_map f l) = true.
Proof.
  induction l as [|a l IH]; intros H; [reflexivity|].
  cbn [flat_map]. rewrite forallb_app, (H a (or_introl eq_refl)).
  apply IH. intros b Hb. apply H. right. exact Hb.
Qed.

Lemma str_in_In (id : string) (ids : list string) :
  In id ids -> str_in id ids = true.
Proof.
  intros H. unfold str_in. apply existsb_exists. exists id.
  split; [exact H|apply String.eqb_refl].
Qed.

(** X24: the rows of one run are of two kinds that never meet. A row
    added while the domains with issues are processed is flagged not
    planned and is for an id with issues that the table does not hold;
    a row added by the last step is flagged planned, has a name, and its
    id (when it has one) is neither an id with issues nor an id of the
    table. So the last step adds nothing for a domain with issues, and
    no step adds a row for an id of the table. *)
Theorem run_rows_are_for_unknown_domains (unique_domain_ids : list string) :
  let '(step1, step2, step3) :=
    process_business_domains auto fill_success table_update_ok table domains_data
      unique_domain_ids in
  forallb (row_for_new_domain table unique_domain_ids) (calls step2) = true
  /\ forallb (DomainChecks.row_ok (map fst table) unique_domain_ids)
       (Domains.calls step3) = true
  /\ forall id, str_in id unique_domain_ids = true -> Domains.adds_for id step3 = 0.
Proof.
  unfold process_business_domains.
  destruct (negb (nonempty domains_data)); [repeat split|].
  set (step1 := _process_domains_with_issues _ _ _ _ _ _ _).
  set (step2 := _activate_planned_domains _ _ _ _ _).
  assert (H3 : forallb (DomainChecks.row_ok (map fst table) unique_domain_ids)
                 (Domains.calls
                    (Domains._add_missing_domains_to_confluence auto
                       (fun k => table_update_ok (rows step2 + k)) domains_data
                       (map fst table) unique_domain_ids)) = true).
  { apply (fold_add_missing_inv auto (fun k => table_update_ok (rows step2 + k))
             (map fst table) unique_domain_ids domains_data Domains.initial).
    split; reflexivity. }
  split; [|split; [exact H3|]].
  - subst step2 step1. rewrite step2_calls, step1_calls. cbn [calls no_stats app].
    rewrite forallb_app. apply andb_true_iff. split.
    + apply forallb_flat_map. intros id Hid. apply step1_rows_ok, str_in_In, Hid.
    + apply forallb_flat_map. intros id _.
      pose proof (step2_fills_only id) as Hf.
      rewrite forallb_forall in Hf. apply forallb_forall. intros c Hc.
      specialize (Hf c Hc). destruct c; [reflexivity|discriminate].
  - intros id Hid. unfold Domains.adds_for.
    rewrite forallb_forall in H3.
    match goal with
    | |- List.length (filter ?P ?l) = 0 =>
        assert (E : filter P l = []); [|rewrite E; reflexivity]
    end.
    match goal with
    | |- filter ?P ?l = [] =>
        destruct (filter P l) as [|c rest] eqn:E; [reflexivity|];
        assert (Hc : In c (filter P l)) by (rewrite E; left; reflexivity)
    end.
    apply filter_In in Hc as [Hc Hm]. specialize (H3 c Hc).
    unfold DomainChecks.row_ok in H3.
    destruct (Domains.info_sys_id (Domains.added c)) as [s|]; [|discriminate].
    cbn [opt_is opt_in] in *. apply String.eqb_eq in Hm. subst s.
    rewrite Hid in H3. cbn in H3. rewrite andb_false_r in H3. discriminate.
Qed.
Lemma fills_with_call (c : call) (st : stats) :
  fills (with_call c st) = fills st + (if is_fill c then 1 else 0)
  /\ rows (with_call c st) = rows st + (if is_fill c then 0 else 1).
Proof.
  unfold fills, rows, with_call. cbn [calls].
  rewrite !filter_app, !length_app. cbn [filter].
  destruct (is_fill c); cbn [negb List.length]; split; lia.
Qed.

Ltac count_calls :=
  repeat first
    [ progress change (fills (bump_executed ?s)) with (fills s)
    | progress change (fills (bump_not_found ?s)) with (fills s)
    | progress change (fills (bump_activated ?s)) with (fills s)
    | progress change (fills (bump_errors ?s)) with (fills s)
    | progress change (rows (bump_executed ?s)) with (rows s)
    | progress change (rows (bump_not_found ?s)) with (rows s)
    | progress change (rows (bump_activated ?s)) with (rows s)
    | progress change (rows (bump_errors ?s)) with (rows s)
    | rewrite (proj1 (fills_with_call _ _))
    | rewrite (proj2 (fills_with_call _ _)) ];
  cbn [is_fill bump_executed bump_not_found bump_activated bump_errors with_call
       executed not_found activated errors].

Lemma process_one_counts (st : stats) (id : string) :
  not_found (process_one auto fill_success table_update_ok table domains_data st id)
  = not_found st + (if counted_not_found auto table domains_data id then 1 else 0)
  /\ (executed st + activated st <= fills st ->
      executed (process_one auto fill_success table_update_ok table domains_data st id)
      + activated (process_one auto fill_success table_update_ok table domains_data st id)
      <= fills (process_one auto fill_success table_update_ok table domains_data st id))
  /\ (errors st <= rows st ->
      errors (process_one auto fill_success table_update_ok table domains_data st id)
      <= rows (process_one auto fill_success table_update_ok table domains_data st id))
  /\ (auto = false ->
      rows (process_one auto fill_success table_update_ok table domains_data st id)
      = rows st
      /\ errors (process_one auto fill_success table_update_ok table domains_data st id)
         = errors st).
Proof.
  unfold process_one, counted_not_found. rewrite table_keys.
  destruct (dict_get String.eqb id table) as [name|]; cbn [negb andb].
  - unfold _handle_existing_domain, fill.
    destruct (0 <? fill_success (fills st))%nat;
      count_calls; repeat split; intros; lia.
  - unfold _handle_new_domain, fill.
    destruct (get_business_domain_info_from_json id domains_data) as [info|].
    + destruct auto; cbn [negb orb];
        destruct (0 <? fill_success (fills st))%nat;
        try match goal with
            | |- context [if table_update_ok ?k then _ else _] =>
                destruct (table_update_ok k)
            end;
        count_calls; repeat split; intros; try discriminate; lia.
    + rewrite orb_true_r. count_calls. repeat split; intros; lia.
Qed.

Lemma activate_one_counts (st : stats) (id : string) :
  not_found (activate_one fill_success table domains_data st id) = not_found st
  /\ (executed st + activated st <= fills st ->
      executed (activate_one fill_success table domains_data st id)
      + activated (activate_one fill_success table domains_data st id)
      <= fills (activate_one fill_success table domains_data st id))
  /\ rows (activate_one fill_success table domains_data st id) = rows st
  /\ errors (activate_one fill_success table domains_data st id) = errors st.
Proof.
  unfold activate_one.
  destruct (dict_get String.eqb id table) as [name|]; [|repeat split; auto].
  destruct (negb (Py.contains (Py.lower name) "(planned)")); [repeat split; auto|].
  destruct (negb _); [repeat split; auto|].
  unfold fill.
  destruct (0 <? fill_success (fills st))%nat;
    count_calls; repeat split; intros; lia.
Qed.

(** X25: the counter of domains not found counts exactly the ids with
    issues that the table lacks and that either the export does not know
    or, with the automatic update off, whatever the export says. A
    domain is counted as executed or activated only after a fill, an
    error only after a table update; with the automatic update off the
    first two steps add no row and count no error. *)
Theorem not_found_counts_unlisted_domains (unique_domain_ids : list string) :
  let step1 :=
    _process_domains_with_issues auto fill_success table_update_ok table domains_data
      unique_domain_ids no_stats in
  let step2 :=
    _activate_planned_domains fill_success table domains_data unique_domain_ids step1 in
  not_found step2
  = List.length (filter (counted_not_found auto table domains_data) unique_domain_ids)
  /\ executed step2 + activated step2 <= fills step2
  /\ errors step2 <= rows step2
  /\ (auto = false -> rows step2 = 0 /\ errors step2 = 0).
Proof.
  assert (S1 : forall ids st,
            let st' := _process_domains_with_issues auto fill_success table_update_ok
                         table domains_data ids st in
            not_found st'
            = not_found st
              + List.length (filter (counted_not_found auto table domains_data) ids)
            /\ (executed st + activated st <= fills st ->
                executed st' + activated st' <= fills st')
            /\ (errors st <= rows st -> errors st' <= rows st')
            /\ (auto = false -> rows st' = rows st /\ errors st' = errors st)).
  { unfold _process_domains_with_issues.
    induction ids as [|id ids IH]; intros st; cbv zeta.
    - cbn [fold_left filter List.length]. repeat split; auto.
    - cbn [fold_left filter].
      specialize (IH (process_one auto fill_success table_update_ok table
                        domains_data st id)).
      cbv zeta in IH. destruct IH as (I1 & I2 & I3 & I4).
      destruct (process_one_counts st id) as (P1 & P2 & P3 & P4).
      repeat split.
      + rewrite I1, P1.
        destruct (counted_not_found auto table domains_data id); cbn [List.length]; lia.
      + intros H. apply I2, P2, H.
      + intros H. apply I3, P3, H.
      + destruct (I4 H) as [-> _]. apply P4, H.
      + destruct (I4 H) as [_ ->]. apply P4, H. }
  assert (S2 : forall ids st,
            let st' := _activate_planned_domains fill_success table domains_data
                         ids st in
            not_found st' = not_found st
            /\ (executed st + activated st <= fills st ->
                executed st' + activated st' <= fills st')
            /\ rows st' = rows st /\ errors st' = errors st).
  { unfold _activate_planned_domains.
    induction ids as [|id ids IH]; intros st; cbv zeta.
    - cbn [fold_left]. repeat split; auto.
    - cbn [fold_left].
      specialize (IH (activate_one fill_success table domains_data st id)).
      cbv zeta in IH. destruct IH as (I1 & I2 & I3 & I4).
      destruct (activate_one_counts st id) as (P1 & P2 & P3 & P4).
      repeat split.
      + rewrite I1, P1. reflexivity.
      + intros H. apply I2, P2, H.
      + rewrite I3, P3. reflexivity.
      + rewrite I4, P4. reflexivity. }
  intros step1 step2.
  destruct (S1 unique_domain_ids no_stats) as (A1 & A2 & A3 & A4).
  destruct (S2 unique_domain_ids step1) as (B1 & B2 & B3 & B4).
  cbv zeta in *. fold step1 in A1, A2, A3, A4. fold step2 in B1, B2, B3, B4.
  repeat split.
  - rewrite B1, A1. reflexivity.
  - apply B2, A2. cbn. lia.
  - rewrite B3, B4. apply A3. cbn. lia.
  - rewrite B3. destruct (A4 H) as [-> _]. reflexivity.
  - rewrite B4. destruct (A4 H) as [_ ->]. reflexivity.
Qed.

(** X26: a fill of the activation step always comes second. Step 2 only
    fills; each of its fills is for an id with issues whose table name
    holds the planned marker, and step 1 has already sent a fill for
    that id with the name of the table as it stands, marker included. *)
Theorem activation_fill_follows_a_plain_fill (unique_domain_ids : list string) :
  let '(step1, step2, _) :=
    process_business_domains auto fill_success table_update_ok table domains_data
      unique_domain_ids in
  exists later,
    calls step2 = (calls step1 ++ later)%list
    /\ forallb is_fill later = true
    /\ forall id clean_name,
         In (Fill id clean_name) later ->
         exists domain_name,
           dict_get String.eqb id table = Some domain_name
           /\ Py.contains (Py.lower domain_name) "(planned)" = true
           /\ In (Fill id domain_name) (calls step1).
Proof.
  unfold process_business_domains.
  destruct (negb (nonempty domains_data)).
  { exists []. repeat split. intros id n []. }
  exists (flat_map (calls_of_step2 table domains_data) unique_domain_ids).
  split; [apply step2_calls|]. split.
  - apply forallb_flat_map. intros id _. apply step2_fills_only.
  - intros id clean_name Hin. apply in_flat_map in Hin as (id' & Hid & Hc).
    unfold calls_of_step2 in Hc.
    destruct (dict_get String.eqb id' table) as [name|] eqn:Et; [|destruct Hc].
    destruct (Py.contains (Py.lower name) "(planned)") eqn:Ep; cbn [andb] in Hc;
      [|destruct Hc].
    destruct (match _get_operational_status id' domains_data with
              | Some s => str_in s ["1"; ""]
              | None => true
              end); [|destruct Hc].
    destruct Hc as [Hc|[]]. injection Hc as <- _.
    exists name. repeat split; [exact Et|exact Ep|].
    rewrite step1_calls. cbn [calls no_stats app].
    apply in_flat_map. exists id'. split; [exact Hid|].
    unfold calls_of_step1. rewrite Et. left. reflexivity.
Qed.
End WorkflowFacts.

(** ** The new domains of the main workflow *)

Section NewDomains.
Import Workflow.

Variable table_update_ok : nat -> bool.
Variable table : automation_table.
Variable domains_data : list Domains.entry.

Lemma filter_length_perm {A : Type} (P : A -> bool) (l l' : list A) :
  Permutation l l' -> List.length (filter P l) = List.length (filter P l').
Proof.
  induction 1 as [|x l l' _ IH|x y l|l l' l'' _ IH1 _ IH2]; cbn [filter].
  - reflexivity.
  - destruct (P x); cbn [List.length]; congruence.
  - destruct (P x), (P y); reflexivity.
  - congruence.
Qed.

Lemma info_of_known (id : string) :
  match get_business_domain_info_from_json id domains_data with
  | Some info => Domains.info_sys_id info = Some id
  | None => True
  end.
Proof.
  induction domains_data as [|e l IH]; [exact I|].
  cbn [get_business_domain_info_from_json]. destruct e as [|d]; [exact IH|].
  destruct (get (Domains.sys_id d)) as [s|] eqn:E; cbn [opt_is]; [|exact IH].
  destruct (s =? id) eqn:Es; [|exact IH].
  apply String.eqb_eq in Es. subst s. reflexivity.
Qed.

Lemma process_new_fold (l : list string) (added0 : list Domains.table_add)
    (processed0 : nat) :
  let '(added, processed) :=
    fold_left (process_new_one table_update_ok table domains_data) l
      (added0, processed0) in
  map (fun r => Domains.info_sys_id (Domains.added r)) added
  = (map (fun r => Domains.info_sys_id (Domains.added r)) added0
     ++ map Some (filter (fun id => negb (str_in id (map fst table))
                                    && known_domain domains_data id) l))%list
  /\ (forallb (fun r => negb (Domains.is_planned r)) added0 = true ->
      forallb (fun r => negb (Domains.is_planned r)) added = true)
  /\ processed + DomainChecks.succeeded table_update_ok (List.length added0)
     = processed0 + List.length (filter (fun id => str_in id (map fst table)) l)
       + DomainChecks.succeeded table_update_ok (List.length added).
Proof.
  revert added0 processed0. induction l as [|id l IH]; intros added0 processed0.
  - cbn [fold_left filter map List.length]. rewrite app_nil_r. repeat split; auto.
  - cbn [fold_left filter]. unfold process_new_one at 2.
    assert (Ek : known_domain domains_data id
                 = match get_business_domain_info_from_json id domains_data with
                   | Some _ => true
                   | None => false
                   end) by reflexivity.
    rewrite Ek. clear Ek.
    destruct (str_in id (map fst table)) eqn:Et; cbn [negb andb].
    + specialize (IH added0 (S processed0)).
      destruct (fold_left _ l (added0, S processed0)) as [added processed].
      destruct IH as (I1 & I2 & I3). repeat split; [exact I1|exact I2|].
      cbn [List.length]. lia.
    + pose proof (info_of_known id) as Hk.
      destruct (get_business_domain_info_from_json id domains_data) as [info|].
      * destruct (table_update_ok (List.length added0)) eqn:Eo.
        -- specialize (IH (added0 ++ [{| Domains.added := info;
                                         Domains.is_planned := false |}])%list
                         (S processed0)).
           destruct (fold_left _ l _) as [added processed].
           destruct IH as (I1 & I2 & I3). repeat split.
           ++ rewrite I1, map_app. cbn [map Domains.added]. rewrite Hk.
              rewrite <- app_assoc. reflexivity.
           ++ intros H. apply I2. rewrite forallb_app, H. reflexivity.
           ++ rewrite length_app, Nat.add_1_r, succeeded_S, Eo in I3. lia.
        -- specialize (IH (added0 ++ [{| Domains.added := info;
                                         Domains.is_planned := false |}])%list
                         processed0).
           destruct (fold_left _ l _) as [added processed].
           destruct IH as (I1 & I2 & I3). repeat split.
           ++ rewrite I1, map_app. cbn [map Domains.added]. rewrite Hk.
              rewrite <- app_assoc. reflexivity.
           ++ intros H. apply I2. rewrite forallb_app, H. reflexivity.
           ++ rewrite length_app, Nat.add_1_r, succeeded_S, Eo in I3. lia.
      * specialize (IH added0 processed0).
        destruct (fold_left _ l (added0, processed0)) as [added processed].
        exact IH.
Qed.

(** X27: the processing of the new domains tries one table update for
    each id that the table lacks and the export knows, in sorted order
    of the ids and with the row flagged not planned; the number it
    returns counts the ids already in the table and the updates that
    succeeded, so it never exceeds the number of ids. *)
Theorem new_domains_are_added_in_order (domain_ids : list string) :
  let '(added, processed) :=
    process_new_business_domains table_update_ok domain_ids domains_data table in
  map (fun r => Domains.info_sys_id (Domains.added r)) added
  = map Some (filter (fun id => negb (str_in id (map fst table))
                                && known_domain domains_data id)
                (sorted_by String.leb domain_ids))
  /\ forallb (fun r => negb (Domains.is_planned r)) added = true
  /\ processed
     = List.length (filter (fun id => str_in id (map fst table)) domain_ids)
       + DomainChecks.succeeded table_update_ok (List.length added)
  /\ processed <= List.length domain_ids.
Proof.
  unfold process_new_business_domains.
  pose proof (process_new_fold (sorted_by String.leb domain_ids) [] 0) as H.
  destruct (fold_left _ (sorted_by String.leb domain_ids) ([], 0))
    as [added processed].
  destruct H as (H1 & H2 & H3).
  cbn [map app List.length] in H1, H3.
  change (DomainChecks.succeeded table_update_ok 0) with 0 in H3.
  pose proof (sorted_by_perm String.leb domain_ids) as Hp.
  rewrite <- (filter_length_perm _ _ _ Hp) in H3.
  assert (E : processed
              = List.length (filter (fun id => str_in id (map fst table)) domain_ids)
                + DomainChecks.succeeded table_update_ok (List.length added)) by lia.
  repeat split; [exact H1|apply H2; reflexivity|exact E|].
  assert (Hl : List.length added
               = List.length (filter (fun id => negb (str_in id (map fst table))
                                               && known_domain domains_data id)
                                (sorted_by String.leb domain_ids))).
  { rewrite <- (length_map (fun r => Domains.info_sys_id (Domains.added r)) added), H1.
    apply length_map. }
  rewrite <- (filter_length_perm _ _ _ Hp) in Hl.
  assert (Hs : DomainChecks.succeeded table_update_ok (List.length added)
               <= List.length added).
  { unfold DomainChecks.succeeded.
    pose proof (filter_length_le table_update_ok (seq 0 (List.length added))) as Hs.
    rewrite length_seq in Hs. exact Hs. }
  pose proof (filter_length (fun id => str_in id (map fst table)) domain_ids) as Hf.
  assert (Hn : List.length (filter (fun id => negb (str_in id (map fst table))
                                              && known_domain domains_data id)
                               domain_ids)
               <= List.length (filter (fun id => negb (str_in id (map fst table)))
                                 domain_ids)).
  { clear. induction domain_ids as [|id l IH]; [reflexivity|].
    cbn [filter]. destruct (negb (str_in id (map fst table))); cbn [andb].
    - destruct (known_domain domains_data id); cbn [List.length]; lia.
    - exact IH. }
  lia.
Qed.
End NewDomains.

(** ** The current tree *)

Section CurrentTree.
Import Cascade.

Lemma add_option_none (parents : list (string * string)) (l : list jira_option) :
  fold_left (add_option parents) l None = None.
Proof. induction l as [|o l IH]; [reflexivity|exact IH]. Qed.

Lemma tree_get_set (k k' : string) (v : jira_parent) (d : current_structure) :
  dict_get String.eqb k (dict_set String.eqb k' v d)
  = if k =? k' then Some v else dict_get String.eqb k d.
Proof. apply (dict_get_set String.eqb String.eqb_eq). Qed.

Lemma no_parent_no_entry (parents : list (string * string)) (v : string)
    (pre : list jira_option) (acc : current_structure) :
  dict_get String.eqb v acc = None ->
  forallb (fun o => match o_optionId o with
                    | None => negb (o_value o =? v)
                    | Some _ => true
                    end) pre = true ->
  match fold_left (add_option parents) pre (Some acc) with
  | Some current_structure => dict_get String.eqb v current_structure = None
  | None => True
  end.
Proof.
  revert acc. induction pre as [|o pre IH]; intros acc Hacc Hpre; [exact Hacc|].
  cbn [forallb] in Hpre. apply andb_true_iff in Hpre as [Ho Hpre].
  cbn [fold_left add_option].
  destruct (o_optionId o) as [pid|].
  - destruct (Py.truthy_opt (dict_get String.eqb pid parents)); [|apply IH; assumption].
    destruct (dict_get String.eqb (fmt (dict_get String.eqb pid parents)) acc)
      as [data|] eqn:Ed; [|rewrite add_option_none; exact I].
    apply IH; [|exact Hpre]. rewrite tree_get_set.
    destruct (v =? fmt (dict_get String.eqb pid parents)) eqn:Ev; [|exact Hacc].
    apply String.eqb_eq in Ev. subst v. congruence.
  - apply IH; [|exact Hpre]. rewrite tree_get_set.
    apply negb_true_iff in Ho. rewrite String.eqb_sym, Ho. exact Hacc.
Qed.

(** X28: a child option read before its parent option stops the
    construction of the current tree: when the options hold a child
    whose parent is known by id, and no parent option of that value
    comes before the child, the tree is not built, whatever follows. *)
Theorem child_before_parent_breaks_the_tree
    (pre rest : list jira_option) (child : jira_option) (parent_id parent_value : string) :
  o_optionId child = Some parent_id ->
  dict_get String.eqb parent_id (parent_map (pre ++ child :: rest)) = Some parent_value ->
  Py.truthy parent_value = true ->
  forallb (fun o => match o_optionId o with
                    | None => negb (o_value o =? parent_value)
                    | Some _ => true
                    end) pre = true ->
  build_current (pre ++ child :: rest) = None.
Proof.
  intros Hc Hp Ht Hpre.
  assert (K : forall acc : option current_structure,
            match acc with
            | Some cs => dict_get String.eqb parent_value cs = None
            | None => True
            end ->
            add_option (parent_map (pre ++ child :: rest)) acc child = None).
  { intros [cs|] H; [|reflexivity].
    unfold add_option. rewrite Hc, Hp. cbn [Py.truthy_opt fmt]. rewrite Ht, H.
    reflexivity. }
  assert (E : fold_left (add_option (parent_map (pre ++ child :: rest)))
                (pre ++ child :: rest) (Some []) = None).
  { rewrite fold_left_app. cbn [fold_left].
    match goal with
    | |- fold_left _ rest ?x = None => assert (Ex : x = None)
    end.
    { apply K. apply no_parent_no_entry; [reflexivity|exact Hpre]. }
    rewrite Ex. apply add_option_none. }
  unfold build_current. rewrite E. reflexivity.
Qed.
End CurrentTree.

Lemma child_before_parent_witness :
  Cascade.build_current [Inputs.option_billing_under_finance; Inputs.option_finance]
  = None.
Proof.
  exact (child_before_parent_breaks_the_tree [] [Inputs.option_finance]
           Inputs.option_billing_under_finance "10" "Finance"
           eq_refl eq_refl eq_refl eq_refl).
Defined.

(** ** The option ids of the service issues *)

Section DropdownFacts.
Import Dropdown.

Lemma dropdown_fold (options : option_tree) (services : list service_issue)
    (calls0 : list (string * string)) (updated0 : nat) :
  let r := fold_left
             (fun acc issue =>
                match child_id_of options issue with
                | Some child_id =>
                    ((fst acc ++ [(fmt (business_service_name issue), child_id)])%list,
                     S (snd acc))
                | None => acc
                end)
             services (calls0, updated0) in
  snd r + List.length calls0 = updated0 + List.length (fst r)
  /\ forall name id,
       In (name, id) (fst r) ->
       In (name, id) calls0
       \/ exists issue,
            In issue services
            /\ business_service_name issue = Some name
            /\ child_id_of options issue = Some id.
Proof.
  revert calls0 updated0. induction services as [|i l IH]; intros calls0 updated0.
  - cbn [fold_left fst snd]. split; [lia|auto].
  - cbn [fold_left fst snd]. destruct (child_id_of options i) as [cid|] eqn:E.
    + specialize (IH (calls0 ++ [(fmt (business_service_name i), cid)])%list
                    (S updated0)).
      cbv zeta in IH. destruct IH as [I1 I2]. split.
      * rewrite length_app in I1. cbn [List.length] in I1. lia.
      * intros name id Hin. destruct (I2 name id Hin) as [H|(j & Hj & Hn & Hc)].
        -- apply in_app_iff in H as [H|[H|[]]]; [left; exact H|].
           right. exists i. injection H as <- <-.
           split; [left; reflexivity|]. split; [|exact E].
           unfold child_id_of in E.
           destruct (domain_name_of (business_domain i)); [|discriminate].
           destruct (business_service_name i); [reflexivity|discriminate].
        -- right. exists j. split; [right; exact Hj|]. auto.
    + specialize (IH calls0 updated0). cbv zeta in IH. destruct IH as [I1 I2].
      split; [exact I1|].
      intros name id Hin. destruct (I2 name id Hin) as [H|(j & Hj & Hn & Hc)];
        [left; exact H|].
      right. exists j. split; [right; exact Hj|]. auto.
Qed.

(** X29: the update of the option ids needs both loads. A fault while
    the options are loaded, whatever pages came before, leaves an empty
    tree and no call is made; so does a fault while the service issues
    are loaded. Every call made is for a loaded issue whose domain is a
    parent of the tree and whose service name is a child of that parent,
    and carries the id of that child; the counter counts the calls. *)
Theorem option_ids_need_both_loads
    (service_script : list (reply (Fetch.search_page service_issue)))
    (option_script : list (reply (Fetch.option_page Cascade.jira_option))) :
  (forall pre rest,
     forallb Fetch.more_options pre = true ->
     match sync_cascading_dropdown service_script (map Body pre ++ Fault :: rest) with
     | Some r => r = ([], 0)
     | None => True
     end)
  /\ (forall pre rest,
        forallb Fetch.continues pre = true ->
        match sync_cascading_dropdown (map Body pre ++ Fault :: rest) option_script with
        | Some r => r = ([], 0)
        | None => True
        end)
  /\ match sync_cascading_dropdown service_script option_script with
     | Some (calls, updated) =>
         updated = List.length calls
         /\ forall name id,
              In (name, id) calls ->
              exists services options issue,
                snd (Fetch.fetch_jira_issues_paginated service_script) = Returned services
                /\ get_cascading_field_options option_script = Returned options
                /\ In issue services
                /\ business_service_name issue = Some name
                /\ child_id_of options issue = Some id
     | None => True
     end.
Proof.
  repeat split.
  - intros pre rest Hpre. unfold sync_cascading_dropdown.
    destruct (snd (Fetch.fetch_jira_issues_paginated service_script)) as [services| |];
      try exact I.
    unfold get_cascading_field_options.
    rewrite (options_loop_continues pre (Fault :: rest) [] 0 Hpre).
    cbn [Fetch.options_loop snd nonempty negb]. rewrite orb_true_r. reflexivity.
  - intros pre rest Hpre. unfold sync_cascading_dropdown, Fetch.fetch_jira_issues_paginated.
    rewrite (search_loop_continues pre (Fault :: rest) [] 0 Hpre).
    cbn [Fetch.search_loop snd nonempty negb orb].
    destruct (get_cascading_field_options option_script); try exact I. reflexivity.
  - unfold sync_cascading_dropdown.
    destruct (snd (Fetch.fetch_jira_issues_paginated service_script)) as [services| |];
      try exact I.
    destruct (get_cascading_field_options option_script) as [options| |]; try exact I.
    destruct (negb (nonempty services) || negb (nonempty options)).
    + split; [reflexivity|]. intros name id [].
    + pose proof (dropdown_fold options services [] 0) as H. cbv zeta in H.
      destruct (fold_left _ services ([], 0)) as [calls updated].
      cbn [fst snd List.length] in H. destruct H as [H1 H2]. split; [lia|].
      intros name id Hin. destruct (H2 name id Hin) as [[]|(issue & Hi & Hn & Hc)].
      exists services, options, issue. auto.
Qed.
End DropdownFacts.
